(** * PerformanceProfiler (src/monitoring/Profiler.js)

    A shallow embedding of the profiler class: its metric buffers, the
    session life cycle, the three capture methods, the flame-graph
    aggregation, the bottleneck detector and the profile retention pass.

    Conventions.
    - JavaScript numbers that hold integers (millisecond timestamps, byte
      counts, sample counts, microsecond deltas) are [Z].  Durations and
      the averages computed from them are IEEE binary64 numbers, [float],
      added, divided and compared as the engine does, with its rounding,
      its infinities and its [NaN].  A quotient of two integers that is
      only compared or returned (the growth rate, [duration / 100]) is the
      exact rational [Q]: for integers below 2^53 these comparisons decide
      the same way on doubles.
    - A JavaScript [Map] is an association list in insertion order
      ([JsMap]); the methods never create a repeated key.
    - The host (clock, process counters, file system, inspector) is an
      explicit record of oracles indexed by a counter that advances at every
      query, so two consecutive [Date.now()] calls may differ.  [path] is
      the POSIX variant of the module.
    - Methods run in a state-and-exception monad over the pair of the
      profiler object and the host.  An [async] method that throws or
      rejects is a computation ending in [Throw]; a promise that is never
      settled is [Pending].  An error that no handler of the class receives
      (a rejection nobody awaits, an ['error'] event without listener) is
      the effect [Unhandled].  Interleaving of timers with a pending
      capture is not modelled, nor are the resource limits of the engine
      (stack depth, the number of arguments of a spread call). *)

From Stdlib Require Import ZArith QArith List String Ascii Bool Lia DecimalString
  Sorted Floats.
Import ListNotations.

Open Scope string_scope.
Open Scope Z_scope.
Open Scope list_scope.

(** ** Insertion-ordered maps *)

Module JsMap.
Section Ops.
Context {K V : Type}.
Variable eqb : K -> K -> bool.

Definition t := list (K * V).

Fixpoint get (k : K) (m : t) : option V :=
  match m with
  | [] => None
  | (k', v) :: m' => if eqb k k' then Some v else get k m'
  end.

Definition has (k : K) (m : t) : bool :=
  match get k m with Some _ => true | None => false end.

(** [Map.prototype.set]: an existing key keeps its position. *)
Fixpoint set (k : K) (v : V) (m : t) : t :=
  match m with
  | [] => [(k, v)]
  | (k', v') :: m' =>
      if eqb k k' then (k, v) :: m' else (k', v') :: set k v m'
  end.

Fixpoint delete (k : K) (m : t) : t :=
  match m with
  | [] => []
  | (k', v') :: m' =>
      if eqb k k' then m' else (k', v') :: delete k m'
  end.

Definition keys (m : t) : list K := map fst m.
Definition values (m : t) : list V := map snd m.
End Ops.
End JsMap.

(** Maps keyed by strings (profile ids, operation names, paths). *)
Definition smap (V : Type) : Type := list (string * V).
Definition sget {V} : string -> smap V -> option V := JsMap.get String.eqb.
Definition sset {V} : string -> V -> smap V -> smap V := JsMap.set String.eqb.
Definition sdelete {V} : string -> smap V -> smap V := JsMap.delete String.eqb.

(** ** Data model *)

(** [process.memoryUsage()] *)
Record MemoryUsage := {
  rss : Z;
  heapTotal : Z;
  heapUsed : Z;
  external : Z;
  arrayBuffers : Z
}.

(** [{ timestamp: Date.now(), ...memUsage }] *)
Record MemorySample := {
  mem_timestamp : Z;
  mem_usage : MemoryUsage
}.

(** [process.cpuUsage()] *)
Record CpuUsage := {
  cpu_user : Z;
  cpu_system : Z
}.

Record CpuSample := {
  cpu_timestamp : Z;
  cpu_usage : CpuUsage
}.

(** [entry.detail?.type || 'unknown'] *)
Inductive GcType := GcKind (k : Z) | GcUnknown.

Record GCEvent := {
  gc_timestamp : Z;
  gc_duration : float;
  gc_type : GcType;
  gc_flags : Z
}.

Record OperationRecord := {
  op_timestamp : Z;
  op_duration : float;
  op_startTime : float
}.

Record Mark := {
  mark_timestamp : Z;
  mark_startTime : float
}.

Inductive ProfileType := TCpu | THeap | TMemory.

(** An entry of [this.profiles]; [timestamp] is [new Date()] held as its
    [getTime()] value. *)
Record CapturedProfile := {
  p_type : ProfileType;
  p_filename : string;
  p_filepath : string;
  p_timestamp : Z;
  p_duration : option Z;
  p_size : option Z;
  p_samples : option Z
}.

Record Thresholds := {
  th_cpuUsage : Z;
  th_memoryUsage : Z;
  th_gcFrequency : Z
}.

Record Config := {
  outputDir : string;
  autoProfile : bool;
  profileDuration : Z;
  heapSnapshotInterval : Z;
  performanceThresholds : Thresholds
}.

Definition default_config : Config := {|
  outputDir := "./profiles";
  autoProfile := false;
  profileDuration := 30000;
  heapSnapshotInterval := 300000;
  performanceThresholds := {|
    th_cpuUsage := 80;
    th_memoryUsage := 512 * 1024 * 1024;
    th_gcFrequency := 10 |}
|}.

Record Metrics := {
  m_cpu : list CpuSample;
  m_memory : list MemorySample;
  m_gc : list GCEvent;
  m_operations : smap (list OperationRecord)
}.

(** [this.session]: [null] or a connected [inspector.Session]. *)
Inductive Session := InspectorSession.

Record Profiler := {
  config : Config;
  isRunning : bool;
  profiles : smap CapturedProfile;
  performanceMarks : smap Mark;
  metrics : Metrics;
  session : option Session
}.

(** The fields the constructor initialises.  The merge of the caller's
    options into [config], the subscription of the performance observer
    and the creation of the output directory are not modelled. *)
Definition new_profiler (c : Config) : Profiler := {|
  config := c;
  isRunning := false;
  profiles := [];
  performanceMarks := [];
  metrics := {| m_cpu := []; m_memory := []; m_gc := []; m_operations := [] |};
  session := None
|}.

(** ** Raw CPU profiles and flame graphs *)

Record CallFrame := {
  functionName : string;
  url : string;
  lineNumber : Z;
  columnNumber : Z
}.

Record ProfileNode := {
  node_id : Z;
  callFrame : CallFrame
}.

Record RawProfile := {
  nodes : list ProfileNode;
  samples : list Z;
  timeDeltas : list Z;
  startTime : Z;
  endTime : Z
}.

(** The record stored in [nodeMap]: the node with [index], [selfTime] and
    [totalTime] added ([children] stays empty and is never read). *)
Record NodeAgg := {
  agg_node : ProfileNode;
  agg_index : nat;
  selfTime : Z;
  totalTime : Z
}.

Record FlameNode := {
  fl_name : string;
  fl_value : Z;
  fl_url : string;
  fl_line : Z;
  fl_column : Z
}.

Record FlameGraph := {
  fg_name : string;
  fg_value : Z;
  fg_children : list FlameNode
}.

(** ** Memory-profile summaries *)

Record Stat := {
  st_min : Z;
  st_max : Z;
  st_avg : float
}.

Record MemorySummary := {
  s_heapUsed : Stat;
  s_heapTotal : Stat;
  s_external : Stat;
  s_growthRate : Q
}.

(** The object serialised by [profileMemory]; [mp_summary = None] is the
    empty object [{}]. *)
Record MemoryProfileData := {
  mp_profileId : string;
  mp_duration : Z;
  mp_samples : list MemorySample;
  mp_summary : option MemorySummary
}.

(** What a written file holds.  [JSON.stringify] is not modelled: a file
    keeps the value that was serialised into it. *)
Inductive Artifact :=
| CpuProfileFile (p : RawProfile)
| HeapSnapshotFile (chunks : list string)
| MemoryProfileFile (d : MemoryProfileData).

(** ** Bottlenecks *)

Inductive BottleneckType := high_gc_frequency | memory_leak | slow_operation.
Inductive Severity := warning | critical.

(** The [data] object; the [message] string is a rendering of the same
    fields and is not kept separately. *)
Inductive BottleneckData :=
| GcData (count : nat) (threshold : Z)
| LeakData (growthRate : Q)
| SlowData (operation : string) (avgDuration : float) (count : nat).

Record Bottleneck := {
  b_type : BottleneckType;
  b_severity : Severity;
  b_data : BottleneckData
}.

(** ** Observable effects *)

Inductive Error :=
| SessionNotActive                (* new Error('Profiler session not active') *)
| HostFailure (code : string).    (* an error raised by the host *)

Inductive Level := LDebug | LInfo | LWarn | LError | LSuccess.

(** One constructor per message template passed to the logger. *)
Inductive LogMsg :=
| MsgAlreadyRunning
| MsgStarting
| MsgInspectorConnected
| MsgStopping
| MsgAutoProfileFailed (e : Error)
| MsgStartingCpuProfile (id : string) (duration : Z)
| MsgCpuProfileSaved (filename : string)
| MsgTakingHeapSnapshot (id : string)
| MsgHeapSnapshotSaved (filename : string) (size : Z)
| MsgStartingMemoryProfile (id : string) (duration : Z)
| MsgMemoryProfileSaved (filename : string)
| MsgSaveMemoryProfileFailed (e : Error)
| MsgDeletedOldProfile (filename : string)
| MsgDeleteProfileFailed (filename : string) (e : Error)
| MsgCleanedUp (n : nat)
| MsgFunction (name : string) (duration : float).

Inductive Event :=
| EvStarted
| EvStopped
| EvHighGcFrequency (count : nat) (threshold : Z)
| EvHighMemoryUsage (current threshold : Z)
| EvSlowOperation (operation : string) (duration : float) (threshold : Z)
| EvProfileComplete (ty : ProfileType) (profileId filepath : string).

Inductive Timer := MonitorTimer | AutoProfileTimer | MemorySampleTimer.

Inductive Effect :=
| Log (lvl : Level) (msg : LogMsg)
| Emit (ev : Event)
| InspectorOpen
| SessionConnect
| SessionDisconnect
| SessionPost (method : string)
| SetTimeout (ms : Z)
| SetInterval (tm : Timer) (ms : Z)
| ClearInterval (tm : Timer)
| Unhandled (e : Error).

(** ** The host *)

(** What the host answers.  The oracles are fixed during a run;
    [inspector_url] is the state of the inspector, which a successful
    [inspector.open()] changes and nothing in the class resets. *)
Record Env := {
  clock : nat -> Z;                    (* Date.now() at each query *)
  memoryUsage : nat -> MemoryUsage;    (* process.memoryUsage() *)
  cpuUsage : nat -> CpuUsage;          (* process.cpuUsage() *)
  denied : string -> bool;             (* paths the file system refuses *)
  inspector_url : bool;                (* inspector.url() is set *)
  inspector_ok : bool;                 (* inspector.open() succeeds *)
  has_require : bool;                  (* a global [require] exists *)
  cpu_capture : nat -> Error + RawProfile;      (* reply to Profiler.stop *)
  heap_capture : nat -> Error + list string;    (* snapshot chunks *)
  byteLength : RawProfile -> Z         (* bytes of the serialised profile *)
}.

Record Host := {
  env : Env;
  tick : nat;                          (* number of host queries so far *)
  files : smap Artifact;               (* the file system *)
  trace : list Effect                  (* effects so far, oldest first *)
}.

Record World := {
  self : Profiler;
  host : Host
}.

Definition set_inspector_url (b : bool) (e : Env) : Env :=
  {| clock := clock e; memoryUsage := memoryUsage e; cpuUsage := cpuUsage e;
     denied := denied e; inspector_url := b; inspector_ok := inspector_ok e;
     has_require := has_require e; cpu_capture := cpu_capture e;
     heap_capture := heap_capture e; byteLength := byteLength e |}.

Definition set_env (e : Env) (h : Host) : Host :=
  {| env := e; tick := tick h; files := files h; trace := trace h |}.

Definition set_tick (n : nat) (h : Host) : Host :=
  {| env := env h; tick := n; files := files h; trace := trace h |}.

Definition set_files (fs : smap Artifact) (h : Host) : Host :=
  {| env := env h; tick := tick h; files := fs; trace := trace h |}.

Definition set_trace (tr : list Effect) (h : Host) : Host :=
  {| env := env h; tick := tick h; files := files h; trace := tr |}.

Definition set_isRunning (b : bool) (p : Profiler) : Profiler :=
  {| config := config p; isRunning := b; profiles := profiles p;
     performanceMarks := performanceMarks p; metrics := metrics p;
     session := session p |}.

Definition set_session (s : option Session) (p : Profiler) : Profiler :=
  {| config := config p; isRunning := isRunning p; profiles := profiles p;
     performanceMarks := performanceMarks p; metrics := metrics p;
     session := s |}.

Definition set_profiles (ps : smap CapturedProfile) (p : Profiler) : Profiler :=
  {| config := config p; isRunning := isRunning p; profiles := ps;
     performanceMarks := performanceMarks p; metrics := metrics p;
     session := session p |}.

Definition set_marks (ms : smap Mark) (p : Profiler) : Profiler :=
  {| config := config p; isRunning := isRunning p; profiles := profiles p;
     performanceMarks := ms; metrics := metrics p; session := session p |}.

Definition set_metrics (m : Metrics) (p : Profiler) : Profiler :=
  {| config := config p; isRunning := isRunning p; profiles := profiles p;
     performanceMarks := performanceMarks p; metrics := m;
     session := session p |}.

Definition set_cpu (l : list CpuSample) (m : Metrics) : Metrics :=
  {| m_cpu := l; m_memory := m_memory m; m_gc := m_gc m;
     m_operations := m_operations m |}.

Definition set_memory (l : list MemorySample) (m : Metrics) : Metrics :=
  {| m_cpu := m_cpu m; m_memory := l; m_gc := m_gc m;
     m_operations := m_operations m |}.

Definition set_gc (l : list GCEvent) (m : Metrics) : Metrics :=
  {| m_cpu := m_cpu m; m_memory := m_memory m; m_gc := l;
     m_operations := m_operations m |}.

Definition set_operations (o : smap (list OperationRecord)) (m : Metrics)
  : Metrics :=
  {| m_cpu := m_cpu m; m_memory := m_memory m; m_gc := m_gc m;
     m_operations := o |}.

(** ** The method monad *)

Inductive Result (A : Type) :=
| Ok (a : A)
| Throw (e : Error).
Arguments Ok {A} a.
Arguments Throw {A} e.

Definition M (A : Type) : Type := World -> Result A * World.

Definition ret {A} (a : A) : M A := fun w => (Ok a, w).

Definition bind {A B} (c : M A) (k : A -> M B) : M B :=
  fun w => match c w with
           | (Ok a, w') => k a w'
           | (Throw e, w') => (Throw e, w')
           end.

Definition throw {A} (e : Error) : M A := fun w => (Throw e, w).

(** [try { c } catch (error) { handler error }] *)
Definition try_catch {A} (c : M A) (handler : Error -> M A) : M A :=
  fun w => match c w with
           | (Ok a, w') => (Ok a, w')
           | (Throw e, w') => handler e w'
           end.

Declare Scope js_scope.
Delimit Scope js_scope with js.
Notation "x <- c ;; k" := (bind c (fun x => k))
  (at level 61, c at next level, right associativity) : js_scope.
Notation "c ;; k" := (bind c (fun _ => k))
  (at level 61, right associativity) : js_scope.
Open Scope js_scope.

Definition exec {A} (c : M A) (w : World) : World := snd (c w).
Definition eval {A} (c : M A) (w : World) : Result A := fst (c w).

Definition this : M Profiler := fun w => (Ok (self w), w).

Definition update (f : Profiler -> Profiler) : M unit :=
  fun w => (Ok tt, {| self := f (self w); host := host w |}).

Definition on_host (f : Host -> Host) : M unit :=
  fun w => (Ok tt, {| self := self w; host := f (host w) |}).

Definition effect (e : Effect) : M unit :=
  on_host (fun h => set_trace (trace h ++ [e]) h).

Definition logger (lvl : Level) (msg : LogMsg) : M unit := effect (Log lvl msg).
Definition emit (ev : Event) : M unit := effect (Emit ev).

(** A host query reads the oracle at the current tick and advances it. *)
Definition query {A} (oracle : Env -> nat -> A) : M A :=
  fun w => (Ok (oracle (env (host w)) (tick (host w))),
            {| self := self w; host := set_tick (S (tick (host w))) (host w) |}).

(** Reading a property of the host that needs no query. *)
Definition ask {A} (f : Env -> A) : M A :=
  fun w => (Ok (f (env (host w))), w).

Definition Date_now : M Z := query clock.
Definition process_memoryUsage : M MemoryUsage := query memoryUsage.
Definition process_cpuUsage : M CpuUsage := query cpuUsage.

(** [fs.writeFile]: rejects on a refused path, else creates or replaces. *)
Definition fs_writeFile (path : string) (content : Artifact) : M unit :=
  refused <- ask (fun e => denied e path) ;;
  if refused then throw (HostFailure "EACCES")
  else on_host (fun h => set_files (sset path content (files h)) h).

(** [fs.unlink]: rejects on a refused path and on a missing file. *)
Definition fs_unlink (path : string) : M unit :=
  refused <- ask (fun e => denied e path) ;;
  if refused then throw (HostFailure "EACCES")
  else
    w <- (fun w => (Ok w, w)) ;;
    match sget path (files (host w)) with
    | None => throw (HostFailure "ENOENT")
    | Some _ => on_host (fun h => set_files (sdelete path (files h)) h)
    end.

(** [path.join] (POSIX).  The segments of a path are what stands between
    its slashes. *)
Fixpoint segments (path segment : string) : list string :=
  match path with
  | EmptyString => [segment]
  | String c rest =>
      if Ascii.eqb c "/"
      then segment :: segments rest ""
      else segments rest (segment ++ String c "")%string
  end.

(** [normalizeString]: empty segments and ['.'] are dropped, ['..'] removes
    the segment before it; at the start of a relative path
    ([allowAboveRoot]) it is kept.  [done] holds the segments kept so far,
    the last one first. *)
Fixpoint normalizeString (segs done : list string) (allowAboveRoot : bool)
  : list string :=
  match segs with
  | [] => rev done
  | seg :: rest =>
      if String.eqb seg "" || String.eqb seg "." then
        normalizeString rest done allowAboveRoot
      else if String.eqb seg ".." then
        match done with
        | last :: before =>
            if String.eqb last ".."
            then normalizeString rest
                   (if allowAboveRoot then ".." :: done else done)
                   allowAboveRoot
            else normalizeString rest before allowAboveRoot
        | [] =>
            normalizeString rest (if allowAboveRoot then [".."] else [])
                            allowAboveRoot
        end
      else normalizeString rest (seg :: done) allowAboveRoot
  end.

Definition starts_with_slash (path : string) : bool :=
  match path with
  | String c _ => Ascii.eqb c "/"
  | EmptyString => false
  end.

Fixpoint ends_with_slash (path : string) : bool :=
  match path with
  | EmptyString => false
  | String c EmptyString => Ascii.eqb c "/"
  | String _ rest => ends_with_slash rest
  end.

Definition path_normalize (path : string) : string :=
  if String.eqb path "" then "."
  else
    let isAbsolute := starts_with_slash path in
    let trailingSeparator := ends_with_slash path in
    let normalized :=
      String.concat "/" (normalizeString (segments path "") []
                                         (negb isAbsolute)) in
    if String.eqb normalized "" then
      if isAbsolute then "/" else if trailingSeparator then "./" else "."
    else
      let normalized :=
        if trailingSeparator then (normalized ++ "/")%string else normalized in
      if isAbsolute then ("/" ++ normalized)%string else normalized.

(** [path.join(dir, name)]: the non-empty arguments joined by a slash, then
    normalised. *)
Definition path_join (dir name : string) : string :=
  if String.eqb dir "" then
    if String.eqb name "" then "." else path_normalize name
  else if String.eqb name "" then path_normalize dir
  else path_normalize (dir ++ "/" ++ name)%string.

(** A double from an integer, rounded to the nearest as the engine does
    (exactly, below 2^53). *)
Definition Number_of_Z (z : Z) : float :=
  SF2Prim (binary_normalize prec emax z 0 false).

(** Template-literal rendering of an integer. *)
Definition show_Z (z : Z) : string := NilZero.string_of_int (Z.to_int z).

(** [a > b] on exact rationals. *)
Definition Qgtb (a b : Q) : bool := negb (Qle_bool a b).

(** [for (const x of xs) { body x }] *)
Fixpoint for_of {A} (xs : list A) (body : A -> M unit) : M unit :=
  match xs with
  | [] => ret tt
  | x :: xs' => body x ;; for_of xs' body
  end.

(** [xs.filter(x => p x)] where the callback queries the host. *)
Fixpoint filterM {A} (p : A -> M bool) (xs : list A) : M (list A) :=
  match xs with
  | [] => ret []
  | x :: xs' =>
      keep <- p x ;;
      rest <- filterM p xs' ;;
      ret (if keep then x :: rest else rest)
  end.

(** ** Instrumentation listener *)

Record GCDetail := {
  d_type : option Z;
  d_flags : option Z
}.

Inductive PerformanceEntry :=
| GcEntry (duration : float) (detail : option GCDetail)
| MeasureEntry (name : string) (duration startTime : float)
| MarkEntry (name : string) (startTime : float)
| FunctionEntry (name : string) (duration : float).

(** [x || d] on a possibly missing number: [undefined] and [0] give [d]. *)
Definition or_default (x : option Z) (d : Z) : Z :=
  match x with
  | Some v => if v =? 0 then d else v
  | None => d
  end.

Definition entry_gc_type (detail : option GCDetail) : GcType :=
  match detail with
  | Some d => match d_type d with
              | Some k => if k =? 0 then GcUnknown else GcKind k
              | None => GcUnknown
              end
  | None => GcUnknown
  end.

Definition entry_gc_flags (detail : option GCDetail) : Z :=
  match detail with
  | Some d => or_default (d_flags d) 0
  | None => 0
  end.

(** [gc => gc.timestamp > Date.now() - window], the clock being read at
    every element. *)
Definition newer_than_now {A} (timestamp : A -> Z) (window : Z) (x : A)
  : M bool :=
  now <- Date_now ;;
  ret (timestamp x >? now - window).

Definition _handleGCEntry (duration : float) (detail : option GCDetail)
  : M unit :=
  t <- Date_now ;;
  update (fun p => set_metrics
    (set_gc (m_gc (metrics p) ++
             [{| gc_timestamp := t; gc_duration := duration;
                 gc_type := entry_gc_type detail;
                 gc_flags := entry_gc_flags detail |}])
            (metrics p)) p) ;;
  now <- Date_now ;;
  let oneHourAgo := now - 3600000 in
  update (fun p => set_metrics
    (set_gc (filter (fun gc => gc_timestamp gc >? oneHourAgo)
                    (m_gc (metrics p)))
            (metrics p)) p) ;;
  p <- this ;;
  recentGCs <- filterM (newer_than_now gc_timestamp 60000) (m_gc (metrics p)) ;;
  let gcFrequency := th_gcFrequency (performanceThresholds (config p)) in
  if Z.of_nat (List.length recentGCs) >? gcFrequency
  then emit (EvHighGcFrequency (List.length recentGCs) gcFrequency)
  else ret tt.

Definition _handleMeasureEntry (name : string) (duration startTime : float)
  : M unit :=
  let operation := name in
  p <- this ;;
  (if JsMap.has String.eqb operation (m_operations (metrics p))
   then ret tt
   else update (fun p => set_metrics
          (set_operations (sset operation [] (m_operations (metrics p)))
                          (metrics p)) p)) ;;
  t <- Date_now ;;
  update (fun p =>
    match sget operation (m_operations (metrics p)) with
    | Some records =>
        set_metrics
          (set_operations
             (sset operation
                (records ++ [{| op_timestamp := t; op_duration := duration;
                                op_startTime := startTime |}])
                (m_operations (metrics p)))
             (metrics p)) p
    | None => p
    end) ;;
  if (1000 <? duration)%float
  then emit (EvSlowOperation operation duration 1000)
  else ret tt.

Definition _handleMarkEntry (name : string) (startTime : float) : M unit :=
  t <- Date_now ;;
  update (fun p => set_marks
    (sset name {| mark_timestamp := t; mark_startTime := startTime |}
          (performanceMarks p)) p).

Definition _handleFunctionEntry (name : string) (duration : float) : M unit :=
  logger LDebug (MsgFunction name duration).

Definition _handlePerformanceEntry (entry : PerformanceEntry) : M unit :=
  match entry with
  | GcEntry duration detail => _handleGCEntry duration detail
  | MeasureEntry name duration startTime =>
      _handleMeasureEntry name duration startTime
  | MarkEntry name startTime => _handleMarkEntry name startTime
  | FunctionEntry name duration => _handleFunctionEntry name duration
  end.

(** ** Sampler *)

Definition _collectSystemMetrics : M unit :=
  memUsage <- process_memoryUsage ;;
  cpuUsage <- process_cpuUsage ;;
  t1 <- Date_now ;;
  update (fun p => set_metrics
    (set_memory (m_memory (metrics p) ++
                 [{| mem_timestamp := t1; mem_usage := memUsage |}])
                (metrics p)) p) ;;
  t2 <- Date_now ;;
  update (fun p => set_metrics
    (set_cpu (m_cpu (metrics p) ++
              [{| cpu_timestamp := t2; cpu_usage := cpuUsage |}])
             (metrics p)) p) ;;
  now <- Date_now ;;
  let oneHourAgo := now - 3600000 in
  update (fun p => set_metrics
    (set_memory (filter (fun m => mem_timestamp m >? oneHourAgo)
                        (m_memory (metrics p)))
                (metrics p)) p) ;;
  update (fun p => set_metrics
    (set_cpu (filter (fun c => cpu_timestamp c >? oneHourAgo)
                     (m_cpu (metrics p)))
             (metrics p)) p) ;;
  p <- this ;;
  let limit := th_memoryUsage (performanceThresholds (config p)) in
  if heapUsed memUsage >? limit
  then emit (EvHighMemoryUsage (heapUsed memUsage) limit)
  else ret tt.

(** One firing of the interval set by [_startPerformanceMonitoring]. *)
Definition monitorInterval : M unit :=
  p <- this ;;
  if negb (isRunning p)
  then effect (ClearInterval MonitorTimer)
  else _collectSystemMetrics.

Definition _startPerformanceMonitoring : M unit :=
  effect (SetInterval MonitorTimer 5000).

(** ** Session manager *)

Definition _startAutoProfile : M unit :=
  p <- this ;;
  effect (SetInterval AutoProfileTimer (heapSnapshotInterval (config p))).

(** [inspector.open()]: once it has succeeded, [inspector.url()] is set. *)
Definition inspector_open : M unit :=
  ok <- ask inspector_ok ;;
  if ok then
    effect InspectorOpen ;;
    on_host (fun h => set_env (set_inspector_url true (env h)) h)
  else throw (HostFailure "ERR_INSPECTOR_NOT_AVAILABLE").

Definition start : M unit :=
  p <- this ;;
  if isRunning p then logger LWarn MsgAlreadyRunning
  else
    update (set_isRunning true) ;;
    logger LInfo MsgStarting ;;
    connected <- ask inspector_url ;;
    (if connected
     then logger LWarn MsgInspectorConnected
     else inspector_open) ;;
    update (set_session (Some InspectorSession)) ;;
    effect SessionConnect ;;
    _startPerformanceMonitoring ;;
    (if autoProfile (config p) then _startAutoProfile else ret tt) ;;
    emit EvStarted.

Definition stop : M unit :=
  p <- this ;;
  if negb (isRunning p) then ret tt
  else
    update (set_isRunning false) ;;
    logger LInfo MsgStopping ;;
    p <- this ;;
    match session p with
    | Some _ =>
        effect SessionDisconnect ;;
        update (set_session None)
    | None => ret tt
    end ;;
    emit EvStopped.

(** ** Memory-profile analysis *)

(** [(end - start) / values.length], and [0] below two values. *)
Definition _calculateGrowthRate (values : list Z) : Q :=
  if (List.length values <? 2)%nat then 0%Q
  else
    let start := nth 0 values 0 in
    let end_ := last values 0 in
    let duration := List.length values in
    (inject_Z (end_ - start) / inject_Z (Z.of_nat duration))%Q.

(** [Math.min(...xs)] and [Math.max(...xs)] on a non-empty list; the callers
    return before an empty list reaches them. *)
Definition Math_min (xs : list Z) : Z :=
  match xs with
  | [] => 0
  | x :: rest => fold_left Z.min rest x
  end.

Definition Math_max (xs : list Z) : Z :=
  match xs with
  | [] => 0
  | x :: rest => fold_left Z.max rest x
  end.

(** [xs.reduce((sum, val) => sum + val, 0) / xs.length], each addition and
    the division rounded. *)
Definition average (xs : list Z) : float :=
  (fold_left (fun sum val => sum + Number_of_Z val) xs 0
   / Number_of_Z (Z.of_nat (List.length xs)))%float.

Definition stat_of (xs : list Z) : Stat := {|
  st_min := Math_min xs;
  st_max := Math_max xs;
  st_avg := average xs
|}.

Definition _analyzeMemoryProfile (samples : list MemorySample)
  : option MemorySummary :=
  if (List.length samples =? 0)%nat then None
  else
    let heapUsed_ := map (fun s => heapUsed (mem_usage s)) samples in
    let heapTotal_ := map (fun s => heapTotal (mem_usage s)) samples in
    let external_ := map (fun s => external (mem_usage s)) samples in
    Some {| s_heapUsed := stat_of heapUsed_;
            s_heapTotal := stat_of heapTotal_;
            s_external := stat_of external_;
            s_growthRate := _calculateGrowthRate heapUsed_ |}.

(** ** Capture methods *)

(** The state of the promise a capture returns, when it is not rejected. *)
Inductive Promise (A : Type) :=
| Pending
| Resolved (a : A).
Arguments Pending {A}.
Arguments Resolved {A} a.

(** The callback of [Profiler.stop] is [async (err, { profile }) => ...].
    The session calls it with the error alone when the command fails: the
    destructuring of the missing second argument throws before [reject(err)]
    is reached, inside an async function whose promise nobody holds.  The
    promise of [profileCPU] is then never settled. *)
Definition profileCPU (duration : Z) : M (Promise string) :=
  p <- this ;;
  match session p with
  | None => throw SessionNotActive
  | Some _ =>
      t <- Date_now ;;
      let profileId := ("cpu_" ++ show_Z t)%string in
      logger LInfo (MsgStartingCpuProfile profileId duration) ;;
      effect (SessionPost "Profiler.enable") ;;
      effect (SessionPost "Profiler.start") ;;
      effect (SetTimeout duration) ;;
      effect (SessionPost "Profiler.stop") ;;
      reply <- query cpu_capture ;;
      match reply with
      | inl err =>
          effect (Unhandled (HostFailure "TypeError")) ;;
          ret Pending
      | inr profile =>
          let filename := (profileId ++ ".cpuprofile")%string in
          let filepath := path_join (outputDir (config p)) filename in
          fs_writeFile filepath (CpuProfileFile profile) ;;
          stamp <- Date_now ;;
          size <- ask (fun e => byteLength e profile) ;;
          update (fun p => set_profiles
            (sset profileId
               {| p_type := TCpu; p_filename := filename;
                  p_filepath := filepath; p_timestamp := stamp;
                  p_duration := Some duration; p_size := Some size;
                  p_samples := None |}
               (profiles p)) p) ;;
          logger LSuccess (MsgCpuProfileSaved filename) ;;
          emit (EvProfileComplete TCpu profileId filepath) ;;
          ret (Resolved filepath)
      end
  end.

(** [Buffer.byteLength(chunk)] summed over the chunks. *)
Definition chunks_size (chunks : list string) : Z :=
  fold_left (fun size chunk => size + Z.of_nat (String.length chunk)) chunks 0.

(** What reaches the file of a write stream: nothing on a refused path. *)
Definition stream_write (refused : bool) (path : string) (content : Artifact)
  : M unit :=
  if refused then ret tt
  else on_host (fun h => set_files (sset path content (files h)) h).

(** A stream that could not be opened emits ['error'], for which the method
    registers no listener. *)
Definition stream_error (refused : bool) : M unit :=
  if refused then effect (Unhandled (HostFailure "EACCES")) else ret tt.

(** The write stream is created by [require('fs')], which the module never
    imports: without a global [require] the executor throws.
    [createWriteStream] itself does not throw on a refused path: the stream
    fails when it is opened, after the session has answered, and nothing
    is written.  The callback of [end()] runs on that failure as it does on
    success (Node 15 and later), so the call registers the snapshot and
    resolves all the same.  The chunk listeners that earlier snapshots left
    on the same session write to streams already closed, which changes no
    file; they are not modelled. *)
Definition takeHeapSnapshot : M string :=
  p <- this ;;
  match session p with
  | None => throw SessionNotActive
  | Some _ =>
      t <- Date_now ;;
      let snapshotId := ("heap_" ++ show_Z t)%string in
      logger LInfo (MsgTakingHeapSnapshot snapshotId) ;;
      let filename := (snapshotId ++ ".heapsnapshot")%string in
      let filepath := path_join (outputDir (config p)) filename in
      req <- ask has_require ;;
      (if req then ret tt else throw (HostFailure "ReferenceError")) ;;
      refused <- ask (fun e => denied e filepath) ;;
      stream_write refused filepath (HeapSnapshotFile []) ;;
      effect (SessionPost "HeapProfiler.takeHeapSnapshot") ;;
      reply <- query heap_capture ;;
      match reply with
      | inl err => stream_error refused ;; throw err
      | inr chunks =>
          let size := chunks_size chunks in
          stream_write refused filepath (HeapSnapshotFile chunks) ;;
          stamp <- Date_now ;;
          update (fun p => set_profiles
            (sset snapshotId
               {| p_type := THeap; p_filename := filename;
                  p_filepath := filepath; p_timestamp := stamp;
                  p_duration := None; p_size := Some size;
                  p_samples := None |}
               (profiles p)) p) ;;
          logger LSuccess (MsgHeapSnapshotSaved filename size) ;;
          emit (EvProfileComplete THeap snapshotId filepath) ;;
          stream_error refused ;;
          ret filepath
      end
  end.

(** The callback of [setInterval(..., interval)], run for as many firings as
    the host delivers; [None] when the interval is still armed after them. *)
Fixpoint sampleInterval (firings : nat) (totalSamples : Q)
    (samples : list MemorySample) (sampleCount : Z)
  : M (option (list MemorySample)) :=
  match firings with
  | O => ret None
  | S firings' =>
      memUsage <- process_memoryUsage ;;
      t <- Date_now ;;
      let samples := samples ++ [{| mem_timestamp := t; mem_usage := memUsage |}] in
      let sampleCount := sampleCount + 1 in
      if Qle_bool totalSamples (inject_Z sampleCount)
      then effect (ClearInterval MemorySampleTimer) ;; ret (Some samples)
      else sampleInterval firings' totalSamples samples sampleCount
  end.

Definition profileMemory (firings : nat) (duration : Z)
  : M (Promise (option string)) :=
  t <- Date_now ;;
  let profileId := ("memory_" ++ show_Z t)%string in
  logger LInfo (MsgStartingMemoryProfile profileId duration) ;;
  let interval := 100 in
  let totalSamples := (inject_Z duration / inject_Z interval)%Q in
  effect (SetInterval MemorySampleTimer interval) ;;
  done <- sampleInterval firings totalSamples [] 0 ;;
  match done with
  | None => ret Pending
  | Some samples =>
      p <- this ;;
      let filename := (profileId ++ ".json")%string in
      let filepath := path_join (outputDir (config p)) filename in
      let profileData :=
        {| mp_profileId := profileId; mp_duration := duration;
           mp_samples := samples;
           mp_summary := _analyzeMemoryProfile samples |} in
      try_catch
        (fs_writeFile filepath (MemoryProfileFile profileData) ;;
         stamp <- Date_now ;;
         update (fun p => set_profiles
           (sset profileId
              {| p_type := TMemory; p_filename := filename;
                 p_filepath := filepath; p_timestamp := stamp;
                 p_duration := Some duration; p_size := None;
                 p_samples := Some (Z.of_nat (List.length samples)) |}
              (profiles p)) p) ;;
         logger LSuccess (MsgMemoryProfileSaved filename) ;;
         ret (Resolved (Some filepath)))
        (fun error =>
           logger LError (MsgSaveMemoryProfileFailed error) ;;
           ret (Resolved None))
  end.

(** One firing of the interval set by [_startAutoProfile].  While the
    promise of [profileCPU] is pending the callback stays at its first
    [await]: no snapshot is taken and nothing is logged. *)
Definition profileInterval : M unit :=
  p <- this ;;
  if negb (isRunning p)
  then effect (ClearInterval AutoProfileTimer)
  else
    try_catch
      (captured <- profileCPU (profileDuration (config p)) ;;
       match captured with
       | Pending => ret tt
       | Resolved _ => takeHeapSnapshot ;; ret tt
       end)
      (fun error => logger LError (MsgAutoProfileFailed error)).

(** ** Flame graph *)

Definition zget {V} : Z -> list (Z * V) -> option V := JsMap.get Z.eqb.
Definition zset {V} : Z -> V -> list (Z * V) -> list (Z * V) :=
  JsMap.set Z.eqb.

(** [nodes.forEach((node, index) => nodeMap.set(node.id, {...}))] *)
Fixpoint buildNodeMap (nodes : list ProfileNode) (index : nat)
    (nodeMap : list (Z * NodeAgg)) : list (Z * NodeAgg) :=
  match nodes with
  | [] => nodeMap
  | node :: rest =>
      buildNodeMap rest (S index)
        (zset (node_id node)
              {| agg_node := node; agg_index := index;
                 selfTime := 0; totalTime := 0 |}
              nodeMap)
  end.

(** [timeDeltas[index] || 1] *)
Definition delta_at (timeDeltas : list Z) (index : nat) : Z :=
  or_default (nth_error timeDeltas index) 1.

(** The body of [samples.forEach((sample, index) => ...)]. *)
Definition addSample (timeDeltas : list Z) (sample : Z) (index : nat)
    (nodeMap : list (Z * NodeAgg)) : list (Z * NodeAgg) :=
  let timeDelta := delta_at timeDeltas index in
  match zget sample nodeMap with
  | Some node =>
      zset sample
           {| agg_node := agg_node node; agg_index := agg_index node;
              selfTime := selfTime node + timeDelta;
              totalTime := totalTime node + timeDelta |}
           nodeMap
  | None => nodeMap
  end.

Fixpoint addSamples (timeDeltas : list Z) (samples : list Z) (index : nat)
    (nodeMap : list (Z * NodeAgg)) : list (Z * NodeAgg) :=
  match samples with
  | [] => nodeMap
  | sample :: rest =>
      addSamples timeDeltas rest (S index)
                 (addSample timeDeltas sample index nodeMap)
  end.

Definition flameNode (node : NodeAgg) : FlameNode := {|
  fl_name := if String.eqb (functionName (callFrame (agg_node node))) ""
             then "(anonymous)"
             else functionName (callFrame (agg_node node));
  fl_value := totalTime node;
  fl_url := url (callFrame (agg_node node));
  fl_line := lineNumber (callFrame (agg_node node));
  fl_column := columnNumber (callFrame (agg_node node))
|}.

Definition _processProfileNodes (nodes : list ProfileNode)
    (samples timeDeltas : list Z) : list FlameNode :=
  let nodeMap := buildNodeMap nodes 0 [] in
  let nodeMap := addSamples timeDeltas samples 0 nodeMap in
  map flameNode (JsMap.values nodeMap).

Definition _convertToFlameGraph (profile : RawProfile) : FlameGraph := {|
  fg_name := "root";
  fg_value := endTime profile - startTime profile;
  fg_children := _processProfileNodes (nodes profile) (samples profile)
                                      (timeDeltas profile)
|}.

(** ** Bottleneck detector *)

(** [xs.slice(-n)] *)
Definition slice_last {A} (n : nat) (xs : list A) : list A :=
  skipn (List.length xs - n) xs.

(** [recent.reduce((sum, m) => sum + m.duration, 0) / recent.length], each
    addition and the division rounded; [NaN] for no record. *)
Definition averageDuration (recent : list OperationRecord) : float :=
  (fold_left (fun sum m => sum + op_duration m) recent 0
   / Number_of_Z (Z.of_nat (List.length recent)))%float.

Definition gcBottleneck (count : nat) (threshold : Z) : Bottleneck := {|
  b_type := high_gc_frequency;
  b_severity := warning;
  b_data := GcData count threshold
|}.

Definition leakBottleneck (growthRate : Q) : Bottleneck := {|
  b_type := memory_leak;
  b_severity := critical;
  b_data := LeakData growthRate
|}.

Definition slowBottleneck (operation : string) (avgDuration : float)
    (count : nat)
  : Bottleneck := {|
  b_type := slow_operation;
  b_severity := warning;
  b_data := SlowData operation avgDuration count
|}.

(** The GC-frequency check, as the list of bottlenecks it pushes. *)
Definition checkGC (gc : list GCEvent) (threshold : Z) : M (list Bottleneck) :=
  recentGCs <- filterM (newer_than_now gc_timestamp 60000) gc ;;
  ret (if Z.of_nat (List.length recentGCs) >? threshold
       then [gcBottleneck (List.length recentGCs) threshold]
       else []).

(** The memory-growth check. *)
Definition checkMemory (memory : list MemorySample) : list Bottleneck :=
  let recentMemory := slice_last 10 memory in
  if (2 <=? List.length recentMemory)%nat then
    let growthRate :=
      _calculateGrowthRate (map (fun m => heapUsed (mem_usage m)) recentMemory) in
    if Qgtb growthRate (inject_Z (1024 * 1024))
    then [leakBottleneck growthRate]
    else []
  else [].

(** The body of the loop over [this.metrics.operations]. *)
Definition checkOperation (operation : string)
    (measurements : list OperationRecord) : M (list Bottleneck) :=
  recent <- filterM (newer_than_now op_timestamp 300000) measurements ;;
  let avgDuration := averageDuration recent in
  ret (if (1000 <? avgDuration)%float && (5 <? List.length recent)%nat
       then [slowBottleneck operation avgDuration (List.length recent)]
       else []).

Fixpoint checkOperations (operations : smap (list OperationRecord))
  : M (list Bottleneck) :=
  match operations with
  | [] => ret []
  | (operation, measurements) :: rest =>
      found <- checkOperation operation measurements ;;
      others <- checkOperations rest ;;
      ret (found ++ others)
  end.

Definition detectBottlenecks : M (list Bottleneck) :=
  p <- this ;;
  gcs <- checkGC (m_gc (metrics p))
                 (th_gcFrequency (performanceThresholds (config p))) ;;
  let leaks := checkMemory (m_memory (metrics p)) in
  slow <- checkOperations (m_operations (metrics p)) ;;
  ret (gcs ++ leaks ++ slow).

(** [_analyzeMemoryTrend] *)
Inductive Trend := insufficient_data | increasing | decreasing | stable.

Definition _analyzeMemoryTrend : M Trend :=
  p <- this ;;
  let recent := slice_last 20 (m_memory (metrics p)) in
  if (List.length recent <? 2)%nat then ret insufficient_data
  else
    let trend :=
      _calculateGrowthRate (map (fun m => heapUsed (mem_usage m)) recent) in
    if Qgtb trend (inject_Z (1024 * 1024)) then ret increasing
    else if Qgtb (inject_Z (- 1024 * 1024)) trend then ret decreasing
    else ret stable.

(** ** Retention *)

(** The loop of [cleanupProfiles]; its value is [toDelete]. *)
Fixpoint cleanupLoop (entries : smap CapturedProfile) (cutoff : Z)
  : M (list string) :=
  match entries with
  | [] => ret []
  | (profileId, profile) :: rest =>
      if p_timestamp profile <? cutoff then
        try_catch
          (fs_unlink (p_filepath profile) ;;
           logger LInfo (MsgDeletedOldProfile (p_filename profile)))
          (fun error =>
             logger LError (MsgDeleteProfileFailed (p_filename profile) error)) ;;
        toDelete <- cleanupLoop rest cutoff ;;
        ret (profileId :: toDelete)
      else cleanupLoop rest cutoff
  end.

Definition cleanupProfiles (maxAge : Z) : M unit :=
  now <- Date_now ;;
  let cutoff := now - maxAge in
  p <- this ;;
  toDelete <- cleanupLoop (profiles p) cutoff ;;
  for_of toDelete (fun profileId =>
    update (fun p => set_profiles (sdelete profileId (profiles p)) p)) ;;
  logger LInfo (MsgCleanedUp (List.length toDelete)).

Definition default_maxAge : Z := 24 * 60 * 60 * 1000.

(** [getStatus] *)
Record Status := {
  status_isRunning : bool;
  status_profilesCount : nat;
  status_outputDir : string;
  status_autoProfile : bool;
  status_recentBottlenecks : list Bottleneck;
  status_memoryTrend : Trend
}.

Definition getStatus : M Status :=
  p <- this ;;
  bottlenecks <- detectBottlenecks ;;
  trend <- _analyzeMemoryTrend ;;
  ret {| status_isRunning := isRunning p;
         status_profilesCount := List.length (profiles p);
         status_outputDir := outputDir (config p);
         status_autoProfile := autoProfile (config p);
         status_recentBottlenecks := bottlenecks;
         status_memoryTrend := trend |}.

(** ** Constructor options *)

(** The [performanceThresholds] object a caller may pass; [None] is an
    absent key. *)
Record ThresholdOptions := {
  to_cpuUsage : option Z;
  to_memoryUsage : option Z;
  to_gcFrequency : option Z
}.

(** The [config] argument of the constructor; [None] is an absent key (a
    key present with the value [undefined] is not modelled). *)
Record Options := {
  o_outputDir : option string;
  o_autoProfile : option bool;
  o_profileDuration : option Z;
  o_heapSnapshotInterval : option Z;
  o_performanceThresholds : option ThresholdOptions
}.

(** [this.config] as the constructor leaves it: the top-level keys always
    exist, the thresholds are whatever object ended up under
    [performanceThresholds]. *)
Record MergedConfig := {
  mc_outputDir : string;
  mc_autoProfile : bool;
  mc_profileDuration : Z;
  mc_heapSnapshotInterval : Z;
  mc_performanceThresholds : ThresholdOptions
}.

(** [s || d] on a possibly missing string: [undefined] and [''] give [d]. *)
Definition or_string (s : option string) (d : string) : string :=
  match s with
  | Some v => if String.eqb v "" then d else v
  | None => d
  end.

(** [b ?? d] *)
Definition nullish_bool (b : option bool) (d : bool) : bool :=
  match b with
  | Some v => v
  | None => d
  end.

(** [over.key] where [over] has the key, else [base.key]: one key of
    [{ ...base, ...over }]. *)
Definition spread_key {A} (base over : option A) : option A :=
  match over with
  | Some v => Some v
  | None => base
  end.

(** [config.performanceThresholds?.key] *)
Definition optional_key (t : option ThresholdOptions)
    (key : ThresholdOptions -> option Z) : option Z :=
  match t with
  | Some u => key u
  | None => None
  end.

(** The inner object literal: three defaulted keys, then
    [...config.performanceThresholds]. *)
Definition thresholds_literal (t : option ThresholdOptions)
  : ThresholdOptions := {|
  to_cpuUsage :=
    spread_key (Some (or_default (optional_key t to_cpuUsage) 80))
               (optional_key t to_cpuUsage);
  to_memoryUsage :=
    spread_key (Some (or_default (optional_key t to_memoryUsage)
                                 (512 * 1024 * 1024)))
               (optional_key t to_memoryUsage);
  to_gcFrequency :=
    spread_key (Some (or_default (optional_key t to_gcFrequency) 10))
               (optional_key t to_gcFrequency)
|}.

(** The five keys the outer object literal computes from [config]. *)
Definition config_literal (o : Options) : MergedConfig := {|
  mc_outputDir := or_string (o_outputDir o) "./profiles";
  mc_autoProfile := nullish_bool (o_autoProfile o) false;
  mc_profileDuration := or_default (o_profileDuration o) 30000;
  mc_heapSnapshotInterval := or_default (o_heapSnapshotInterval o) 300000;
  mc_performanceThresholds := thresholds_literal (o_performanceThresholds o)
|}.

(** The trailing [...config]: every key the caller passed replaces the one
    computed before it. *)
Definition spread_options (base : MergedConfig) (o : Options)
  : MergedConfig := {|
  mc_outputDir :=
    match o_outputDir o with Some v => v | None => mc_outputDir base end;
  mc_autoProfile :=
    match o_autoProfile o with Some v => v | None => mc_autoProfile base end;
  mc_profileDuration :=
    match o_profileDuration o with
    | Some v => v
    | None => mc_profileDuration base
    end;
  mc_heapSnapshotInterval :=
    match o_heapSnapshotInterval o with
    | Some v => v
    | None => mc_heapSnapshotInterval base
    end;
  mc_performanceThresholds :=
    match o_performanceThresholds o with
    | Some u => u
    | None => mc_performanceThresholds base
    end
|}.

(** [this.config = { ..., ...config }] *)
Definition constructor_config (o : Options) : MergedConfig :=
  spread_options (config_literal o) o.

(** The configuration as the methods read it, when all three thresholds
    are numbers. *)
Definition usable_config (c : MergedConfig) : option Config :=
  match to_cpuUsage (mc_performanceThresholds c),
        to_memoryUsage (mc_performanceThresholds c),
        to_gcFrequency (mc_performanceThresholds c) with
  | Some cpu, Some mem, Some gc =>
      Some {| outputDir := mc_outputDir c;
              autoProfile := mc_autoProfile c;
              profileDuration := mc_profileDuration c;
              heapSnapshotInterval := mc_heapSnapshotInterval c;
              performanceThresholds :=
                {| th_cpuUsage := cpu; th_memoryUsage := mem;
                   th_gcFrequency := gc |} |}
  | _, _, _ => None
  end.

(** ** GC summary *)

Record GCSummary := {
  gs_count : nat;
  gs_avgDuration : float;
  gs_totalTime : float
}.

(** [recent.reduce((sum, gc) => sum + gc.duration, 0)], each addition
    rounded. *)
Definition gc_total (recent : list GCEvent) : float :=
  fold_left (fun sum gc => (sum + gc_duration gc)%float) recent 0%float.

Definition _analyzeGCSummary : M GCSummary :=
  p <- this ;;
  recent <- filterM (newer_than_now gc_timestamp 300000) (m_gc (metrics p)) ;;
  ret {| gs_count := List.length recent;
         gs_avgDuration :=
           if (0 <? List.length recent)%nat
           then (gc_total recent
                 / Number_of_Z (Z.of_nat (List.length recent)))%float
           else 0%float;
         gs_totalTime := gc_total recent |}.

(** ** Flame-graph file name *)

(** [s] without its ending [suffix], when it ends so. *)
Fixpoint strip_suffix (suffix s : string) : option string :=
  if String.eqb s suffix then Some ""
  else match s with
       | EmptyString => None
       | String c rest =>
           match strip_suffix suffix rest with
           | Some stem => Some (String c stem)
           | None => None
           end
       end.

(** [profilePath.replace(/\.(cpuprofile|json)$/, '.flamegraph.json')]:
    the path [generateFlameGraph] writes to. *)
Definition flameGraphPath (profilePath : string) : string :=
  match strip_suffix ".cpuprofile" profilePath with
  | Some stem => (stem ++ ".flamegraph.json")%string
  | None =>
      match strip_suffix ".json" profilePath with
      | Some stem => (stem ++ ".flamegraph.json")%string
      | None => profilePath
      end
  end.

(** * Vocabulary of the properties, and scenarios *)

(** ** File names *)

(** A file name without a slash. *)
Fixpoint no_slash (s : string) : bool :=
  match s with
  | EmptyString => true
  | String c rest => negb (Ascii.eqb c "/") && no_slash rest
  end.

(** ** Event histories and the clock *)

(** What the host can deliver to the profiler: a firing of the monitoring
    interval, or an entry seen by the performance observer. *)
Inductive HostEvent :=
| MonitorFired
| EntryObserved (entry : PerformanceEntry).

Definition deliver (ev : HostEvent) : M unit :=
  match ev with
  | MonitorFired => monitorInterval
  | EntryObserved entry => _handlePerformanceEntry entry
  end.

Definition deliver_all (history : list HostEvent) : M unit :=
  for_of history deliver.

(** The world after [n] more host queries. *)
Definition advance (n : nat) (w : World) : World :=
  {| self := self w; host := set_tick (n + tick (host w)) (host w) |}.

(** The clock answers [now] at every query from the current one on. *)
Definition frozen (w : World) (now : Z) : Prop :=
  forall k : nat, clock (env (host w)) (k + tick (host w)) = now.

(** The elements [filterM (newer_than_now ...)] keeps when the first clock
    query is number [k]. *)
Fixpoint recent_at {A} (timestamp : A -> Z) (window : Z) (clk : nat -> Z)
    (k : nat) (xs : list A) : list A :=
  match xs with
  | [] => []
  | x :: rest =>
      if timestamp x >? clk k - window
      then x :: recent_at timestamp window clk (S k) rest
      else recent_at timestamp window clk (S k) rest
  end.

(** The profiler holds no session: the test of the capture guards. *)
Definition inactive (w : World) : Prop := session (self w) = None.

(** ** Session states *)

(** A session exists only while [isRunning] is set: [start()] sets the flag
    before it creates the session, [stop()] clears both. *)
Definition session_implies_running (w : World) : Prop :=
  session (self w) <> None -> isRunning (self w) = true.

(** The claim "a capture method called without a session fails with the
    not-active error and captures nothing", for one method. *)
Definition fails_when_inactive {A} (capture : M A) : Prop :=
  forall w, inactive w -> capture w = (Throw SessionNotActive, w).

(** ** Retention window *)

(** The retention window of the metric buffers: one hour. *)
Definition retention : Z := 3600000.

(** ** Memory profiling *)

(** The samples [sampleInterval] takes in [n] firings when its first host
    query is number [t]: usage first, then the clock. *)
Fixpoint samples_from (e : Env) (t : nat) (n : nat) : list MemorySample :=
  match n with
  | O => []
  | S n' =>
      {| mem_timestamp := clock e (S t); mem_usage := memoryUsage e t |}
      :: samples_from e (S (S t)) n'
  end.

(** Number of firings after which the interval is cleared. *)
Definition samples_needed (duration : Z) : nat :=
  Z.to_nat (Z.max 1 ((duration + 99) / 100)).

(** ** Flame graph *)

(** Time credited to node [id] by the samples from position [index] on:
    the sum of [timeDeltas[i] || 1] over the positions [i] whose sample is
    [id]. *)
Fixpoint credited (timeDeltas : list Z) (id : Z) (samples : list Z)
    (index : nat) : Z :=
  match samples with
  | [] => 0
  | sample :: rest =>
      (if sample =? id then delta_at timeDeltas index else 0)
      + credited timeDeltas id rest (S index)
  end.

(** The sum of the deltas paired with a sample of [id], as the words
    "for each (sample, delta) pair, add delta" have it. *)
Definition sum_of_deltas (id : Z) (samples timeDeltas : list Z) : Z :=
  fold_right (fun pair acc => if fst pair =? id then snd pair + acc else acc)
             0 (combine samples timeDeltas).

(** The claim "each node's value is the sum of the deltas of its samples". *)
Definition values_are_delta_sums (nodes : list ProfileNode)
    (samples timeDeltas : list Z) : Prop :=
  map fl_value (_processProfileNodes nodes samples timeDeltas) =
  map (fun node => sum_of_deltas (node_id node) samples timeDeltas) nodes.

Definition bump (delta : Z) (node : NodeAgg) : NodeAgg :=
  {| agg_node := agg_node node; agg_index := agg_index node;
     selfTime := selfTime node + delta;
     totalTime := totalTime node + delta |}.

Definition fresh_agg (node : ProfileNode) (index : nat) : NodeAgg :=
  {| agg_node := node; agg_index := index; selfTime := 0; totalTime := 0 |}.

Fixpoint indexed (nodes : list ProfileNode) (index : nat)
  : list (Z * NodeAgg) :=
  match nodes with
  | [] => []
  | node :: rest =>
      (node_id node, fresh_agg node index) :: indexed rest (S index)
  end.

(** ** Bottleneck detector *)

Definition type_eqb (a b : BottleneckType) : bool :=
  match a, b with
  | high_gc_frequency, high_gc_frequency => true
  | memory_leak, memory_leak => true
  | slow_operation, slow_operation => true
  | _, _ => false
  end.

(** The bottlenecks of one kind, in the order they were pushed. *)
Definition of_type (ty : BottleneckType) (bs : list Bottleneck)
  : list Bottleneck :=
  filter (fun b => type_eqb (b_type b) ty) bs.

(** The entries of the operations map, each with the number of the host
    query at which the detector starts on it: the clock is read once for
    every record examined, so an entry starts where the one before it
    ended. *)
Fixpoint scheduled (k : nat) (operations : smap (list OperationRecord))
  : list (nat * (string * list OperationRecord)) :=
  match operations with
  | [] => []
  | (operation, measurements) :: rest =>
      (k, (operation, measurements))
      :: scheduled (List.length measurements + k) rest
  end.

(** The records of the last 5 minutes: each record is compared with the
    clock reading taken for it, the first of them being query [k]. *)
Definition recent_records (clk : nat -> Z) (k : nat)
    (measurements : list OperationRecord) : list OperationRecord :=
  recent_at op_timestamp 300000 clk k measurements.

(** What the slow-operation check pushes for one map entry. *)
Definition slow_found (clk : nat -> Z)
    (entry : nat * (string * list OperationRecord)) : list Bottleneck :=
  let recent := recent_records clk (fst entry) (snd (snd entry)) in
  if (1000 <? averageDuration recent)%float && (5 <? List.length recent)%nat
  then [slowBottleneck (fst (snd entry)) (averageDuration recent)
                       (List.length recent)]
  else [].

(** What the GC-frequency check pushes, the clock being read once per
    buffered event. *)
Definition gc_found (w : World) : list Bottleneck :=
  let threshold := th_gcFrequency (performanceThresholds (config (self w))) in
  let recentGCs :=
    recent_at gc_timestamp 60000 (clock (env (host w))) (tick (host w))
              (m_gc (metrics (self w))) in
  if Z.of_nat (List.length recentGCs) >? threshold
  then [gcBottleneck (List.length recentGCs) threshold]
  else [].

(** ** Slow operations *)

Definition slow_avg (b : Bottleneck) : float :=
  match b_data b with SlowData _ avg _ => avg | _ => 0%float end.

Definition slow_count (b : Bottleneck) : nat :=
  match b_data b with SlowData _ _ count => count | _ => 0%nat end.

Definition slow_name (b : Bottleneck) : string :=
  match b_data b with SlowData operation _ _ => operation | _ => "" end.

(** [recent.reduce((sum, m) => sum + m.duration, 0)], each addition
    rounded. *)
Definition total_duration (recent : list OperationRecord) : float :=
  fold_left (fun sum m => (sum + op_duration m)%float) recent 0%float.

(** The quotient the detector compares with 1000. *)
Definition average_of (recent : list OperationRecord) : float :=
  (total_duration recent / Number_of_Z (Z.of_nat (List.length recent)))%float.

(** ** Retention of profiles *)

(** [fs.unlink(path)] would be rejected: the path is refused or missing. *)
Definition unlink_fails (h : Host) (path : string) : bool :=
  denied (env h) path || negb (JsMap.has String.eqb path (files h)).

Definition is_old (cutoff : Z) (entry : string * CapturedProfile) : bool :=
  p_timestamp (snd entry) <? cutoff.

(** The claim "an old profile whose artifact cannot be deleted stays in the
    map", for one cleanup pass. *)
Definition kept_when_delete_fails (w : World) (maxAge : Z) : Prop :=
  forall profileId profile,
    sget profileId (profiles (self w)) = Some profile ->
    p_timestamp profile < clock (env (host w)) (tick (host w)) - maxAge ->
    unlink_fails (host w) (p_filepath profile) = true ->
    sget profileId (profiles (self (exec (cleanupProfiles maxAge) w))) =
    Some profile.

(** ** Scenarios *)

Definition usage_of (heap : Z) : MemoryUsage :=
  {| rss := 0; heapTotal := heap; heapUsed := heap; external := 0;
     arrayBuffers := 0 |}.

(** A host whose clock stands at [now], with a file system that accepts
    every path and an inspector that can be opened. *)
Definition still_env (now : Z) : Env := {|
  clock := fun _ => now;
  memoryUsage := fun _ => usage_of 1000;
  cpuUsage := fun _ => {| cpu_user := 0; cpu_system := 0 |};
  denied := fun _ => false;
  inspector_url := false;
  inspector_ok := true;
  has_require := true;
  cpu_capture := fun _ => inl (HostFailure "not capturing");
  heap_capture := fun _ => inr [];
  byteLength := fun _ => 0
|}.

Definition world_of (p : Profiler) (now : Z) : World :=
  {| self := p;
     host := {| env := still_env now; tick := 0; files := []; trace := [] |} |}.

(** A profiler that was never started. *)
Definition idle_world : World := world_of (new_profiler default_config) 5.

Definition stale_profile : CapturedProfile := {|
  p_type := TCpu;
  p_filename := "cpu_5.cpuprofile";
  p_filepath := "profiles/cpu_5.cpuprofile";
  p_timestamp := 5;
  p_duration := Some 30000;
  p_size := Some 10;
  p_samples := None
|}.

(** Two days after a CPU profile was registered; its file is already gone. *)
Definition stale_world : World :=
  world_of (set_profiles [("cpu_5", stale_profile)]
                         (new_profiler default_config))
           172800000.

Definition with_metrics (m : Metrics) : Profiler :=
  set_metrics m (new_profiler default_config).

Definition gc_at (t : Z) : GCEvent :=
  {| gc_timestamp := t; gc_duration := 1; gc_type := GcUnknown;
     gc_flags := 0 |}.

(** Eleven collections in the last minute, against the default limit 10. *)
Definition gc_world : World :=
  world_of (with_metrics
              {| m_cpu := []; m_memory := [];
                 m_gc := map gc_at [99001; 99002; 99003; 99004; 99005; 99006;
                                    99007; 99008; 99009; 99010; 99011];
                 m_operations := [] |})
           100000.

(** Two samples, the heap 4 MiB larger in the second. *)
Definition leak_first : MemorySample :=
  {| mem_timestamp := 1000; mem_usage := usage_of 0 |}.
Definition leak_final : MemorySample :=
  {| mem_timestamp := 6000; mem_usage := usage_of 4194304 |}.
Definition leak_world : World :=
  world_of (with_metrics
              {| m_cpu := []; m_memory := [leak_first; leak_final];
                 m_gc := []; m_operations := [] |})
           7000.

Definition record_at (t : Z) (d : float) : OperationRecord :=
  {| op_timestamp := t; op_duration := d; op_startTime := 0 |}.

(** Six recent records of one operation, 1500 ms on average. *)
Definition slow_records : list OperationRecord :=
  [record_at 99001 1000; record_at 99002 2000; record_at 99003 1500;
   record_at 99004 1500; record_at 99005 1200; record_at 99006 1800].
Definition slow_world : World :=
  world_of (with_metrics
              {| m_cpu := []; m_memory := []; m_gc := [];
                 m_operations := [("load", slow_records)] |})
           100000.

Definition frame (name : string) : CallFrame :=
  {| functionName := name; url := "app.js"; lineNumber := 1;
     columnNumber := 1 |}.
Definition nodeA : ProfileNode := {| node_id := 1; callFrame := frame "A" |}.
Definition nodeB : ProfileNode := {| node_id := 2; callFrame := frame "B" |}.

(** The claim "[profileMemory(d)] records [max 1 (floor (d / 100))]
    samples", read off the artifact it writes. *)
Definition writes_floor_samples (w : World) (duration : Z) : Prop :=
  forall firings path,
    eval (profileMemory firings duration) w = Ok (Resolved (Some path)) ->
    exists data,
      sget path (files (host (exec (profileMemory firings duration) w))) =
        Some (MemoryProfileFile data) /\
      Z.of_nat (List.length (mp_samples data)) = Z.max 1 (duration / 100).

(** ** Effects of start and stop *)

(** The world with further effects appended to the trace. *)
Definition add_trace (es : list Effect) (w : World) : World :=
  {| self := self w; host := set_trace (trace (host w) ++ es) (host w) |}.

(** What [stop()] appends to the trace of a running profiler that holds a
    session. *)
Definition stop_effects : list Effect :=
  [Log LInfo MsgStopping; SessionDisconnect; Emit EvStopped].

(** What a successful [start()] appends to the trace. *)
Definition start_effects (w : World) : list Effect :=
  [Log LInfo MsgStarting] ++
  (if inspector_url (env (host w))
   then [Log LWarn MsgInspectorConnected]
   else [InspectorOpen]) ++
  [SessionConnect; SetInterval MonitorTimer 5000] ++
  (if autoProfile (config (self w))
   then [SetInterval AutoProfileTimer (heapSnapshotInterval (config (self w)))]
   else []) ++
  [Emit EvStarted].



(** What [profileCPU] appends up to the reply to [Profiler.stop]. *)
Definition cpu_capture_effects (profileId : string) (duration : Z)
  : list Effect :=
  [Log LInfo (MsgStartingCpuProfile profileId duration);
   SessionPost "Profiler.enable"; SessionPost "Profiler.start";
   SetTimeout duration; SessionPost "Profiler.stop"].



(** ** Outcomes of the handlers *)

(** The GC buffer right after a GC entry arrived in [w]. *)
Definition gc_after (w : World) (duration : float)
    (detail : option GCDetail)
  : list GCEvent :=
  filter (fun gc => gc_timestamp gc >?
                    clock (env (host w)) (1 + tick (host w)) - 3600000)
         (m_gc (metrics (self w)) ++
          [{| gc_timestamp := clock (env (host w)) (tick (host w));
              gc_duration := duration;
              gc_type := entry_gc_type detail;
              gc_flags := entry_gc_flags detail |}]).

(** The list an operation name maps to; a missing name has no records. *)
Definition records_of (name : string) (operations : smap (list OperationRecord))
  : list OperationRecord :=
  match sget name operations with
  | Some records => records
  | None => []
  end.

(** ** Frames *)

(** What no entry handler and no sampler pass touches. *)
Definition same_session_and_artifacts (w w' : World) : Prop :=
  config (self w') = config (self w) /\
  isRunning (self w') = isRunning (self w) /\
  session (self w') = session (self w) /\
  profiles (self w') = profiles (self w) /\
  files (host w') = files (host w) /\
  env (host w') = env (host w).

(** ** Chronological order *)

(** A clock that never goes back. *)
Definition nondecreasing (clk : nat -> Z) : Prop :=
  forall i j, (i <= j)%nat -> clk i <= clk j.

(** The records are in non-decreasing order of timestamp and none is dated
    after [bound]. *)
Definition chronological {A} (timestamp : A -> Z) (bound : Z) (xs : list A)
  : Prop :=
  StronglySorted (fun a b => timestamp a <= timestamp b) xs /\
  Forall (fun a => timestamp a <= bound) xs.

(** Every buffer is chronological and ends no later than the next clock
    reading. *)
Definition timeline_ok (w : World) : Prop :=
  let now := clock (env (host w)) (tick (host w)) in
  chronological mem_timestamp now (m_memory (metrics (self w))) /\
  chronological cpu_timestamp now (m_cpu (metrics (self w))) /\
  chronological gc_timestamp now (m_gc (metrics (self w))) /\
  Forall (fun entry => chronological op_timestamp now (snd entry))
         (m_operations (metrics (self w))).

(** ** Memory trend *)

(** The value [_analyzeMemoryTrend] returns, as a function of the memory
    buffer. *)
Definition trend_of (memory : list MemorySample) : Trend :=
  let recent := slice_last 20 memory in
  if (List.length recent <? 2)%nat then insufficient_data
  else
    let trend :=
      _calculateGrowthRate (map (fun m => heapUsed (mem_usage m)) recent) in
    if Qgtb trend (inject_Z (1024 * 1024)) then increasing
    else if Qgtb (inject_Z (- 1024 * 1024)) trend then decreasing
    else stable.

(** ** Counting records *)

(** Number of records over all operations. *)
Definition records_total (operations : smap (list OperationRecord)) : nat :=
  fold_right (fun entry n => (List.length (snd entry) + n)%nat) 0%nat operations.

(** ** Artifacts of old profiles *)

(** The paths of the artifacts of the entries older than [cutoff]. *)
Definition old_paths (cutoff : Z) (entries : smap CapturedProfile)
  : list string :=
  map (fun entry => p_filepath (snd entry)) (filter (is_old cutoff) entries).

(** ** Frame of the captures *)

(** What the capture methods never touch. *)
Definition same_buffers_and_session (w w' : World) : Prop :=
  config (self w') = config (self w) /\
  isRunning (self w') = isRunning (self w) /\
  session (self w') = session (self w) /\
  metrics (self w') = metrics (self w) /\
  performanceMarks (self w') = performanceMarks (self w) /\
  env (host w') = env (host w).

(** ** Flame-graph totals *)

(** The placeholder for an empty function name. *)
Definition display_name (node : ProfileNode) : string :=
  if String.eqb (functionName (callFrame node)) "" then "(anonymous)"
  else functionName (callFrame node).

Definition total (xs : list Z) : Z := fold_right Z.add 0 xs.

(** The time of the samples that refer to one of [ids], from position
    [index] on. *)
Fixpoint known_time (timeDeltas ids samples : list Z) (index : nat) : Z :=
  match samples with
  | [] => 0
  | sample :: rest =>
      (if existsb (Z.eqb sample) ids then delta_at timeDeltas index else 0)
      + known_time timeDeltas ids rest (S index)
  end.

(** ** File names and default options *)

Fixpoint last_char (s : string) : option Ascii.ascii :=
  match s with
  | EmptyString => None
  | String c EmptyString => Some c
  | String _ rest => last_char rest
  end.

(** The thresholds of a profiler constructed without options. *)
Definition default_thresholds : ThresholdOptions :=
  {| to_cpuUsage := Some 80;
     to_memoryUsage := Some (512 * 1024 * 1024);
     to_gcFrequency := Some 10 |}.

Definition no_options : Options :=
  {| o_outputDir := None; o_autoProfile := None; o_profileDuration := None;
     o_heapSnapshotInterval := None; o_performanceThresholds := None |}.

(** ** Summaries *)

(** [st] summarises the non-empty series [xs]: its extremes are attained
    and bound every value, and its average is the running sum of the
    values divided by their number, in double arithmetic. *)
Definition summarises (st : Stat) (xs : list Z) : Prop :=
  In (st_min st) xs /\ In (st_max st) xs /\
  Forall (fun x => st_min st <= x <= st_max st) xs /\
  st_avg st =
    (fold_left (fun sum val => sum + Number_of_Z val) xs 0
     / Number_of_Z (Z.of_nat (List.length xs)))%float.

(** ** Further scenarios *)

(** A host on which the inspector cannot be opened. *)
Definition closed_env (now : Z) : Env := {|
  clock := fun _ => now;
  memoryUsage := fun _ => usage_of 1000;
  cpuUsage := fun _ => {| cpu_user := 0; cpu_system := 0 |};
  denied := fun _ => false;
  inspector_url := false;
  inspector_ok := false;
  has_require := false;
  cpu_capture := fun _ => inl (HostFailure "not capturing");
  heap_capture := fun _ => inr [];
  byteLength := fun _ => 0
|}.

Definition closed_world : World :=
  {| self := new_profiler default_config;
     host := {| env := closed_env 5; tick := 0; files := []; trace := [] |} |}.

(** A running profiler with a session, on a host without [require]. *)
Definition attached_world : World :=
  {| self := set_session (Some InspectorSession)
               (set_isRunning true (new_profiler default_config));
     host := {| env := closed_env 5; tick := 0; files := []; trace := [] |} |}.

(** A running profiler with a session, on a host whose inspector delivers
    an empty profile and a snapshot in two chunks. *)
Definition capturing_env (now : Z) : Env := {|
  clock := fun _ => now;
  memoryUsage := fun _ => usage_of 1000;
  cpuUsage := fun _ => {| cpu_user := 0; cpu_system := 0 |};
  denied := fun _ => false;
  inspector_url := true;
  inspector_ok := true;
  has_require := true;
  cpu_capture := fun _ => inr {| nodes := []; samples := []; timeDeltas := [];
                                 startTime := 0; endTime := 0 |};
  heap_capture := fun _ => inr ["{"; "}"];
  byteLength := fun _ => 2
|}.

Definition capturing_world : World :=
  {| self := set_session (Some InspectorSession)
               (set_isRunning true (new_profiler default_config));
     host := {| env := capturing_env 5; tick := 0; files := []; trace := [] |} |}.

Definition empty_profile : RawProfile :=
  {| nodes := []; samples := []; timeDeltas := []; startTime := 0;
     endTime := 0 |}.

(** As [stale_world], with the artifact of the old profile still on disk
    beside an unrelated file. *)
Definition archive_world : World :=
  {| self := set_profiles [("cpu_5", stale_profile)]
                          (new_profiler default_config);
     host := {| env := still_env 172800000; tick := 0;
                files := [("profiles/cpu_5.cpuprofile",
                           CpuProfileFile empty_profile);
                          ("profiles/notes.txt", HeapSnapshotFile [])];
                trace := [] |} |}.

Definition sample_history : list HostEvent :=
  [EntryObserved (MeasureEntry "load" 1500 0);
   EntryObserved (GcEntry 2 None);
   MonitorFired;
   EntryObserved (MarkEntry "begin" 0);
   EntryObserved (MeasureEntry "load" 10 0)].

Definition two_node_profile : RawProfile :=
  {| nodes := [nodeA; nodeB]; samples := [1; 2; 7; 2];
     timeDeltas := [10; 0; 30]; startTime := 100; endTime := 200 |}.

(** A caller who sets one threshold, an empty output directory and a zero
    duration. *)
Definition only_cpu_threshold (limit : Z) : ThresholdOptions :=
  {| to_cpuUsage := Some limit; to_memoryUsage := None;
     to_gcFrequency := None |}.

Definition partial_options : Options :=
  {| o_outputDir := Some ""; o_autoProfile := None;
     o_profileDuration := Some 0; o_heapSnapshotInterval := None;
     o_performanceThresholds := Some (only_cpu_threshold 50) |}.

(** * Properties *)

(** ** Paths of the artifacts *)

Lemma no_slash_app a b : no_slash (a ++ b) = no_slash a && no_slash b.
Proof.
  induction a as [|c a IH]; cbn; [reflexivity|].
  rewrite IH. now rewrite andb_assoc.
Qed.

Lemma append_assoc (a b c : string) : ((a ++ b) ++ c = a ++ (b ++ c))%string.
Proof. induction a as [|x a IH]; cbn; [reflexivity | now rewrite IH]. Qed.

Lemma append_empty (a : string) : (a ++ "")%string = a.
Proof. induction a as [|x a IH]; cbn; [reflexivity | now rewrite IH]. Qed.

Lemma segments_plain name : forall segment,
  no_slash name = true -> segments name segment = [(segment ++ name)%string].
Proof.
  induction name as [|c name IH]; intros segment; cbn.
  - intros _. now rewrite append_empty.
  - intros H. apply andb_true_iff in H. destruct H as [Hc Hn].
    apply negb_true_iff in Hc. rewrite Hc. rewrite IH by exact Hn.
    now rewrite append_assoc.
Qed.

Lemma ends_with_slash_plain s :
  no_slash s = true -> ends_with_slash s = false.
Proof.
  induction s as [|x s IHs]; [reflexivity|]. intros Hs. cbn in Hs.
  apply andb_true_iff in Hs. destruct Hs as [Hx Hs]. apply negb_true_iff in Hx.
  destruct s as [|y s]; [exact Hx|].
  change (ends_with_slash (String x (String y s)))
    with (ends_with_slash (String y s)).
  apply IHs. exact Hs.
Qed.

Lemma uint_no_slash d : no_slash (NilEmpty.string_of_uint d) = true.
Proof. induction d; cbn; auto. Qed.

Lemma show_Z_no_slash z : no_slash (show_Z z) = true.
Proof.
  unfold show_Z, NilZero.string_of_int, NilZero.string_of_uint.
  destruct (Z.to_int z) as [d|d]; [|cbn [no_slash]; cbn [Ascii.eqb]];
    destruct d; try reflexivity; cbn; try apply uint_no_slash.
Qed.

(** [path.join] of the default directory and of the empty directory with a
    file name: the leading ['./'] is normalised away, and an empty
    directory leaves the bare name. *)
Lemma default_dir_join (c : ascii) (rest : string) :
  Ascii.eqb c "/" = false -> Ascii.eqb c "." = false ->
  no_slash rest = true ->
  path_join "./profiles" (String c rest) = ("profiles/" ++ String c rest)%string
  /\ path_join "" (String c rest) = String c rest.
Proof.
  intros Hslash Hdot Hrest.
  assert (Hname : no_slash (String c rest) = true)
    by (cbn; now rewrite Hslash, Hrest).
  assert (Hends : ends_with_slash (String c rest) = false)
    by now apply ends_with_slash_plain.
  split.
  - unfold path_join, path_normalize. cbn [String.eqb Ascii.eqb Bool.eqb].
    cbn [String.append starts_with_slash Ascii.eqb Bool.eqb negb].
    cbn [segments Ascii.eqb Bool.eqb String.append]. rewrite Hslash.
    rewrite segments_plain by exact Hrest.
    cbn [normalizeString String.eqb Ascii.eqb Bool.eqb orb String.append
         rev app].
    rewrite Hdot.
    cbn [normalizeString String.eqb Ascii.eqb Bool.eqb orb String.append
         rev app String.concat].
    replace (ends_with_slash _) with false by (symmetry; exact Hends).
    reflexivity.
  - unfold path_join, path_normalize. cbn [String.eqb Ascii.eqb Bool.eqb].
    cbn [starts_with_slash]. rewrite Hslash. cbn [negb].
    rewrite segments_plain by exact Hname.
    cbn [normalizeString String.eqb Ascii.eqb Bool.eqb orb String.append
         rev app].
    rewrite Hdot.
    cbn [normalizeString String.eqb Ascii.eqb Bool.eqb orb String.append
         rev app String.concat].
    rewrite Hends. reflexivity.
Qed.

(** The names of the artifacts: a prefix, the start time and an
    extension. *)
Lemma artifact_name_join (c : ascii) (prefix suffix : string) (t : Z) :
  Ascii.eqb c "/" = false -> Ascii.eqb c "." = false ->
  no_slash prefix = true -> no_slash suffix = true ->
  let name := ((String c prefix ++ show_Z t) ++ suffix)%string in
  path_join "./profiles" name = ("profiles/" ++ name)%string /\
  path_join "" name = name.
Proof.
  intros Hslash Hdot Hprefix Hsuffix name. subst name.
  change ((String c prefix ++ show_Z t) ++ suffix)%string
    with (String c ((prefix ++ show_Z t) ++ suffix)).
  apply default_dir_join; try assumption.
  now rewrite !no_slash_app, Hprefix, show_Z_no_slash, Hsuffix.
Qed.

(** ** Basic facts *)

#[local] Arguments String.append : simpl never.
#[local] Arguments path_join : simpl never.
#[local] Arguments show_Z : simpl never.

Ltac step :=
  unfold bind, ret, throw, try_catch, this, update, on_host, effect, logger,
    emit, ask, query, Date_now, process_memoryUsage, process_cpuUsage;
  cbn.

Lemma advance_0 w : advance 0 w = w.
Proof. destruct w as [p [e t f tr]]. reflexivity. Qed.

Lemma advance_advance n m w : advance n (advance m w) = advance (n + m) w.
Proof.
  unfold advance, set_tick. cbn. f_equal. f_equal. lia.
Qed.

Lemma frozen_advance w now n : frozen w now -> frozen (advance n w) now.
Proof.
  unfold frozen. cbn. intros H k.
  replace (k + (n + tick (host w)))%nat with ((k + n) + tick (host w))%nat by lia.
  apply H.
Qed.

Lemma filterM_newer {A} (timestamp : A -> Z) window xs : forall w,
  filterM (newer_than_now timestamp window) xs w =
  (Ok (recent_at timestamp window (clock (env (host w))) (tick (host w)) xs),
   advance (List.length xs) w).
Proof.
  induction xs as [|x rest IH]; intros w.
  - cbn. unfold ret. now rewrite advance_0.
  - cbn [filterM]. unfold newer_than_now at 1. step.
    rewrite IH. cbn.
    unfold advance, set_tick. cbn.
    replace (List.length rest + S (tick (host w)))%nat
      with (S (List.length rest + tick (host w))) by lia.
    destruct (timestamp x >? _); reflexivity.
Qed.

Lemma recent_at_frozen {A} (timestamp : A -> Z) window clk now xs : forall k,
  (forall j, clk (j + k)%nat = now) ->
  recent_at timestamp window clk k xs =
  filter (fun x => timestamp x >? now - window) xs.
Proof.
  induction xs as [|x rest IH]; intros k H; cbn; [reflexivity|].
  rewrite (H 0%nat : clk k = now).
  rewrite IH; [reflexivity|].
  intros j. replace (j + S k)%nat with (S j + k)%nat by lia. apply H.
Qed.

Lemma filterM_frozen {A} (timestamp : A -> Z) window xs w now :
  frozen w now ->
  filterM (newer_than_now timestamp window) xs w =
  (Ok (filter (fun x => timestamp x >? now - window) xs),
   advance (List.length xs) w).
Proof.
  intros H. rewrite filterM_newer. now rewrite (recent_at_frozen _ _ _ now).
Qed.

(** ** Session life cycle *)

(** C9. [stop()] on an inactive profiler changes nothing at all; on a
    running one it clears [isRunning] and [session], logs, disconnects the
    session it held and emits [stopped].  In both cases the four metric
    buffers and the profile map are what they were, as are the files and
    the clock. *)
Theorem stop_preserves_buffers_and_profiles (w : World) :
  eval stop w = Ok tt /\
  metrics (self (exec stop w)) = metrics (self w) /\
  profiles (self (exec stop w)) = profiles (self w) /\
  files (host (exec stop w)) = files (host w) /\
  tick (host (exec stop w)) = tick (host w) /\
  (if isRunning (self w)
   then self (exec stop w) = set_session None (set_isRunning false (self w)) /\
        trace (host (exec stop w)) =
          trace (host w) ++ [Log LInfo MsgStopping] ++
          (match session (self w) with
           | Some _ => [SessionDisconnect]
           | None => []
           end) ++ [Emit EvStopped]
   else exec stop w = w).
Proof.
  unfold exec, eval, stop. step.
  destruct w as [p h]. cbn.
  destruct (isRunning p) eqn:Hrun; cbn.
  - destruct (session p) eqn:Hs; cbn; rewrite ?Hs; cbn;
      repeat split; try reflexivity;
      unfold set_session, set_isRunning; cbn;
      rewrite <- ?app_assoc, ?Hs; reflexivity.
  - repeat split; reflexivity.
Qed.

Lemma not_running_inactive (w : World) :
  session_implies_running w -> isRunning (self w) = false -> inactive w.
Proof.
  unfold session_implies_running, inactive. intros H Hrun.
  destruct (session (self w)); [|reflexivity].
  rewrite H in Hrun by discriminate. discriminate.
Qed.

Lemma stop_inactive (w : World) :
  session_implies_running w -> inactive (exec stop w).
Proof.
  unfold session_implies_running, inactive, exec, stop. step.
  destruct w as [p h]. cbn.
  destruct (isRunning p) eqn:Hrun; cbn.
  - destruct (session p) eqn:Hs; step; rewrite ?Hs; step; rewrite ?Hs;
      reflexivity.
  - intros H. destruct (session p); [|reflexivity].
    discriminate H. discriminate.
Qed.

Lemma start_keeps_invariant (w : World) :
  session_implies_running w -> session_implies_running (exec start w).
Proof.
  unfold session_implies_running, exec, start, inspector_open,
    _startPerformanceMonitoring, _startAutoProfile. step.
  destruct w as [p h]. cbn.
  destruct (isRunning p) eqn:Hrun; cbn; [rewrite Hrun; auto|].
  destruct (inspector_url (env h)); cbn.
  - destruct (autoProfile (config p)); cbn; auto.
  - destruct (inspector_ok (env h)); cbn; auto.
    destruct (autoProfile (config p)); cbn; auto.
Qed.

(** ** Capture guards *)

(** ** Retention window of the metric buffers *)

Lemma filter_newer_Forall {A} (timestamp : A -> Z) (bound : Z) (xs : list A) :
  Forall (fun x => timestamp x > bound)
         (filter (fun x => timestamp x >? bound) xs).
Proof.
  apply Forall_forall. intros x Hx. apply filter_In in Hx.
  destruct Hx as [_ Hx]. now apply Z.gtb_lt, Z.lt_gt in Hx.
Qed.

Lemma collect_memory_buffer (w : World) :
  m_memory (metrics (self (exec _collectSystemMetrics w))) =
  filter (fun m => mem_timestamp m >?
                   clock (env (host w)) (4 + tick (host w)) - 3600000)
         (m_memory (metrics (self w)) ++
          [{| mem_timestamp := clock (env (host w)) (2 + tick (host w));
              mem_usage := memoryUsage (env (host w)) (tick (host w)) |}]).
Proof.
  unfold exec, _collectSystemMetrics. step.
  destruct (heapUsed _ >? _); reflexivity.
Qed.

Lemma collect_cpu_buffer (w : World) :
  m_cpu (metrics (self (exec _collectSystemMetrics w))) =
  filter (fun c => cpu_timestamp c >?
                   clock (env (host w)) (4 + tick (host w)) - 3600000)
         (m_cpu (metrics (self w)) ++
          [{| cpu_timestamp := clock (env (host w)) (3 + tick (host w));
              cpu_usage := cpuUsage (env (host w)) (1 + tick (host w)) |}]).
Proof.
  unfold exec, _collectSystemMetrics. step.
  destruct (heapUsed _ >? _); reflexivity.
Qed.

Lemma handleGC_buffer (w : World) duration detail :
  m_gc (metrics (self (exec (_handleGCEntry duration detail) w))) =
  filter (fun gc => gc_timestamp gc >?
                    clock (env (host w)) (1 + tick (host w)) - 3600000)
         (m_gc (metrics (self w)) ++
          [{| gc_timestamp := clock (env (host w)) (tick (host w));
              gc_duration := duration;
              gc_type := entry_gc_type detail;
              gc_flags := entry_gc_flags detail |}]).
Proof.
  unfold exec, _handleGCEntry. step.
  rewrite filterM_newer. cbn.
  destruct (_ >? _); reflexivity.
Qed.

(** C8. After any history of timer firings and observed entries, a further
    append to a metric buffer leaves in that buffer only records whose
    timestamp is strictly greater than [now - 3600000], where [now] is the
    clock value read for the eviction: the memory and CPU buffers after a
    sampler pass, the GC buffer after a GC entry. *)
Theorem buffers_hold_only_recent_records
    (w0 : World) (history : list HostEvent) :
  let w := exec (deliver_all history) w0 in
  (let now := clock (env (host w)) (4 + tick (host w)) in
   let w' := exec _collectSystemMetrics w in
   Forall (fun m => mem_timestamp m > now - retention)
          (m_memory (metrics (self w'))) /\
   Forall (fun c => cpu_timestamp c > now - retention)
          (m_cpu (metrics (self w')))) /\
  (forall duration detail,
     let now := clock (env (host w)) (1 + tick (host w)) in
     let w' := exec (_handleGCEntry duration detail) w in
     Forall (fun gc => gc_timestamp gc > now - retention)
            (m_gc (metrics (self w')))).
Proof.
  intros w. unfold retention. split; [split|].
  - rewrite collect_memory_buffer. apply filter_newer_Forall.
  - rewrite collect_cpu_buffer. apply filter_newer_Forall.
  - intros duration detail. cbv zeta. rewrite handleGC_buffer.
    apply filter_newer_Forall.
Qed.

(** ** Memory profiling *)

Lemma samples_from_length e n : forall t, List.length (samples_from e t n) = n.
Proof. induction n; intros t; cbn; [reflexivity | now rewrite IHn]. Qed.

Lemma reached_total (d n : Z) :
  Qle_bool (inject_Z d / inject_Z 100)%Q (inject_Z n) = (d <=? 100 * n).
Proof.
  apply eq_true_iff_eq. rewrite Qle_bool_iff, Z.leb_le.
  unfold Qle, Qdiv, Qmult, Qinv, inject_Z. cbn [Qnum Qden]. lia.
Qed.

Lemma ceiling_bounds (d : Z) :
  d <= 100 * ((d + 99) / 100) < d + 100.
Proof.
  pose proof (Z.div_mod (d + 99) 100 ltac:(lia)).
  pose proof (Z.mod_pos_bound (d + 99) 100 ltac:(lia)). lia.
Qed.

Lemma sampleInterval_done (d : Z) : forall firings acc cnt w,
  0 <= cnt ->
  let r := Z.to_nat (Z.max 1 ((d + 99) / 100 - cnt)) in
  (r <= firings)%nat ->
  sampleInterval firings (inject_Z d / inject_Z 100)%Q acc cnt w =
  (Ok (Some (acc ++ samples_from (env (host w)) (tick (host w)) r)),
   {| self := self w;
      host := set_trace (trace (host w) ++ [ClearInterval MemorySampleTimer])
                (set_tick (2 * r + tick (host w)) (host w)) |}).
Proof.
  pose proof (ceiling_bounds d) as Hc.
  induction firings as [|n IH]; intros acc cnt w Hcnt r Hr.
  - exfalso. subst r. lia.
  - cbn [sampleInterval]. step. rewrite reached_total.
    destruct (d <=? 100 * (cnt + 1)) eqn:Hd.
    + apply Z.leb_le in Hd.
      assert (r = 1%nat) as -> by (subst r; lia).
      step. unfold set_trace, set_tick. cbn. reflexivity.
    + apply Z.leb_gt in Hd.
      assert (Hr' : r = S (Z.to_nat (Z.max 1 ((d + 99) / 100 - (cnt + 1)))))
        by (subst r; lia).
      rewrite IH by lia. rewrite Hr'. cbn [samples_from host env tick self].
      rewrite <- app_assoc. cbn [app].
      unfold set_trace, set_tick. cbn.
      repeat f_equal. lia.
Qed.

Lemma sampleInterval_pending (d : Z) : forall firings acc cnt w,
  0 <= cnt ->
  (firings < Z.to_nat (Z.max 1 ((d + 99) / 100 - cnt)))%nat ->
  fst (sampleInterval firings (inject_Z d / inject_Z 100)%Q acc cnt w) =
  Ok None.
Proof.
  pose proof (ceiling_bounds d) as Hc.
  induction firings as [|n IH]; intros acc cnt w Hcnt Hr.
  - reflexivity.
  - cbn [sampleInterval]. step. rewrite reached_total.
    destruct (d <=? 100 * (cnt + 1)) eqn:Hd.
    + apply Z.leb_le in Hd. exfalso. lia.
    + apply Z.leb_gt in Hd. apply IH; lia.
Qed.

Lemma sget_sset_same {V} (k : string) (v : V) (m : smap V) :
  sget k (sset k v m) = Some v.
Proof.
  unfold sget, sset. induction m as [|[k' v'] m IH]; cbn.
  - now rewrite String.eqb_refl.
  - destruct (String.eqb k k') eqn:E; cbn; rewrite ?String.eqb_refl, ?E; auto.
Qed.

Lemma Math_min_spec (x : Z) (rest : list Z) :
  In (Math_min (x :: rest)) (x :: rest) /\
  Forall (fun y => Math_min (x :: rest) <= y) (x :: rest).
Proof.
  unfold Math_min. revert x.
  induction rest as [|y rest IH]; intros x; cbn [fold_left].
  - split; [now left | repeat constructor; lia].
  - destruct (IH (Z.min x y)) as [Hin Hall]. split.
    + destruct Hin as [Hin|Hin]; [|now right; right].
      rewrite <- Hin. destruct (Z.min_spec x y) as [[_ ->]|[_ ->]];
        [now left | now right; left].
    + inversion Hall as [|? ? Hm Hrest]; subst.
      constructor; [lia|]. constructor; [lia|exact Hrest].
Qed.

Lemma Math_max_spec (x : Z) (rest : list Z) :
  In (Math_max (x :: rest)) (x :: rest) /\
  Forall (fun y => y <= Math_max (x :: rest)) (x :: rest).
Proof.
  unfold Math_max. revert x.
  induction rest as [|y rest IH]; intros x; cbn [fold_left].
  - split; [now left | repeat constructor; lia].
  - destruct (IH (Z.max x y)) as [Hin Hall]. split.
    + destruct Hin as [Hin|Hin]; [|now right; right].
      rewrite <- Hin. destruct (Z.max_spec x y) as [[_ ->]|[_ ->]];
        [now right; left | now left].
    + inversion Hall as [|? ? Hm Hrest]; subst.
      constructor; [lia|]. constructor; [lia|exact Hrest].
Qed.

(** The summary of a non-empty sample list: the extremes of [heapUsed]
    bound every sample and are attained, and the growth rate is that of the
    [heapUsed] column. *)
Lemma summary_of_samples (s : MemorySample) (rest : list MemorySample) :
  exists summary,
    _analyzeMemoryProfile (s :: rest) = Some summary /\
    Forall (fun x => st_min (s_heapUsed summary) <= heapUsed (mem_usage x)
                     <= st_max (s_heapUsed summary)) (s :: rest) /\
    (exists lo hi, In lo (s :: rest) /\ In hi (s :: rest) /\
       st_min (s_heapUsed summary) = heapUsed (mem_usage lo) /\
       st_max (s_heapUsed summary) = heapUsed (mem_usage hi)) /\
    s_growthRate summary =
      _calculateGrowthRate (map (fun x => heapUsed (mem_usage x)) (s :: rest)).
Proof.
  eexists. split; [reflexivity|]. cbn [s_heapUsed st_min st_max stat_of map].
  set (hs := map (fun x => heapUsed (mem_usage x)) rest).
  destruct (Math_min_spec (heapUsed (mem_usage s)) hs) as [Hmin_in Hmin].
  destruct (Math_max_spec (heapUsed (mem_usage s)) hs) as [Hmax_in Hmax].
  split; [|split; [|reflexivity]].
  - change (heapUsed (mem_usage s) :: hs)
      with (map (fun x => heapUsed (mem_usage x)) (s :: rest)) in Hmin, Hmax.
    rewrite Forall_map in Hmin, Hmax.
    rewrite Forall_forall in *. intros x Hx.
    split; [exact (Hmin x Hx) | exact (Hmax x Hx)].
  - change (heapUsed (mem_usage s) :: hs)
      with (map (fun x => heapUsed (mem_usage x)) (s :: rest))
      in Hmin_in, Hmax_in.
    apply in_map_iff in Hmin_in. apply in_map_iff in Hmax_in.
    destruct Hmin_in as (lo & Hlo & Hlo_in).
    destruct Hmax_in as (hi & Hhi & Hhi_in).
    exists lo, hi. cbn [map]. fold hs. auto.
Qed.

(** With the firings it needs, [profileMemory] settles whatever the state
    of the profiler. *)
Lemma profileMemory_settles (w : World) (duration : Z) (firings : nat) :
  let n := samples_needed duration in
  let profileId :=
    ("memory_" ++ show_Z (clock (env (host w)) (tick (host w))))%string in
  let filepath :=
    path_join (outputDir (config (self w))) (profileId ++ ".json")%string in
  let taken := samples_from (env (host w)) (S (tick (host w))) n in
  let w' := exec (profileMemory firings duration) w in
  (n <= firings)%nat ->
  eval (profileMemory firings duration) w =
    Ok (Resolved (if denied (env (host w)) filepath
                  then None else Some filepath)) /\
  (denied (env (host w)) filepath = false ->
   sget filepath (files (host w')) =
     Some (MemoryProfileFile
             {| mp_profileId := profileId; mp_duration := duration;
                mp_samples := taken;
                mp_summary := _analyzeMemoryProfile taken |})) /\
  (denied (env (host w)) filepath = true ->
   files (host w') = files (host w)).
Proof.
  intros n profileId filepath taken w' Hge.
  assert (Hn : n = Z.to_nat (Z.max 1 ((duration + 99) / 100 - 0)))
    by (unfold n, samples_needed; now rewrite Z.sub_0_r).
  subst w'. unfold exec, eval.
  destruct (profileMemory firings duration w) as [r w1] eqn:E.
  cbn [fst snd]. revert E. unfold profileMemory.
  unfold bind at 1. unfold Date_now, query at 1. cbv beta iota.
  unfold bind at 1. unfold logger, effect, on_host at 1. cbv beta iota.
  unfold bind at 1. unfold effect, on_host at 1. cbv beta iota.
  unfold bind at 1.
  rewrite sampleInterval_done by (cbn; lia). rewrite <- Hn.
  cbn [app]. unfold fs_writeFile. step.
  fold profileId. fold filepath. fold taken.
  destruct (denied (env (host w)) filepath) eqn:Hden; step;
    intros E; inversion E; subst r w1; clear E; cbn.
  - repeat split; try reflexivity. discriminate.
  - repeat split; try reflexivity; try discriminate.
    intros _. apply sget_sset_same.
Qed.

(** The interval callback never throws. *)
Lemma sampleInterval_total totalSamples : forall firings acc cnt w,
  exists done, fst (sampleInterval firings totalSamples acc cnt w) = Ok done.
Proof.
  induction firings as [|n IH]; intros acc cnt w; cbn [sampleInterval].
  - eexists. reflexivity.
  - step. destruct (Qle_bool _ _); [eexists; reflexivity | apply IH].
Qed.

(** C3, as amended.  [profileMemory(d)] clears its interval after exactly
    [max 1 (ceiling (d / 100))] firings: with that many firings delivered
    it has taken that many samples (the host's memory usage and clock at
    consecutive queries), and it writes them with their summary to
    [<outputDir>/memory_<start time>.json], registers the profile and
    resolves to the path; when the file system refuses the path it logs,
    registers nothing and resolves to [null].  With fewer firings the
    promise is still pending. *)
Theorem profileMemory_sample_count (w : World) (duration : Z) (firings : nat) :
  let n := samples_needed duration in
  let profileId := ("memory_" ++ show_Z (clock (env (host w)) (tick (host w))))%string in
  let filename := (profileId ++ ".json")%string in
  let filepath := path_join (outputDir (config (self w))) filename in
  let taken := samples_from (env (host w)) (S (tick (host w))) n in
  let w' := exec (profileMemory firings duration) w in
  ((firings < n)%nat ->
   eval (profileMemory firings duration) w = Ok Pending) /\
  ((n <= firings)%nat ->
   (1 <= n)%nat /\
   List.length taken = n /\
   (exists summary, _analyzeMemoryProfile taken = Some summary) /\
   if denied (env (host w)) filepath
   then eval (profileMemory firings duration) w = Ok (Resolved None) /\
        files (host w') = files (host w) /\
        profiles (self w') = profiles (self w) /\
        In (Log LError (MsgSaveMemoryProfileFailed (HostFailure "EACCES")))
           (trace (host w'))
   else eval (profileMemory firings duration) w = Ok (Resolved (Some filepath)) /\
        sget filepath (files (host w')) =
          Some (MemoryProfileFile
                  {| mp_profileId := profileId; mp_duration := duration;
                     mp_samples := taken;
                     mp_summary := _analyzeMemoryProfile taken |}) /\
        sget profileId (profiles (self w')) =
          Some {| p_type := TMemory; p_filename := filename;
                  p_filepath := filepath;
                  p_timestamp := clock (env (host w)) (S (2 * n + tick (host w)));
                  p_duration := Some duration; p_size := None;
                  p_samples := Some (Z.of_nat n) |}).
Proof.
  intros n profileId filename filepath taken w'.
  assert (Hn : n = Z.to_nat (Z.max 1 ((duration + 99) / 100 - 0)))
    by (unfold n, samples_needed; now rewrite Z.sub_0_r).
  split.
  - intros Hlt. unfold eval, profileMemory.
    unfold bind at 1. unfold Date_now, query at 1. cbv beta iota.
    unfold bind at 1. unfold logger, effect, on_host at 1. cbv beta iota.
    unfold bind at 1. unfold effect, on_host at 1. cbv beta iota.
    unfold bind at 1.
    match goal with |- context [sampleInterval ?f ?t ?a ?c ?x] =>
      pose proof (sampleInterval_pending duration f a c x ltac:(lia)) as Hp;
      destruct (sampleInterval f t a c x) as [r w1] eqn:E end.
    rewrite <- Hn in Hp. cbn [fst] in Hp. rewrite (Hp Hlt). reflexivity.
  - intros Hge.
    assert (Hlen : List.length taken = n) by apply samples_from_length.
    split; [unfold n, samples_needed; lia|]. split; [exact Hlen|]. split.
    { unfold _analyzeMemoryProfile. rewrite Hlen.
      destruct n; [unfold samples_needed in *; lia|]. cbn. eauto. }
    subst w'. unfold exec, eval.
    destruct (profileMemory firings duration w) as [r w1] eqn:E.
    cbn [fst snd]. revert E. unfold profileMemory.
    unfold bind at 1. unfold Date_now, query at 1. cbv beta iota.
    unfold bind at 1. unfold logger, effect, on_host at 1. cbv beta iota.
    unfold bind at 1. unfold effect, on_host at 1. cbv beta iota.
    unfold bind at 1.
    rewrite sampleInterval_done by (cbn; lia). rewrite <- Hn.
    cbn [app]. unfold fs_writeFile. step.
    fold profileId. fold filename. fold filepath. fold taken.
    destruct (denied (env (host w)) filepath) eqn:Hden; step;
      intros E; inversion E; subst r w1; clear E; cbn.
    + repeat split; try reflexivity.
      apply in_or_app. right. now left.
    + repeat split; try reflexivity.
      * apply sget_sset_same.
      * rewrite sget_sset_same. rewrite Hlen.
        replace (n + (n + 0) + S (tick (host w)))%nat
          with (S (2 * n + tick (host w))) by lia.
        reflexivity.
Qed.

(** C2, as amended.  [profileCPU] and [takeHeapSnapshot] called without a
    session throw 'Profiler session not active' and leave the profiler and
    the host untouched.  [profileMemory] has no such guard.  Whatever the
    state of the profiler — so also without a session — it never fails, and
    once the interval has fired as often as the duration asks it has taken
    its samples and resolves: to the path of the artifact, which then holds
    the samples, or to [null] when the file system refuses the path. *)
Theorem capture_guards :
  (forall duration, fails_when_inactive (profileCPU duration)) /\
  fails_when_inactive takeHeapSnapshot /\
  (forall firings duration w,
     let n := samples_needed duration in
     let profileId :=
       ("memory_" ++ show_Z (clock (env (host w)) (tick (host w))))%string in
     let filepath :=
       path_join (outputDir (config (self w))) (profileId ++ ".json")%string in
     let taken := samples_from (env (host w)) (S (tick (host w))) n in
     let w' := exec (profileMemory firings duration) w in
     (exists outcome, eval (profileMemory firings duration) w = Ok outcome) /\
     ((n <= firings)%nat ->
      (1 <= List.length taken)%nat /\
      eval (profileMemory firings duration) w =
        Ok (Resolved (if denied (env (host w)) filepath
                      then None else Some filepath)) /\
      (denied (env (host w)) filepath = false ->
       sget filepath (files (host w')) =
         Some (MemoryProfileFile
                 {| mp_profileId := profileId; mp_duration := duration;
                    mp_samples := taken;
                    mp_summary := _analyzeMemoryProfile taken |})))).
Proof.
  split; [|split].
  - intros duration w Hw. unfold inactive in Hw. unfold profileCPU. step.
    rewrite Hw. destruct w; reflexivity.
  - intros w Hw. unfold inactive in Hw. unfold takeHeapSnapshot. step.
    rewrite Hw. destruct w; reflexivity.
  - intros firings duration w n profileId filepath taken w'. split.
    + unfold eval, profileMemory.
      unfold bind at 1. unfold Date_now, query at 1. cbv beta iota.
      unfold bind at 1. unfold logger, effect, on_host at 1. cbv beta iota.
      unfold bind at 1. unfold effect, on_host at 1. cbv beta iota.
      unfold bind at 1.
      match goal with |- context [sampleInterval ?f ?t ?a ?c ?x] =>
        destruct (sampleInterval_total t f a c x) as (done & Hdone);
        destruct (sampleInterval f t a c x) as [r w1] end.
      cbn [fst] in Hdone. subst r. destruct done as [samples|].
      * unfold fs_writeFile. step. destruct (denied _ _); cbn; eauto.
      * cbn. eauto.
    + intros Hge.
      destruct (profileMemory_settles w duration firings Hge)
        as (Hrun & Hfile & _).
      split; [|split; [exact Hrun | exact Hfile]].
      unfold taken. rewrite samples_from_length.
      unfold n, samples_needed. lia.
Qed.

(** ** Flame graph *)

Section NodeMapFacts.
Context {V : Type}.
Implicit Types (m : list (Z * V)) (k : Z) (v : V).

Lemma zget_zset_same k v m : zget k (zset k v m) = Some v.
Proof.
  unfold zget, zset. induction m as [|[k' v'] m IH]; cbn.
  - now rewrite Z.eqb_refl.
  - destruct (k =? k') eqn:E; cbn; rewrite ?Z.eqb_refl, ?E; auto.
Qed.

Lemma zget_absent k m : ~ In k (map fst m) -> zget k m = None.
Proof.
  unfold zget. induction m as [|[k' v'] m IH]; cbn; intros H; [reflexivity|].
  destruct (Z.eqb_spec k k') as [->|Hne]; [exfalso; auto|].
  apply IH. auto.
Qed.

Lemma zset_absent k v m : ~ In k (map fst m) -> zset k v m = m ++ [(k, v)].
Proof.
  unfold zset. induction m as [|[k' v'] m IH]; cbn; intros H; [reflexivity|].
  destruct (Z.eqb_spec k k') as [->|Hne]; [exfalso; auto|].
  now rewrite IH by auto.
Qed.

Lemma rewrite_absent (f : V -> V) k m :
  ~ In k (map fst m) ->
  map (fun kv => (fst kv, if k =? fst kv then f (snd kv) else snd kv)) m = m.
Proof.
  induction m as [|[k' v'] m IH]; cbn; intros H; [reflexivity|].
  destruct (Z.eqb_spec k k') as [->|Hne]; [exfalso; auto|].
  f_equal. apply IH. auto.
Qed.

(** With distinct keys, replacing the value at a present key rewrites
    that entry alone. *)
Lemma zset_present (f : V -> V) k m :
  NoDup (map fst m) ->
  match zget k m with
  | Some v => zset k (f v) m
  | None => m
  end = map (fun kv => (fst kv, if k =? fst kv then f (snd kv) else snd kv)) m.
Proof.
  unfold zget, zset. induction m as [|[k' v'] m IH]; cbn; intros Hnd;
    [reflexivity|].
  inversion Hnd as [|? ? Hnotin Hnd']; subst.
  destruct (Z.eqb_spec k k') as [->|Hne].
  - f_equal. symmetry. now apply rewrite_absent.
  - specialize (IH Hnd').
    destruct (JsMap.get Z.eqb k m); cbn; now rewrite <- IH.
Qed.
End NodeMapFacts.

Lemma indexed_keys nodes : forall index,
  map fst (indexed nodes index) = map node_id nodes.
Proof. induction nodes; intros; cbn; [reflexivity | now rewrite IHnodes]. Qed.

Lemma buildNodeMap_distinct nodes : forall index nodeMap,
  NoDup (map fst nodeMap ++ map node_id nodes) ->
  buildNodeMap nodes index nodeMap = nodeMap ++ indexed nodes index.
Proof.
  induction nodes as [|node rest IH]; intros index nodeMap Hnd; cbn.
  - now rewrite app_nil_r.
  - assert (Hfresh : ~ In (node_id node) (map fst nodeMap)).
    { intros Hin. apply NoDup_remove_2 in Hnd. apply Hnd.
      apply in_or_app. now left. }
    rewrite zset_absent by exact Hfresh.
    rewrite IH.
    + now rewrite <- app_assoc.
    + rewrite map_app. cbn. rewrite <- app_assoc. exact Hnd.
Qed.

Lemma bump_0 node : bump 0 node = node.
Proof. destruct node. unfold bump. cbn. now rewrite !Z.add_0_r. Qed.

Lemma bump_bump a b node : bump b (bump a node) = bump (a + b) node.
Proof. unfold bump. cbn. f_equal; lia. Qed.

Lemma addSample_map timeDeltas sample index nodeMap :
  NoDup (map fst nodeMap) ->
  addSample timeDeltas sample index nodeMap =
  map (fun kv => (fst kv,
                  if sample =? fst kv
                  then bump (delta_at timeDeltas index) (snd kv)
                  else snd kv)) nodeMap.
Proof.
  intros Hnd. unfold addSample.
  rewrite <- (zset_present (bump (delta_at timeDeltas index)) sample nodeMap Hnd).
  destruct (zget sample nodeMap); reflexivity.
Qed.

Lemma addSamples_map timeDeltas samples : forall index nodeMap,
  NoDup (map fst nodeMap) ->
  addSamples timeDeltas samples index nodeMap =
  map (fun kv => (fst kv,
                  bump (credited timeDeltas (fst kv) samples index) (snd kv)))
      nodeMap.
Proof.
  induction samples as [|sample rest IH]; intros index nodeMap Hnd; cbn.
  - rewrite <- (map_id nodeMap) at 1. apply map_ext.
    intros [k v]. cbn. now rewrite bump_0.
  - rewrite addSample_map by exact Hnd.
    rewrite IH.
    + rewrite map_map. apply map_ext. intros [k v]. cbn. f_equal.
      destruct (sample =? k); [now rewrite bump_bump|].
      now rewrite Z.add_0_l.
    + rewrite map_map. cbn. exact Hnd.
Qed.

Lemma indexed_totals (g : Z -> Z) nodes : forall index,
  map (fun kv => totalTime (snd kv) + g (fst kv)) (indexed nodes index) =
  map (fun node => g (node_id node)) nodes.
Proof.
  induction nodes as [|node rest IH]; intros index; cbn; [reflexivity|].
  now rewrite IH.
Qed.

(** The value reported for every node, for distinct node ids. *)
Lemma flame_values nodes samples timeDeltas :
  NoDup (map node_id nodes) ->
  map fl_value (_processProfileNodes nodes samples timeDeltas) =
  map (fun node => credited timeDeltas (node_id node) samples 0) nodes.
Proof.
  intros Hnd. unfold _processProfileNodes, JsMap.values.
  rewrite buildNodeMap_distinct by exact Hnd. cbn [app].
  rewrite addSamples_map by (now rewrite indexed_keys).
  rewrite !map_map. cbn.
  apply (indexed_totals (fun id => credited timeDeltas id samples 0)).
Qed.

(** Where every sample has a delta and no delta is zero, the credited time
    is the plain sum of the paired deltas. *)
Lemma credited_plain timeDeltas id samples :
  (List.length samples <= List.length timeDeltas)%nat ->
  Forall (fun d => d <> 0) timeDeltas ->
  credited timeDeltas id samples 0 = sum_of_deltas id samples timeDeltas.
Proof.
  unfold sum_of_deltas.
  assert (G : forall pre deltas smp,
             (List.length smp <= List.length deltas)%nat ->
             Forall (fun d => d <> 0) deltas ->
             credited (pre ++ deltas) id smp (List.length pre) =
             fold_right (fun pair acc =>
                           if fst pair =? id then snd pair + acc else acc)
                        0 (combine smp deltas)).
  { intros pre deltas smp. revert pre deltas.
    induction smp as [|s rest IH]; intros pre deltas Hlen Hnz; cbn;
      [reflexivity|].
    destruct deltas as [|d deltas]; [cbn in Hlen; lia|].
    inversion Hnz as [|? ? Hd Hnz']; subst. cbn in Hlen.
    specialize (IH (pre ++ [d]) deltas ltac:(lia) Hnz').
    rewrite <- app_assoc in IH. cbn in IH.
    rewrite length_app in IH. cbn in IH.
    replace (List.length pre + 1)%nat with (S (List.length pre)) in IH by lia.
    rewrite IH. cbn.
    unfold delta_at. rewrite nth_error_app2 by lia.
    rewrite Nat.sub_diag. cbn.
    destruct (Z.eqb_spec d 0); [contradiction|].
    destruct (s =? id); lia. }
  intros Hlen Hnz. exact (G [] timeDeltas samples Hlen Hnz).
Qed.

Lemma nodeMap_totals nodes samples timeDeltas :
  NoDup (map node_id nodes) ->
  addSamples timeDeltas samples 0 (buildNodeMap nodes 0 []) =
  map (fun kv => (fst kv,
                  bump (credited timeDeltas (fst kv) samples 0) (snd kv)))
      (indexed nodes 0).
Proof.
  intros Hnd. rewrite buildNodeMap_distinct by exact Hnd. cbn [app].
  apply addSamples_map. now rewrite indexed_keys.
Qed.

(** C7, as amended.  For distinct node ids the final [nodeMap] holds, for
    every node, self time and total time equal to the sum of
    [timeDeltas[i] || 1] over the positions [i] whose sample is the node,
    and the flame-graph value is that total.  When every sample has a delta
    and no delta is zero this is the plain sum of the paired deltas.  Two
    nodes sampled alternately with deltas 10, 20, 30, 40 get 40 and 60. *)
Theorem flame_graph_totals :
  (forall nodes samples timeDeltas,
     NoDup (map node_id nodes) ->
     addSamples timeDeltas samples 0 (buildNodeMap nodes 0 []) =
       map (fun kv =>
              let time := credited timeDeltas (node_id (fst kv)) samples 0 in
              (node_id (fst kv),
               {| agg_node := fst kv; agg_index := snd kv;
                  selfTime := time; totalTime := time |}))
           (combine nodes (seq 0 (List.length nodes))) /\
     map fl_value (_processProfileNodes nodes samples timeDeltas) =
       map (fun node => credited timeDeltas (node_id node) samples 0) nodes /\
     ((List.length samples <= List.length timeDeltas)%nat ->
      Forall (fun d => d <> 0) timeDeltas ->
      values_are_delta_sums nodes samples timeDeltas)) /\
  (forall a b frameA frameB,
     a <> b ->
     map fl_value
       (_processProfileNodes
          [{| node_id := a; callFrame := frameA |};
           {| node_id := b; callFrame := frameB |}]
          [a; b; a; b] [10; 20; 30; 40]) = [40; 60]).
Proof.
  split.
  - intros nodes samples timeDeltas Hnd. split; [|split].
    + rewrite nodeMap_totals by exact Hnd.
      generalize 0%nat at 2 4.
      clear Hnd. induction nodes as [|node rest IH]; intros index; cbn;
        [reflexivity|].
      rewrite IH. unfold bump, fresh_agg. cbn. reflexivity.
    + now apply flame_values.
    + intros Hlen Hnz. unfold values_are_delta_sums.
      rewrite flame_values by exact Hnd.
      apply map_ext. intros node. now apply credited_plain.
  - intros a b frameA frameB Hab.
    rewrite flame_values.
    + cbn. unfold delta_at. cbn. rewrite !Z.eqb_refl.
      destruct (Z.eqb_spec a b) as [E|_]; [contradiction|].
      destruct (Z.eqb_spec b a) as [E|_]; [now symmetry in E|].
      reflexivity.
    + cbn. constructor; [|constructor; [|constructor]]; cbn; intuition.
Qed.

Lemma delta_at_zero timeDeltas index :
  Forall (fun d => d = 0) timeDeltas -> delta_at timeDeltas index = 1.
Proof.
  intros H. unfold delta_at, or_default.
  destruct (nth_error timeDeltas index) as [d|] eqn:E; [|reflexivity].
  apply nth_error_In in E. rewrite Forall_forall in H.
  now rewrite (H d E).
Qed.

Lemma credited_zero timeDeltas id samples :
  Forall (fun d => d = 0) timeDeltas ->
  forall index,
    credited timeDeltas id samples index =
    Z.of_nat (count_occ Z.eq_dec samples id).
Proof.
  intros H. induction samples as [|s rest IH]; intros index; cbn;
    [reflexivity|].
  rewrite IH, delta_at_zero by exact H.
  destruct (Z.eq_dec s id) as [E|E]; destruct (Z.eqb_spec s id) as [E'|E'];
    try contradiction; lia.
Qed.

(** C10.  When the delta of a sample is 0, or the sample lies beyond the
    end of [timeDeltas], processing the sample adds 1 to the self time and
    to the total time of the node it refers to.  Hence with only such
    deltas every node's reported value is the number of its samples. *)
Theorem zero_or_absent_delta_counts_one :
  (forall timeDeltas sample index nodeMap node,
     nth_error timeDeltas index = Some 0 \/
     (List.length timeDeltas <= index)%nat ->
     zget sample nodeMap = Some node ->
     zget sample (addSample timeDeltas sample index nodeMap) =
     Some {| agg_node := agg_node node; agg_index := agg_index node;
             selfTime := selfTime node + 1;
             totalTime := totalTime node + 1 |}) /\
  (forall nodes samples timeDeltas,
     NoDup (map node_id nodes) ->
     Forall (fun d => d = 0) timeDeltas ->
     map fl_value (_processProfileNodes nodes samples timeDeltas) =
     map (fun node => Z.of_nat (count_occ Z.eq_dec samples (node_id node)))
         nodes).
Proof.
  split.
  - intros timeDeltas sample index nodeMap node Hdelta Hget.
    unfold addSample. rewrite Hget, zget_zset_same.
    assert (Hone : delta_at timeDeltas index = 1).
    { unfold delta_at, or_default. destruct Hdelta as [-> | Hout].
      - reflexivity.
      - apply nth_error_None in Hout. now rewrite Hout. }
    now rewrite Hone.
  - intros nodes samples timeDeltas Hnd Hzero.
    rewrite flame_values by exact Hnd.
    apply map_ext. intros node. now apply credited_zero.
Qed.

(** ** Bottleneck detector *)

Lemma of_type_app ty xs ys : of_type ty (xs ++ ys) = of_type ty xs ++ of_type ty ys.
Proof. apply filter_app. Qed.

Lemma of_type_same ty bs :
  Forall (fun b => b_type b = ty) bs -> of_type ty bs = bs.
Proof.
  unfold of_type.
  induction 1 as [|b bs Hb _ IH]; cbn; [reflexivity|].
  rewrite Hb, IH. now destruct ty.
Qed.

Lemma of_type_other ty ty' bs :
  ty <> ty' -> Forall (fun b => b_type b = ty') bs -> of_type ty bs = [].
Proof.
  unfold of_type.
  intros Hne. induction 1 as [|b bs Hb _ IH]; cbn; [reflexivity|].
  rewrite Hb, IH. destruct ty, ty'; try reflexivity; congruence.
Qed.

Lemma checkGC_run gc threshold w :
  let recentGCs :=
    recent_at gc_timestamp 60000 (clock (env (host w))) (tick (host w)) gc in
  checkGC gc threshold w =
  (Ok (if Z.of_nat (List.length recentGCs) >? threshold
       then [gcBottleneck (List.length recentGCs) threshold]
       else []),
   advance (List.length gc) w).
Proof.
  unfold checkGC. step. now rewrite filterM_newer.
Qed.

Lemma checkMemory_types memory :
  Forall (fun b => b_type b = memory_leak) (checkMemory memory).
Proof.
  unfold checkMemory. destruct (2 <=? _)%nat; [|constructor].
  destruct (Qgtb _ _); repeat constructor.
Qed.

Lemma checkOperation_types operation measurements w :
  exists found n,
    checkOperation operation measurements w = (Ok found, advance n w) /\
    Forall (fun b => b_type b = slow_operation) found.
Proof.
  unfold checkOperation. step. rewrite filterM_newer. cbn.
  eexists _, _. split; [reflexivity|].
  destruct (_ && _); repeat constructor.
Qed.

Lemma checkOperations_types operations : forall w,
  exists found n,
    checkOperations operations w = (Ok found, advance n w) /\
    Forall (fun b => b_type b = slow_operation) found.
Proof.
  induction operations as [|[operation measurements] rest IH]; intros w.
  - exists [], 0%nat. cbn. unfold ret. rewrite advance_0. split; constructor.
  - cbn [checkOperations]. unfold bind at 1.
    destruct (checkOperation_types operation measurements w)
      as (found & n & -> & Hfound).
    unfold bind at 1.
    destruct (IH (advance n w)) as (others & n' & -> & Hothers).
    unfold ret. rewrite advance_advance.
    eexists _, _. split; [reflexivity|].
    apply Forall_app. now split.
Qed.

Lemma checkOperations_scheduled operations : forall w,
  exists n,
    checkOperations operations w =
    (Ok (flat_map (slow_found (clock (env (host w))))
                  (scheduled (tick (host w)) operations)),
     advance n w).
Proof.
  induction operations as [|[operation measurements] rest IH]; intros w.
  - exists 0%nat. cbn. unfold ret. now rewrite advance_0.
  - cbn [checkOperations]. unfold bind at 1.
    unfold checkOperation at 1. unfold bind at 1.
    rewrite filterM_newer.
    unfold ret at 1. unfold bind at 1.
    destruct (IH (advance (List.length measurements) w)) as (n & ->).
    unfold ret. rewrite advance_advance.
    eexists. reflexivity.
Qed.

Lemma gc_found_types (w : World) :
  Forall (fun b => b_type b = high_gc_frequency) (gc_found w).
Proof.
  unfold gc_found. cbv zeta. destruct (_ >? _); repeat constructor.
Qed.

(** The detector's result is the three checks' findings, in that order. *)
Lemma detectBottlenecks_parts (w : World) :
  exists slow,
    eval detectBottlenecks w =
      Ok (gc_found w ++ checkMemory (m_memory (metrics (self w))) ++ slow) /\
    Forall (fun b => b_type b = slow_operation) slow.
Proof.
  unfold eval, detectBottlenecks. unfold bind at 1. unfold this at 1.
  cbv beta iota. unfold bind at 1.
  rewrite checkGC_run. cbv beta iota zeta. unfold bind at 1.
  match goal with |- context [checkOperations ?o ?x] =>
    destruct (checkOperations_types o x) as (slow & n & -> & Hslow) end.
  unfold ret. cbn [fst].
  exists slow. split; [reflexivity|assumption].
Qed.

(** The slow-operation check starts after the GC check, which has read the
    clock once per buffered GC event. *)
Lemma detectBottlenecks_scheduled (w : World) :
  eval detectBottlenecks w =
  Ok (gc_found w
      ++ checkMemory (m_memory (metrics (self w)))
      ++ flat_map (slow_found (clock (env (host w))))
           (scheduled (List.length (m_gc (metrics (self w))) + tick (host w))
                      (m_operations (metrics (self w))))).
Proof.
  unfold eval, detectBottlenecks. unfold bind at 1. unfold this at 1.
  cbv beta iota. unfold bind at 1.
  rewrite checkGC_run. cbv beta iota zeta. unfold bind at 1.
  match goal with |- context [checkOperations ?o ?x] =>
    destruct (checkOperations_scheduled o x) as (n & ->) end.
  reflexivity.
Qed.

Lemma Qgtb_true a b : Qgtb a b = true <-> (b < a)%Q.
Proof.
  unfold Qgtb. rewrite negb_true_iff. split.
  - intros H. apply Qnot_le_lt. intros Hle.
    apply Qle_bool_iff in Hle. congruence.
  - intros H. destruct (Qle_bool a b) eqn:E; [|reflexivity].
    apply Qle_bool_iff in E. exfalso. exact (Qlt_not_le _ _ H E).
Qed.

Lemma Qgtb_false a b : Qgtb a b = false <-> ~ (b < a)%Q.
Proof.
  rewrite <- Qgtb_true. destruct (Qgtb a b); split; congruence.
Qed.

Lemma slice_last_suffix {A} (n : nat) (older recent : list A) :
  List.length recent = Nat.min n (List.length (older ++ recent)) ->
  slice_last n (older ++ recent) = recent.
Proof.
  unfold slice_last. rewrite length_app. intros H.
  destruct (Nat.le_gt_cases n (List.length older + List.length recent)) as [Hle|Hgt].
  - rewrite Nat.min_l in H by exact Hle.
    replace (List.length older + List.length recent - n)%nat
      with (List.length older + 0)%nat by lia.
    now rewrite skipn_app, Nat.add_0_r, skipn_all, Nat.sub_diag.
  - rewrite Nat.min_r in H by lia.
    assert (List.length older = 0%nat) by lia.
    destruct older; [|discriminate].
    cbn. now replace (List.length recent - n)%nat with 0%nat by lia.
Qed.

Lemma checkMemory_short memory :
  (List.length memory < 2)%nat -> checkMemory memory = [].
Proof.
  intros H. unfold checkMemory, slice_last.
  replace (List.length memory - 10)%nat with 0%nat by lia.
  cbn [skipn]. destruct (Nat.leb_spec 2 (List.length memory)); [lia|reflexivity].
Qed.

Lemma checkMemory_window older first middle final :
  let recent := first :: middle ++ [final] in
  let growthRate :=
    (inject_Z (heapUsed (mem_usage final) - heapUsed (mem_usage first))
     / inject_Z (Z.of_nat (List.length recent)))%Q in
  List.length recent = Nat.min 10 (List.length (older ++ recent)) ->
  checkMemory (older ++ recent) =
  if Qgtb growthRate (inject_Z 1048576) then [leakBottleneck growthRate] else [].
Proof.
  intros recent growthRate Hlen. unfold checkMemory.
  rewrite slice_last_suffix by exact Hlen.
  assert (Hlen2 : (2 <= List.length recent)%nat).
  { unfold recent. cbn. rewrite length_app. cbn. lia. }
  destruct (Nat.leb_spec 2 (List.length recent)); [|lia].
  change (1024 * 1024) with 1048576.
  assert (Hrate : _calculateGrowthRate
                    (map (fun m => heapUsed (mem_usage m)) recent) = growthRate).
  { unfold _calculateGrowthRate. rewrite length_map.
    destruct (Nat.ltb_spec (List.length recent) 2); [lia|].
    unfold growthRate, recent.
    change (map (fun m => heapUsed (mem_usage m)) (first :: middle ++ [final]))
      with (heapUsed (mem_usage first)
            :: map (fun m => heapUsed (mem_usage m)) (middle ++ [final])).
    rewrite map_app. cbn [map nth].
    rewrite app_comm_cons, last_last. reflexivity. }
  now rewrite Hrate.
Qed.

(** C4.  The memory-growth check looks at the last 10 memory samples (all
    of them when there are fewer).  With fewer than 2 samples it reports
    nothing.  Otherwise, with [first] and [final] the oldest and newest of
    those samples and [sampleCount] their number, it reports one
    [memory_leak] bottleneck of severity [critical], carrying the growth
    rate, exactly when
    [(final.heapUsed - first.heapUsed) / sampleCount > 1048576]. *)
Theorem memory_growth_check (w : World) :
  let memory := m_memory (metrics (self w)) in
  exists bs,
    eval detectBottlenecks w = Ok bs /\
    ((List.length memory < 2)%nat -> of_type memory_leak bs = []) /\
    (forall older first middle final,
       let recent := first :: middle ++ [final] in
       let sampleCount := List.length recent in
       let growthRate :=
         (inject_Z (heapUsed (mem_usage final) - heapUsed (mem_usage first))
          / inject_Z (Z.of_nat sampleCount))%Q in
       memory = older ++ recent ->
       sampleCount = Nat.min 10 (List.length memory) ->
       ((inject_Z 1048576 < growthRate)%Q ->
        of_type memory_leak bs =
        [{| b_type := memory_leak; b_severity := critical;
            b_data := LeakData growthRate |}]) /\
       (~ (inject_Z 1048576 < growthRate)%Q ->
        of_type memory_leak bs = [])).
Proof.
  intros memory.
  destruct (detectBottlenecks_parts w) as (slow & Hrun & Hslow).
  fold memory in Hrun.
  pose proof (gc_found_types w) as Hgcs. set (gcs := gc_found w) in *.
  assert (Hleaks : of_type memory_leak
                     (gcs ++ checkMemory memory ++ slow) = checkMemory memory).
  { rewrite !of_type_app.
    rewrite (of_type_other memory_leak high_gc_frequency gcs
               ltac:(discriminate) Hgcs).
    rewrite (of_type_other memory_leak slow_operation slow
               ltac:(discriminate) Hslow).
    rewrite app_nil_r. cbn [app].
    apply of_type_same, checkMemory_types. }
  eexists. split; [exact Hrun|]. rewrite Hleaks. split.
  - apply checkMemory_short.
  - intros older first middle final recent sampleCount growthRate Hmem Hcount.
    subst recent sampleCount growthRate. rewrite Hmem in Hcount |- *.
    rewrite (checkMemory_window older first middle final Hcount). split.
    + intros Hgt. apply Qgtb_true in Hgt. now rewrite Hgt.
    + intros Hle. apply Qgtb_false in Hle. now rewrite Hle.
Qed.

Lemma recent_at_all {A} (timestamp : A -> Z) window clk (xs : list A) :
  forall start,
    (forall k x, (k < List.length xs)%nat -> In x xs ->
                 timestamp x > clk (k + start)%nat - window) ->
    recent_at timestamp window clk start xs = xs.
Proof.
  induction xs as [|x rest IH]; intros start H; cbn [recent_at]; [reflexivity|].
  pose proof (H 0%nat x ltac:(cbn; lia) ltac:(now left)) as Hx. cbn in Hx.
  destruct (Z.gtb_spec (timestamp x) (clk start - window)); [|lia].
  f_equal. apply IH. intros k y Hk Hy.
  replace (k + S start)%nat with (S k + start)%nat by lia.
  apply H; [cbn; lia | now right].
Qed.

(** C5.  Let every buffered GC event be newer than [t - 60000] for each
    clock value [t] read by the check (one reading per event).  Then
    [threshold + 1] events make the detector report exactly one
    [high_gc_frequency] bottleneck, of severity [warning], and [threshold]
    events make it report none. *)
Theorem gc_frequency_check (w : World) :
  let gc := m_gc (metrics (self w)) in
  let threshold := th_gcFrequency (performanceThresholds (config (self w))) in
  (forall k e, (k < List.length gc)%nat -> In e gc ->
               gc_timestamp e >
               clock (env (host w)) (k + tick (host w)) - 60000) ->
  exists bs,
    eval detectBottlenecks w = Ok bs /\
    (Z.of_nat (List.length gc) = threshold + 1 ->
     of_type high_gc_frequency bs =
     [{| b_type := high_gc_frequency; b_severity := warning;
         b_data := GcData (List.length gc) threshold |}]) /\
    (Z.of_nat (List.length gc) = threshold ->
     of_type high_gc_frequency bs = []).
Proof.
  intros gc threshold Hrecent.
  destruct (detectBottlenecks_parts w) as (slow & Hrun & Hslow).
  exists (gc_found w ++ checkMemory (m_memory (metrics (self w))) ++ slow).
  split; [exact Hrun|].
  rewrite !of_type_app.
  rewrite (of_type_other high_gc_frequency memory_leak _
             ltac:(discriminate) (checkMemory_types _)).
  rewrite (of_type_other high_gc_frequency slow_operation slow
             ltac:(discriminate) Hslow).
  rewrite !app_nil_r, (of_type_same _ _ (gc_found_types w)).
  unfold gc_found. cbv zeta. fold gc. fold threshold.
  rewrite (recent_at_all gc_timestamp 60000 _ gc _ Hrecent).
  split; intros Hn.
  - destruct (Z.gtb_spec (Z.of_nat (List.length gc)) threshold); [|lia].
    reflexivity.
  - destruct (Z.gtb_spec (Z.of_nat (List.length gc)) threshold); [lia|].
    reflexivity.
Qed.

Lemma slow_found_spec clk k operation measurements b :
  let recent := recent_records clk k measurements in
  let count := List.length recent in
  In b (slow_found clk (k, (operation, measurements))) <->
  b = slowBottleneck operation (average_of recent) count /\
  (5 < count)%nat /\ (1000 <? average_of recent)%float = true.
Proof.
  cbv zeta. unfold slow_found. cbn [fst snd].
  generalize (recent_records clk k measurements) as recent. intros recent.
  change (averageDuration recent) with (average_of recent).
  destruct (1000 <? average_of recent)%float eqn:Hq;
    destruct (Nat.ltb_spec 5 (List.length recent)); cbn.
  - split.
    + intros [<-|[]]. auto.
    + intros (-> & _). now left.
  - split; [tauto|]. intros (_ & H' & _). lia.
  - split; [tauto|]. intros (_ & _ & H'). discriminate.
  - split; [tauto|]. intros (_ & H' & _). lia.
Qed.

Lemma scheduled_entries operations : forall k j entry,
  In (j, entry) (scheduled k operations) -> In entry operations.
Proof.
  induction operations as [|[operation measurements] rest IH];
    intros k j entry; cbn; [tauto|].
  intros [H|H]; [left; congruence | right; eapply IH; eassumption].
Qed.

Lemma scheduled_functional operations : forall first k k' operation ms ms',
  NoDup (map fst operations) ->
  In (k, (operation, ms)) (scheduled first operations) ->
  In (k', (operation, ms')) (scheduled first operations) ->
  k = k' /\ ms = ms'.
Proof.
  induction operations as [|[name measurements] rest IH];
    intros first k k' operation ms ms' Hnd; cbn; [tauto|].
  inversion Hnd as [|? ? Hnotin Hnd']; subst.
  intros [H|H] [H'|H'].
  - inversion H; inversion H'; subst. auto.
  - inversion H; subst. exfalso. apply Hnotin.
    apply scheduled_entries in H'. now apply (in_map fst) in H'.
  - inversion H'; subst. exfalso. apply Hnotin.
    apply scheduled_entries in H. now apply (in_map fst) in H.
  - eapply IH; eassumption.
Qed.

Lemma entries_scheduled operations : forall k entry,
  In entry operations -> exists j, In (j, entry) (scheduled k operations).
Proof.
  induction operations as [|[operation measurements] rest IH];
    intros k entry; cbn; [tauto|].
  intros [<-|H].
  - exists k. now left.
  - destruct (IH (List.length measurements + k)%nat entry H) as (j & Hj).
    exists j. now right.
Qed.

Lemma NoDup_keys_functional {V} (m : smap V) k v v' :
  NoDup (map fst m) -> In (k, v) m -> In (k, v') m -> v = v'.
Proof.
  induction m as [|[k0 v0] m IH]; cbn; intros Hnd Hv Hv'; [contradiction|].
  inversion Hnd as [|? ? Hnotin Hnd']; subst.
  destruct Hv as [Hv|Hv]; destruct Hv' as [Hv'|Hv'].
  - congruence.
  - inversion Hv; subst. exfalso. apply Hnotin.
    now apply (in_map fst) in Hv'.
  - inversion Hv'; subst. exfalso. apply Hnotin.
    now apply (in_map fst) in Hv.
  - now apply IH.
Qed.

(** C6.  The detector reads the clock once for every record it examines.
    For every entry of the operations map, [recent] being the records it
    keeps — those whose timestamp is above the clock reading taken for
    them, less 300000 — and [avg] the quotient the code computes, the
    running sum of their durations divided by their number in double
    arithmetic: the detector reports the [slow_operation] bottleneck of
    severity [warning] carrying the operation, [avg] and the count of
    [recent] exactly when [recent] has more than 5 records and [avg]
    exceeds 1000; it reports no other [slow_operation] bottleneck.  So 6
    recent records averaging 1500 are reported, and an operation with 4
    recent records is not, whatever the durations. *)
Theorem slow_operation_check (w : World) :
  let operations := m_operations (metrics (self w)) in
  let clk := clock (env (host w)) in
  let first := (List.length (m_gc (metrics (self w))) + tick (host w))%nat in
  let flagged operation recent :=
    {| b_type := slow_operation; b_severity := warning;
       b_data := SlowData operation
                   (total_duration recent
                    / Number_of_Z (Z.of_nat (List.length recent)))%float
                   (List.length recent) |} in
  exists bs,
    eval detectBottlenecks w = Ok bs /\
    (forall operation measurements,
       In (operation, measurements) operations ->
       exists k, In (k, (operation, measurements)) (scheduled first operations)) /\
    (forall k operation measurements,
       In (k, (operation, measurements)) (scheduled first operations) ->
       let recent := recent_records clk k measurements in
       let avg := (total_duration recent
                   / Number_of_Z (Z.of_nat (List.length recent)))%float in
       (((5 < List.length recent)%nat /\ (1000 <? avg)%float = true) <->
        In (flagged operation recent) bs) /\
       (List.length recent = 6%nat -> avg = 1500%float ->
        In (flagged operation recent) bs)) /\
    (forall b,
       In b bs -> b_type b = slow_operation ->
       exists k operation measurements,
         In (k, (operation, measurements)) (scheduled first operations) /\
         b = flagged operation (recent_records clk k measurements)) /\
    (NoDup (map fst operations) ->
     forall k operation measurements,
       In (k, (operation, measurements)) (scheduled first operations) ->
       List.length (recent_records clk k measurements) = 4%nat ->
       forall avg count,
         ~ In {| b_type := slow_operation; b_severity := warning;
                 b_data := SlowData operation avg count |} bs).
Proof.
  intros operations clk first flagged.
  rewrite (detectBottlenecks_scheduled w).
  fold operations. fold clk. fold first.
  eexists. split; [reflexivity|].
  split; [intros operation measurements Hentry;
          now apply entries_scheduled|].
  match goal with |- context [?g ++ checkMemory ?m ++ _] =>
    set (gcs := g); set (leaks := checkMemory m) end.
  assert (Hgcs : Forall (fun b => b_type b = high_gc_frequency) gcs)
    by apply gc_found_types.
  assert (Hleaks : Forall (fun b => b_type b = memory_leak) leaks)
    by apply checkMemory_types.
  assert (Hslow : forall b, b_type b = slow_operation ->
            (In b (gcs ++ leaks
                   ++ flat_map (slow_found clk) (scheduled first operations)) <->
             exists k operation measurements,
               In (k, (operation, measurements)) (scheduled first operations) /\
               b = flagged operation (recent_records clk k measurements) /\
               (5 < List.length (recent_records clk k measurements))%nat /\
               (1000 <? average_of (recent_records clk k measurements))%float
               = true)).
  { intros b Hb. rewrite !in_app_iff, in_flat_map. split.
    - intros [Hin|[Hin|Hin]].
      + rewrite Forall_forall in Hgcs. apply Hgcs in Hin. congruence.
      + rewrite Forall_forall in Hleaks. apply Hleaks in Hin. congruence.
      + destruct Hin as ([k [operation measurements]] & Hentry & Hin).
        apply slow_found_spec in Hin. exists k, operation, measurements.
        tauto.
    - intros (k & operation & measurements & Hentry & Hflag & Hcond).
      right. right. exists (k, (operation, measurements)).
      split; [exact Hentry|].
      apply slow_found_spec. tauto. }
  split; [|split].
  - intros k operation measurements Hentry recent avg.
    change avg with (average_of recent).
    assert (Hiff : (5 < List.length recent)%nat /\
                   (1000 <? average_of recent)%float = true <->
                   In (flagged operation recent)
                      (gcs ++ leaks
                       ++ flat_map (slow_found clk)
                                   (scheduled first operations))).
    { rewrite Hslow by reflexivity. split.
      - intros Hcond. exists k, operation, measurements. tauto.
      - intros (k' & operation' & measurements' & _ & Hflag & Hcount & Havg).
        pose proof (f_equal slow_avg Hflag) as Havg'.
        pose proof (f_equal slow_count Hflag) as Hcount'.
        unfold flagged, slow_avg, slow_count in Havg', Hcount'.
        cbn [b_data] in Havg', Hcount'.
        fold (average_of recent) in Havg'.
        fold (average_of (recent_records clk k' measurements')) in Havg'.
        rewrite Hcount', Havg'. tauto. }
    split; [exact Hiff|].
    intros Hsix Havg. apply Hiff. split; [lia|].
    rewrite Havg. reflexivity.
  - intros b Hin Hb. apply Hslow in Hin; [|exact Hb].
    destruct Hin as (k & operation & measurements & Hentry & Hflag & _).
    eauto.
  - intros Hnd k operation measurements Hentry Hfour avg count Hin.
    apply Hslow in Hin; [|reflexivity].
    destruct Hin
      as (k' & operation' & measurements' & Hentry' & Hflag & Hcount & _).
    pose proof (f_equal slow_name Hflag) as Hop.
    unfold flagged, slow_name in Hop. cbn in Hop. subst operation'.
    destruct (scheduled_functional _ _ _ _ _ _ _ Hnd Hentry Hentry')
      as [-> ->].
    lia.
Qed.

(** ** Retention *)

Lemma sget_sdelete_other {V} (p q : string) (m : smap V) :
  q <> p -> sget q (sdelete p m) = sget q m.
Proof.
  unfold sget, sdelete. intros Hne.
  induction m as [|[k v] m IH]; cbn; [reflexivity|].
  destruct (String.eqb_spec p k) as [->|Hpk].
  - destruct (String.eqb_spec q k); [contradiction|reflexivity].
  - cbn. now rewrite IH.
Qed.

Lemma fs_unlink_run (path : string) (w : World) :
  if unlink_fails (host w) path
  then exists error, fs_unlink path w = (Throw error, w)
  else fs_unlink path w =
       (Ok tt, {| self := self w;
                  host := set_files (sdelete path (files (host w))) (host w) |}).
Proof.
  unfold unlink_fails, fs_unlink, JsMap.has, sget. step.
  destruct (denied (env (host w)) path); cbn; [eauto|].
  destruct (JsMap.get String.eqb path (files (host w))); cbn; eauto.
Qed.

Lemma unlink_fails_stable (path other : string) (h : Host) :
  unlink_fails h path = false ->
  unlink_fails h other = true ->
  unlink_fails (set_files (sdelete path (files h)) h) other = true.
Proof.
  unfold unlink_fails, JsMap.has. cbn. intros Hpath Hother.
  destruct (String.eqb_spec other path) as [->|Hne]; [congruence|].
  fold (@sget Artifact). rewrite sget_sdelete_other by exact Hne.
  exact Hother.
Qed.

Lemma cleanupLoop_run (cutoff : Z) (entries : smap CapturedProfile) :
  forall w, exists w',
    cleanupLoop entries cutoff w =
      (Ok (map fst (filter (is_old cutoff) entries)), w') /\
    self w' = self w /\
    (forall path, unlink_fails (host w) path = true ->
                  unlink_fails (host w') path = true) /\
    (exists added, trace (host w') = trace (host w) ++ added) /\
    (forall profileId profile,
       In (profileId, profile) entries ->
       p_timestamp profile < cutoff ->
       unlink_fails (host w) (p_filepath profile) = true ->
       exists error,
         In (Log LError (MsgDeleteProfileFailed (p_filename profile) error))
            (trace (host w'))).
Proof.
  induction entries as [|[profileId profile] rest IH]; intros w.
  - exists w. cbn. unfold ret. repeat split; auto.
    + exists []. now rewrite app_nil_r.
    + contradiction.
  - cbn [cleanupLoop filter]. unfold is_old at 1. cbn [snd].
    destruct (Z.ltb_spec (p_timestamp profile) cutoff) as [Hold|Hnew].
    + unfold bind at 1. unfold try_catch, bind at 1.
      pose proof (fs_unlink_run (p_filepath profile) w) as Hrun.
      destruct (unlink_fails (host w) (p_filepath profile)) eqn:Hfail.
      * destruct Hrun as (error & ->). step.
        match goal with |- context [cleanupLoop rest cutoff ?x] =>
          destruct (IH x) as (w' & -> & Hself & Hstable & (added & Htrace) & Hlog)
        end.
        cbn in Hself, Hstable, Htrace, Hlog.
        exists w'. cbn. repeat split; auto.
        -- eexists. rewrite Htrace, <- app_assoc. reflexivity.
        -- intros id p [Heq|Hin] Hp Hf.
           ++ inversion Heq; subst. exists error. rewrite Htrace.
              apply in_or_app. left. apply in_or_app. right. now left.
           ++ apply (Hlog id p Hin Hp). exact Hf.
      * rewrite Hrun. step.
        match goal with |- context [cleanupLoop rest cutoff ?x] =>
          destruct (IH x) as (w' & -> & Hself & Hstable & (added & Htrace) & Hlog)
        end.
        cbn in Hself, Hstable, Htrace, Hlog.
        exists w'. cbn. repeat split; auto.
        -- intros path Hpath. apply Hstable.
           now apply (unlink_fails_stable (p_filepath profile) path (host w)).
        -- eexists. rewrite Htrace, <- app_assoc. reflexivity.
        -- intros id p [Heq|Hin] Hp Hf.
           ++ inversion Heq; subst. congruence.
           ++ apply (Hlog id p Hin Hp).
              now apply (unlink_fails_stable (p_filepath profile) _ (host w)).
    + destruct (IH w) as (w' & -> & Hself & Hstable & Htrace & Hlog).
      exists w'. repeat split; auto.
      intros id p [Heq|Hin] Hp Hf.
      * inversion Heq; subst. lia.
      * now apply (Hlog id p).
Qed.

Lemma deletions_run (toDelete : list string) : forall w,
  for_of toDelete (fun profileId =>
    update (fun p => set_profiles (sdelete profileId (profiles p)) p)) w =
  (Ok tt,
   {| self := set_profiles
                (fold_left (fun m profileId => sdelete profileId m) toDelete
                           (profiles (self w)))
                (self w);
      host := host w |}).
Proof.
  induction toDelete as [|profileId rest IH]; intros w; cbn [for_of fold_left].
  - unfold ret. destruct w as [[] h]. reflexivity.
  - step. rewrite IH. reflexivity.
Qed.

Lemma deletions_skip {V} (k : string) (v : V) (ids : list string) :
  forall m,
    ~ In k ids ->
    fold_left (fun m id => sdelete id m) ids ((k, v) :: m) =
    (k, v) :: fold_left (fun m id => sdelete id m) ids m.
Proof.
  induction ids as [|id ids IH]; intros m Hk; cbn [fold_left]; [reflexivity|].
  unfold sdelete at 2. cbn [JsMap.delete].
  destruct (String.eqb_spec id k) as [->|Hne]; [exfalso; apply Hk; now left|].
  apply IH. intros Hin. apply Hk. now right.
Qed.

Lemma deletions_filter {V} (f : string * V -> bool) (m : smap V) :
  NoDup (map fst m) ->
  fold_left (fun m id => sdelete id m) (map fst (filter f m)) m =
  filter (fun entry => negb (f entry)) m.
Proof.
  induction m as [|[k v] m IH]; intros Hnd; cbn [filter]; [reflexivity|].
  inversion Hnd as [|? ? Hnotin Hnd']; subst.
  destruct (f (k, v)); cbn [negb map fst fold_left].
  - unfold sdelete at 2. cbn [JsMap.delete]. rewrite String.eqb_refl.
    now apply IH.
  - rewrite deletions_skip.
    + now rewrite IH.
    + intros Hin. apply Hnotin. apply in_map_iff in Hin.
      destruct Hin as (entry & <- & Hin). apply filter_In in Hin.
      apply in_map. tauto.
Qed.

Lemma sget_absent {V} (k : string) (m : smap V) :
  ~ In k (map fst m) -> sget k m = None.
Proof.
  unfold sget. induction m as [|[k' v'] m IH]; cbn; intros H; [reflexivity|].
  destruct (String.eqb_spec k k') as [->|Hne]; [exfalso; auto|].
  apply IH. auto.
Qed.

Lemma sget_filtered_out {V} (f : string * V -> bool) (k : string) (v : V)
    (m : smap V) :
  NoDup (map fst m) -> In (k, v) m -> f (k, v) = false ->
  sget k (filter f m) = None.
Proof.
  intros Hnd Hin Hf. apply sget_absent. intros Hk.
  apply in_map_iff in Hk. destruct Hk as ([k' v'] & Hfst & Hk).
  cbn in Hfst. subst k'. apply filter_In in Hk. destruct Hk as [Hin' Hf'].
  rewrite (NoDup_keys_functional m k v v' Hnd Hin Hin') in Hf. congruence.
Qed.

(** C1, as amended.  [cleanupProfiles] removes from the profile map every
    entry whose timestamp is older than [now - maxAge], whether or not the
    deletion of its artifact succeeded, and keeps every other entry; a
    deletion that fails (the path is refused or the file is missing) is
    logged as an error naming the profile's file. *)
Theorem cleanup_drops_every_old_profile (w : World) (maxAge : Z) :
  let cutoff := clock (env (host w)) (tick (host w)) - maxAge in
  let w' := exec (cleanupProfiles maxAge) w in
  NoDup (map fst (profiles (self w))) ->
  eval (cleanupProfiles maxAge) w = Ok tt /\
  profiles (self w') =
    filter (fun entry => negb (p_timestamp (snd entry) <? cutoff))
           (profiles (self w)) /\
  (forall profileId profile,
     In (profileId, profile) (profiles (self w)) ->
     p_timestamp profile < cutoff ->
     sget profileId (profiles (self w')) = None /\
     (unlink_fails (host w) (p_filepath profile) = true ->
      exists error,
        In (Log LError (MsgDeleteProfileFailed (p_filename profile) error))
           (trace (host w')))).
Proof.
  intros cutoff w' Hnd. subst w'. unfold exec, eval.
  destruct (cleanupProfiles maxAge w) as [r w1] eqn:E. cbn [fst snd].
  revert E. unfold cleanupProfiles.
  unfold bind at 1. unfold Date_now, query at 1. cbv beta iota.
  unfold bind at 1. unfold this at 1. cbv beta iota. cbn [self host env tick].
  fold cutoff. unfold bind at 1.
  match goal with |- context [cleanupLoop ?es cutoff ?x] =>
    destruct (cleanupLoop_run cutoff es x)
      as (w2 & -> & Hself & Hstable & (added & Htrace) & Hlog)
  end.
  cbn in Hself, Hstable, Htrace, Hlog.
  unfold bind at 1. rewrite deletions_run. step.
  intros E. inversion E; subst r w1; clear E. cbn.
  rewrite Hself, (deletions_filter (is_old cutoff)) by exact Hnd.
  split; [reflexivity|]. split; [reflexivity|].
  intros profileId profile Hin Hold. split.
  - apply (sget_filtered_out _ profileId profile); [exact Hnd|exact Hin|].
    unfold is_old. cbn. apply negb_false_iff. now apply Z.ltb_lt.
  - intros Hfail. destruct (Hlog profileId profile Hin Hold) as (error & Herr).
    + exact Hfail.
    + exists error. apply in_or_app. now left.
Qed.

(** ** Concrete runs *)

Lemma still_frozen (p : Profiler) (now : Z) : frozen (world_of p now) now.
Proof. intros k. reflexivity. Qed.

(** C1, counterexample.  The only profile is two days old and its file is
    missing, so the deletion fails; the pass empties the map all the same. *)
Lemma cleanup_forgets_undeleted_profile :
  unlink_fails (host stale_world) (p_filepath stale_profile) = true /\
  profiles (self (exec (cleanupProfiles default_maxAge) stale_world)) = [] /\
  trace (host (exec (cleanupProfiles default_maxAge) stale_world)) =
    [Log LError (MsgDeleteProfileFailed "cpu_5.cpuprofile" (HostFailure "ENOENT"));
     Log LInfo (MsgCleanedUp 1)] /\
  ~ kept_when_delete_fails stale_world default_maxAge.
Proof.
  split; [reflexivity|]. split; [reflexivity|]. split; [reflexivity|].
  intros H.
  specialize (H "cpu_5" stale_profile eq_refl ltac:(vm_compute; reflexivity)
                eq_refl).
  vm_compute in H. discriminate H.
Qed.

Lemma cleanup_drops_every_old_profile_witness :
  NoDup (map fst (profiles (self stale_world))) /\
  profiles (self (exec (cleanupProfiles default_maxAge) stale_world)) = [].
Proof.
  assert (Hnd : NoDup (map fst (profiles (self stale_world)))).
  { cbn. constructor; [intros []|constructor]. }
  split; [exact Hnd|].
  exact (proj1 (proj2 (cleanup_drops_every_old_profile
                         stale_world default_maxAge Hnd))).
Defined.

(** C2, counterexample.  On a profiler that was never started,
    [profileMemory(100)] samples once, writes its artifact and resolves. *)
Lemma profileMemory_runs_without_session :
  inactive idle_world /\
  isRunning (self idle_world) = false /\
  eval (profileMemory 1 100) idle_world =
    Ok (Resolved (Some "profiles/memory_5.json")) /\
  ~ fails_when_inactive (profileMemory 1 100).
Proof.
  split; [reflexivity|]. split; [reflexivity|]. split; [reflexivity|].
  intros H. specialize (H idle_world eq_refl).
  apply (f_equal fst) in H. vm_compute in H. discriminate H.
Qed.

Lemma capture_guards_witness :
  inactive idle_world /\
  profileCPU 30000 idle_world = (Throw SessionNotActive, idle_world) /\
  takeHeapSnapshot idle_world = (Throw SessionNotActive, idle_world) /\
  (samples_needed 100 <= 1)%nat /\
  eval (profileMemory 1 100) idle_world =
    Ok (Resolved (Some "profiles/memory_5.json")).
Proof.
  assert (Hin : inactive idle_world) by reflexivity.
  assert (Hn : (samples_needed 100 <= 1)%nat) by (vm_compute; lia).
  split; [exact Hin|]. split; [|split; [|split; [exact Hn|]]].
  - exact (proj1 capture_guards 30000 idle_world Hin).
  - exact (proj1 (proj2 capture_guards) idle_world Hin).
  - exact (proj1 (proj2 (proj2 (proj2 (proj2 capture_guards) 1%nat 100
                                  idle_world) Hn))).
Defined.

(** C3, counterexample.  [profileMemory(150)] takes 2 samples, while
    [max 1 (floor (150 / 100))] is 1. *)
Lemma profileMemory_150_takes_two_samples :
  eval (profileMemory 2 150) idle_world =
    Ok (Resolved (Some "profiles/memory_5.json")) /\
  option_map p_samples
    (sget "memory_5" (profiles (self (exec (profileMemory 2 150) idle_world)))) =
    Some (Some 2) /\
  Z.max 1 (150 / 100) = 1 /\
  ~ writes_floor_samples idle_world 150.
Proof.
  split; [reflexivity|]. split; [reflexivity|]. split; [reflexivity|].
  intros H.
  destruct (H 2%nat "profiles/memory_5.json" eq_refl) as (data & Hfile & Hlen).
  vm_compute in Hfile. injection Hfile as <-. vm_compute in Hlen.
  discriminate Hlen.
Qed.

Lemma profileMemory_sample_count_witness :
  (samples_needed 150 <= 2)%nat /\
  samples_needed 150 = 2%nat /\
  eval (profileMemory 2 150) idle_world =
    Ok (Resolved (Some "profiles/memory_5.json")).
Proof.
  assert (Hn : (samples_needed 150 <= 2)%nat) by (vm_compute; lia).
  split; [exact Hn|]. split; [reflexivity|].
  pose proof (proj2 (profileMemory_sample_count idle_world 150 2) Hn) as H.
  destruct H as (_ & _ & _ & H).
  change (denied (env (host idle_world)) _) with false in H.
  exact (proj1 H).
Defined.

(** C7, counterexample.  One node, one sample, delta 0: the node's value is
    1, while the sum of its deltas is 0. *)
Lemma zero_delta_is_not_added_as_zero :
  map fl_value (_processProfileNodes [nodeA] [1] [0]) = [1] /\
  map (fun node => sum_of_deltas (node_id node) [1] [0]) [nodeA] = [0] /\
  ~ values_are_delta_sums [nodeA] [1] [0].
Proof.
  split; [reflexivity|]. split; [reflexivity|].
  unfold values_are_delta_sums. vm_compute. discriminate.
Qed.

Lemma flame_graph_totals_witness :
  NoDup (map node_id [nodeA; nodeB]) /\
  map fl_value (_processProfileNodes [nodeA; nodeB] [1; 2; 1; 2]
                                     [10; 20; 30; 40]) = [40; 60].
Proof.
  split.
  - cbn. constructor; [cbn; intuition discriminate|].
    constructor; [intros []|constructor].
  - exact (proj2 flame_graph_totals 1 2 (frame "A") (frame "B")
             ltac:(discriminate)).
Defined.

Lemma zero_or_absent_delta_counts_one_witness :
  (List.length [10] <= 1)%nat /\
  zget 2 (buildNodeMap [nodeA; nodeB] 0 []) = Some (fresh_agg nodeB 1) /\
  zget 2 (addSample [10] 2 1 (buildNodeMap [nodeA; nodeB] 0 [])) =
  Some {| agg_node := nodeB; agg_index := 1; selfTime := 0 + 1;
          totalTime := 0 + 1 |}.
Proof.
  assert (Hout : (List.length [10] <= 1)%nat) by (cbn; lia).
  assert (Hget : zget 2 (buildNodeMap [nodeA; nodeB] 0 [])
                 = Some (fresh_agg nodeB 1)) by reflexivity.
  split; [exact Hout|]. split; [exact Hget|].
  exact (proj1 zero_or_absent_delta_counts_one [10] 2 1%nat _ _
           (or_intror Hout) Hget).
Defined.

Lemma gc_frequency_check_witness :
  (forall k e,
     (k < List.length (m_gc (metrics (self gc_world))))%nat ->
     In e (m_gc (metrics (self gc_world))) ->
     gc_timestamp e >
     clock (env (host gc_world)) (k + tick (host gc_world)) - 60000) /\
  exists bs,
    eval detectBottlenecks gc_world = Ok bs /\
    of_type high_gc_frequency bs = [gcBottleneck 11 10].
Proof.
  assert (Hrecent : forall k e,
            (k < List.length (m_gc (metrics (self gc_world))))%nat ->
            In e (m_gc (metrics (self gc_world))) ->
            gc_timestamp e >
            clock (env (host gc_world)) (k + tick (host gc_world)) - 60000).
  { intros k e _ He. cbn in He.
    repeat (destruct He as [<-|He]; [cbn; lia|]). destruct He. }
  split; [exact Hrecent|].
  destruct (gc_frequency_check gc_world Hrecent) as (bs & Hrun & Hone & _).
  exists bs. split; [exact Hrun|]. exact (Hone eq_refl).
Defined.

Lemma memory_growth_check_witness :
  exists bs,
    eval detectBottlenecks leak_world = Ok bs /\
    of_type memory_leak bs =
    [leakBottleneck (inject_Z (4194304 - 0) / inject_Z (Z.of_nat 2))%Q].
Proof.
  destruct (memory_growth_check leak_world) as (bs & Hrun & _ & Hwin).
  exists bs. split; [exact Hrun|].
  refine (proj1 (Hwin [] leak_first [] leak_final eq_refl eq_refl) _).
  reflexivity.
Defined.

Lemma slow_operation_check_witness :
  In (0%nat, ("load", slow_records))
     (scheduled 0 (m_operations (metrics (self slow_world)))) /\
  recent_records (clock (env (host slow_world))) 0 slow_records
    = slow_records /\
  exists bs,
    eval detectBottlenecks slow_world = Ok bs /\
    In (slowBottleneck "load" 1500 6) bs.
Proof.
  assert (Hentry : In (0%nat, ("load", slow_records))
                      (scheduled 0 (m_operations (metrics (self slow_world)))))
    by (left; reflexivity).
  split; [exact Hentry|]. split; [reflexivity|].
  destruct (slow_operation_check slow_world) as (bs & Hrun & _ & Hflag & _).
  exists bs. split; [exact Hrun|].
  exact (proj2 (Hflag 0%nat "load" slow_records Hentry) eq_refl eq_refl).
Defined.

(** ** More on the session life cycle *)

Ltac steps := repeat progress step.

Lemma start_succeeds (w : World) :
  isRunning (self w) = false ->
  eval start w = Ok tt ->
  self (exec start w) =
    set_session (Some InspectorSession) (set_isRunning true (self w)) /\
  trace (host (exec start w)) = trace (host w) ++ start_effects w.
Proof.
  unfold eval, exec, start, start_effects, inspector_open,
    _startPerformanceMonitoring, _startAutoProfile. step.
  intros Hrun. rewrite Hrun. cbn.
  destruct (inspector_url (env (host w))); cbn.
  - destruct (autoProfile (config (self w))); cbn; intros _;
      rewrite <- ?app_assoc; split; reflexivity.
  - destruct (inspector_ok (env (host w))); cbn; [|discriminate].
    destruct (autoProfile (config (self w))); cbn; intros _;
      rewrite <- ?app_assoc; split; reflexivity.
Qed.


Lemma stop_clears_running_flag (w : World) :
  isRunning (self (exec stop w)) = false.
Proof.
  unfold exec, stop. step. destruct (isRunning (self w)) eqn:Hrun; cbn.
  - destruct (session (self w)); reflexivity.
  - exact Hrun.
Qed.

Lemma stop_when_running (w : World) (s : Session) :
  isRunning (self w) = true ->
  session (self w) = Some s ->
  stop w =
  (Ok tt,
   {| self := set_session None (set_isRunning false (self w));
      host := set_trace (trace (host w) ++ stop_effects) (host w) |}).
Proof.
  intros Hrun Hs. unfold stop. step. rewrite Hrun. cbn. rewrite Hs. steps.
  unfold stop_effects, set_trace. cbn. rewrite <- !app_assoc. reflexivity.
Qed.

Lemma set_inspector_url_same (e : Env) :
  inspector_url e = true -> set_inspector_url true e = e.
Proof. destruct e. cbn. now intros ->. Qed.

(** After a successful [start()] the inspector is active; nothing else of
    the host's answers has changed. *)
Lemma start_env (w : World) :
  isRunning (self w) = false ->
  eval start w = Ok tt ->
  env (host (exec start w)) = set_inspector_url true (env (host w)).
Proof.
  unfold eval, exec, start, inspector_open, _startPerformanceMonitoring,
    _startAutoProfile. step.
  intros Hrun. rewrite Hrun. cbn.
  destruct (inspector_url (env (host w))) eqn:Hurl; cbn.
  - rewrite set_inspector_url_same by exact Hurl.
    destruct (autoProfile (config (self w))); reflexivity.
  - destruct (inspector_ok (env (host w))); cbn; [|discriminate].
    destruct (autoProfile (config (self w))); reflexivity.
Qed.

Lemma stop_keeps_env (w : World) : env (host (exec stop w)) = env (host w).
Proof.
  unfold exec, stop. step. destruct (isRunning (self w)); cbn; [|reflexivity].
  destruct (session (self w)); reflexivity.
Qed.

Lemma start_then_stop_restores_profiler_aux (w : World) :
  isRunning (self w) = false ->
  session (self w) = None ->
  eval start w = Ok tt ->
  self (exec stop (exec start w)) = self w /\
  env (host (exec stop (exec start w))) =
    set_inspector_url true (env (host w)) /\
  trace (host (exec stop (exec start w))) =
    trace (host w) ++ start_effects w ++ stop_effects.
Proof.
  intros Hrun Hsession Hok.
  destruct (start_succeeds w Hrun Hok) as [Hself Htrace].
  split; [|split; [rewrite stop_keeps_env; now apply start_env|]].
  - unfold exec at 1.
    rewrite (stop_when_running (exec start w) InspectorSession)
      by (rewrite Hself; reflexivity).
    cbn [snd self]. rewrite Hself.
    destruct w as [[] h]. cbn in *. subst. reflexivity.
  - unfold exec at 1.
    rewrite (stop_when_running (exec start w) InspectorSession)
      by (rewrite Hself; reflexivity).
    cbn [snd host trace set_trace]. rewrite Htrace.
    now rewrite <- !app_assoc.
Qed.

(** [profileCPU] when the inspector answers [Profiler.stop] with an error:
    the promise stays pending, nothing is written or registered, and the
    rejection of the callback is left unhandled. *)
Lemma profileCPU_inspector_error (w : World) (duration : Z) (err : Error) :
  session (self w) <> None ->
  cpu_capture (env (host w)) (1 + tick (host w)) = inl err ->
  profileCPU duration w =
  (Ok Pending,
   add_trace
     (cpu_capture_effects
        ("cpu_" ++ show_Z (clock (env (host w)) (tick (host w)))) duration
      ++ [Unhandled (HostFailure "TypeError")])
     (advance 2 w)).
Proof.
  intros Hsession Herr. unfold profileCPU. step.
  destruct (session (self w)); [|congruence]. steps.
  change (1 + tick (host w))%nat with (S (tick (host w))) in Herr.
  rewrite Herr. steps.
  unfold add_trace, advance, cpu_capture_effects, set_trace, set_tick. cbn.
  rewrite <- !app_assoc. reflexivity.
Qed.

Lemma capture_guards_lemma :
  (forall duration w, inactive w ->
     profileCPU duration w = (Throw SessionNotActive, w)) /\
  (forall w, inactive w -> takeHeapSnapshot w = (Throw SessionNotActive, w)).
Proof.
  split.
  - intros duration w Hw. unfold inactive in Hw. unfold profileCPU. step.
    rewrite Hw. destruct w; reflexivity.
  - intros w Hw. unfold inactive in Hw. unfold takeHeapSnapshot. step.
    rewrite Hw. destruct w; reflexivity.
Qed.

Lemma start_sets_running (w : World) : isRunning (self (exec start w)) = true.
Proof.
  unfold exec, start, inspector_open, _startPerformanceMonitoring,
    _startAutoProfile. step.
  destruct w as [p h]. cbn.
  destruct (isRunning p) eqn:Hrun; cbn; [exact Hrun|].
  destruct (inspector_url (env h)); cbn.
  - destruct (autoProfile (config p)); reflexivity.
  - destruct (inspector_ok (env h)); cbn; [|reflexivity].
    destruct (autoProfile (config p)); reflexivity.
Qed.

Lemma start_when_running (w : World) :
  isRunning (self w) = true ->
  start w = (Ok tt, add_trace [Log LWarn MsgAlreadyRunning] w).
Proof.
  intros Hrun. unfold start. step. rewrite Hrun. reflexivity.
Qed.

(** X1.  Whatever the first [start()] did, a second one neither opens the
    inspector nor creates a session nor arms a timer: it returns normally
    and only logs the warning 'Profiler already running'. *)
Theorem start_twice_only_warns (w : World) :
  start (exec start w) =
  (Ok tt, add_trace [Log LWarn MsgAlreadyRunning] (exec start w)).
Proof. apply start_when_running, start_sets_running. Qed.

(** X2.  [start()] sets [isRunning] before it opens the inspector.  When
    the inspector cannot be opened the call fails and leaves the profiler
    marked as running without a session: the capture methods then fail
    with 'Profiler session not active', a further [start()] does not try
    again, and only [stop()] clears the flag. *)
Theorem failed_start_leaves_running_flag (w : World) :
  isRunning (self w) = false ->
  session (self w) = None ->
  inspector_url (env (host w)) = false ->
  inspector_ok (env (host w)) = false ->
  let w1 := exec start w in
  eval start w = Throw (HostFailure "ERR_INSPECTOR_NOT_AVAILABLE") /\
  self w1 = set_isRunning true (self w) /\
  trace (host w1) = trace (host w) ++ [Log LInfo MsgStarting] /\
  (forall duration, eval (profileCPU duration) w1 = Throw SessionNotActive) /\
  eval takeHeapSnapshot w1 = Throw SessionNotActive /\
  eval start w1 = Ok tt /\
  self (exec start w1) = self w1 /\
  self (exec stop w1) = self w.
Proof.
  intros Hrun Hsession Hurl Hok w1.
  assert (E : start w = (Throw (HostFailure "ERR_INSPECTOR_NOT_AVAILABLE"),
                         {| self := set_isRunning true (self w);
                            host := set_trace (trace (host w) ++
                                               [Log LInfo MsgStarting])
                                              (host w) |})).
  { unfold start, inspector_open. step. rewrite Hrun. cbn.
    rewrite Hurl. cbn. rewrite Hok. reflexivity. }
  subst w1. unfold exec, eval. rewrite E. cbn [fst snd self host trace].
  split; [reflexivity|]. split; [reflexivity|]. split; [reflexivity|].
  split; [|split; [|split; [|split]]].
  - intros duration. unfold profileCPU. step. now rewrite Hsession.
  - unfold takeHeapSnapshot. step. now rewrite Hsession.
  - now rewrite start_when_running.
  - now rewrite start_when_running.
  - unfold stop. step. rewrite Hsession. cbn.
    destruct w as [[] h]. cbn in *. subst. reflexivity.
Qed.

(** X3.  [start()] followed by [stop()] gives back the profiler object it
    started from: flags, session, buffers, profiles and configuration.
    What remains is the trace: the effects of the start (one connect, the
    monitoring interval armed) followed by those of the stop (one
    disconnect), and no interval cleared. *)
Theorem start_then_stop_restores_profiler (w : World) :
  isRunning (self w) = false ->
  session (self w) = None ->
  eval start w = Ok tt ->
  self (exec stop (exec start w)) = self w /\
  trace (host (exec start w)) = trace (host w) ++ start_effects w /\
  trace (host (exec stop (exec start w))) =
    trace (host w) ++ start_effects w ++ stop_effects.
Proof.
  intros Hrun Hsession Hok.
  destruct (start_then_stop_restores_profiler_aux w Hrun Hsession Hok)
    as (Hself & _ & Htrace).
  destruct (start_succeeds w Hrun Hok) as [_ Htrace1].
  auto.
Qed.


(** X5.  After [stop()] — whatever the state it was called in — the next
    firing of the monitoring interval samples nothing and clears the
    interval, and the next firing of the auto-profile interval captures
    nothing and clears its interval. *)
Theorem timers_after_stop_only_clear (w : World) :
  let w1 := exec stop w in
  monitorInterval w1 = (Ok tt, add_trace [ClearInterval MonitorTimer] w1) /\
  profileInterval w1 = (Ok tt, add_trace [ClearInterval AutoProfileTimer] w1).
Proof.
  intros w1.
  assert (Hrun : isRunning (self w1) = false).
  { pose proof (stop_clears_running_flag w) as H. exact H. }
  split.
  - unfold monitorInterval. step. now rewrite Hrun.
  - unfold profileInterval. step. now rewrite Hrun.
Qed.

(** X6.  A firing of the auto-profile interval never fails, and it takes
    the heap snapshot only after a CPU profile that resolved.  When
    [profileCPU] rejects — there is no session, or the profile cannot be
    written — the rejection is caught and logged as 'Auto-profile failed'.
    When the inspector answers [Profiler.stop] with an error, the promise
    of [profileCPU] is never settled: the firing logs nothing and leaves
    an unhandled rejection behind. *)
Theorem auto_profile_firing_never_fails (w : World) :
  let duration := profileDuration (config (self w)) in
  eval profileInterval w = Ok tt /\
  (forall error,
     isRunning (self w) = true ->
     eval (profileCPU duration) w = Throw error ->
     exec profileInterval w =
     add_trace [Log LError (MsgAutoProfileFailed error)]
               (exec (profileCPU duration) w)) /\
  (isRunning (self w) = true ->
   session (self w) = None ->
   exec profileInterval w =
   add_trace [Log LError (MsgAutoProfileFailed SessionNotActive)] w) /\
  (forall err,
     isRunning (self w) = true ->
     session (self w) <> None ->
     cpu_capture (env (host w)) (1 + tick (host w)) = inl err ->
     eval (profileCPU duration) w = Ok Pending /\
     exec profileInterval w =
     add_trace
       (cpu_capture_effects
          ("cpu_" ++ show_Z (clock (env (host w)) (tick (host w)))) duration
        ++ [Unhandled (HostFailure "TypeError")])
       (advance 2 w)).
Proof.
  intros duration.
  assert (Hgen : forall error,
     isRunning (self w) = true ->
     eval (profileCPU duration) w = Throw error ->
     exec profileInterval w =
     add_trace [Log LError (MsgAutoProfileFailed error)]
               (exec (profileCPU duration) w)).
  { intros error Hrun. unfold eval, exec, profileInterval.
    unfold bind at 1. unfold this at 1. cbv beta iota. rewrite Hrun.
    cbn [negb]. unfold try_catch. unfold bind at 1. fold duration.
    destruct (profileCPU duration w) as [[path|e] w1]; cbn [fst snd];
      [discriminate|].
    intros [= ->]. reflexivity. }
  split; [|split; [exact Hgen|split]].
  - unfold eval, profileInterval.
    unfold bind at 1. unfold this at 1. cbv beta iota.
    destruct (isRunning (self w)); cbn [negb]; [|reflexivity].
    unfold try_catch. unfold bind at 1. fold duration.
    destruct (profileCPU duration w) as [[[|path]|e] w1];
      [reflexivity| |reflexivity].
    unfold bind. destruct (takeHeapSnapshot w1) as [[snapshot|e] w2];
      reflexivity.
  - intros Hrun Hsession.
    assert (E : profileCPU duration w = (Throw SessionNotActive, w)).
    { apply (proj1 capture_guards_lemma). exact Hsession. }
    rewrite (Hgen SessionNotActive Hrun); unfold eval, exec; rewrite E;
      reflexivity.
  - intros err Hrun Hsession Herr.
    pose proof (profileCPU_inspector_error w duration err Hsession Herr) as E.
    unfold eval, exec. rewrite E. split; [reflexivity|].
    unfold profileInterval.
    unfold bind at 1. unfold this at 1. cbv beta iota. rewrite Hrun.
    cbn [negb]. unfold try_catch. unfold bind at 1. fold duration.
    rewrite E. reflexivity.
Qed.

(** ** Instrumentation listener and sampler *)

Lemma handleGC_world (w : World) duration detail :
  let buffer := gc_after w duration detail in
  let recentGCs :=
    recent_at gc_timestamp 60000 (clock (env (host w)))
              (2 + tick (host w)) buffer in
  let threshold := th_gcFrequency (performanceThresholds (config (self w))) in
  _handleGCEntry duration detail w =
  (Ok tt,
   {| self := set_metrics (set_gc buffer (metrics (self w))) (self w);
      host := set_trace
                (trace (host w) ++
                 if Z.of_nat (List.length recentGCs) >? threshold
                 then [Emit (EvHighGcFrequency (List.length recentGCs) threshold)]
                 else [])
                (set_tick (List.length buffer + (2 + tick (host w))) (host w)) |}).
Proof.
  cbv zeta. unfold _handleGCEntry. step. rewrite filterM_newer. cbn.
  fold (gc_after w duration detail).
  destruct (_ >? _); steps; unfold advance, set_trace, set_tick; cbn;
    rewrite ?app_nil_r; reflexivity.
Qed.

Lemma collect_world (w : World) :
  let e := env (host w) in
  let t := tick (host w) in
  let usage := memoryUsage e t in
  let oneHourAgo := clock e (4 + t) - 3600000 in
  let limit := th_memoryUsage (performanceThresholds (config (self w))) in
  _collectSystemMetrics w =
  (Ok tt,
   {| self :=
        set_metrics
          (set_cpu
             (filter (fun c => cpu_timestamp c >? oneHourAgo)
                     (m_cpu (metrics (self w)) ++
                      [{| cpu_timestamp := clock e (3 + t);
                          cpu_usage := cpuUsage e (1 + t) |}]))
             (set_memory
                (filter (fun m => mem_timestamp m >? oneHourAgo)
                        (m_memory (metrics (self w)) ++
                         [{| mem_timestamp := clock e (2 + t);
                             mem_usage := usage |}]))
                (metrics (self w))))
          (self w);
      host := set_trace
                (trace (host w) ++
                 if heapUsed usage >? limit
                 then [Emit (EvHighMemoryUsage (heapUsed usage) limit)]
                 else [])
                (set_tick (5 + t) (host w)) |}).
Proof.
  cbv zeta. unfold _collectSystemMetrics. step.
  destruct (_ >? _); steps; unfold set_trace, set_tick; cbn;
    rewrite ?app_nil_r; reflexivity.
Qed.

Lemma sget_sset_other {V} (k other : string) (v : V) (m : smap V) :
  other <> k -> sget other (sset k v m) = sget other m.
Proof.
  unfold sget, sset. intros Hne.
  induction m as [|[k' v'] m IH]; cbn.
  - destruct (String.eqb_spec other k); [contradiction|reflexivity].
  - destruct (String.eqb_spec k k') as [->|Hk]; cbn.
    + destruct (String.eqb_spec other k'); [contradiction|reflexivity].
    + now rewrite IH.
Qed.

Lemma sset_sset {V} (k : string) (v v' : V) (m : smap V) :
  sset k v' (sset k v m) = sset k v' m.
Proof.
  unfold sset. induction m as [|[k0 v0] m IH]; cbn.
  - now rewrite String.eqb_refl.
  - destruct (String.eqb_spec k k0) as [->|Hne]; cbn.
    + now rewrite String.eqb_refl.
    + destruct (String.eqb_spec k k0); [contradiction|]. now rewrite IH.
Qed.

Lemma sset_present_keys {V} (k : string) (v v0 : V) (m : smap V) :
  sget k m = Some v0 -> map fst (sset k v m) = map fst m.
Proof.
  unfold sget, sset. induction m as [|[k' v'] m IH]; cbn; [discriminate|].
  destruct (String.eqb_spec k k') as [->|Hne]; cbn; [reflexivity|].
  intros H. now rewrite IH.
Qed.

Lemma sset_absent_keys {V} (k : string) (v : V) (m : smap V) :
  sget k m = None -> map fst (sset k v m) = map fst m ++ [k].
Proof.
  unfold sget, sset. induction m as [|[k' v'] m IH]; cbn; [reflexivity|].
  destruct (String.eqb_spec k k') as [->|Hne]; cbn; [discriminate|].
  intros H. now rewrite IH.
Qed.

Lemma sget_present_key {V} (k : string) (v : V) (m : smap V) :
  sget k m = Some v -> In k (map fst m).
Proof.
  unfold sget. induction m as [|[k' v'] m IH]; cbn; [discriminate|].
  destruct (String.eqb_spec k k') as [->|Hne]; [now left|].
  intros H. right. now apply IH.
Qed.

Lemma sget_None_absent {V} (k : string) (m : smap V) :
  sget k m = None -> ~ In k (map fst m).
Proof.
  unfold sget. induction m as [|[k' v'] m IH]; cbn; [tauto|].
  destruct (String.eqb_spec k k') as [->|Hne]; [discriminate|].
  intros H [E|Hin]; [congruence|]. now apply IH.
Qed.

Lemma sset_keeps_NoDup {V} (k : string) (v : V) (m : smap V) :
  NoDup (map fst m) -> NoDup (map fst (sset k v m)).
Proof.
  intros Hnd. destruct (sget k m) as [v0|] eqn:E.
  - now rewrite (sset_present_keys k v v0 m E).
  - rewrite (sset_absent_keys k v m E).
    apply NoDup_app; [exact Hnd | repeat constructor; intros [] |].
    intros x Hx [<-|[]]. now apply (sget_None_absent k m E).
Qed.

Lemma measure_world (w : World) name duration startTime :
  let record := {| op_timestamp := clock (env (host w)) (tick (host w));
                   op_duration := duration; op_startTime := startTime |} in
  let operations := m_operations (metrics (self w)) in
  _handleMeasureEntry name duration startTime w =
  (Ok tt,
   {| self := set_metrics
                (set_operations
                   (sset name (records_of name operations ++ [record])
                         operations)
                   (metrics (self w)))
                (self w);
      host := set_trace
                (trace (host w) ++
                 if (1000 <? duration)%float
                 then [Emit (EvSlowOperation name duration 1000)]
                 else [])
                (set_tick (1 + tick (host w)) (host w)) |}).
Proof.
  cbv zeta. unfold _handleMeasureEntry, records_of, JsMap.has.
  fold (@sget (list OperationRecord)). step.
  destruct (sget name (m_operations (metrics (self w)))) as [records|] eqn:E;
    steps; rewrite ?E, ?sget_sset_same; cbn; rewrite ?sset_sset;
    destruct (1000 <? duration)%float; steps;
    unfold set_trace, set_tick, set_metrics, set_operations; cbn;
    rewrite ?app_nil_r; reflexivity.
Qed.

(** X7.  A measure entry appends one record — stamped with the clock, after
    the records the operation already had, or as the first record of a new
    operation — and leaves every other operation and the other buffers as
    they were.  It emits [slow-operation] exactly when the duration exceeds
    1000 ms. *)
Theorem measure_entry_appends_record (w : World) name duration startTime :
  let w' := exec (_handleMeasureEntry name duration startTime) w in
  let operations := m_operations (metrics (self w)) in
  let operations' := m_operations (metrics (self w')) in
  let record := {| op_timestamp := clock (env (host w)) (tick (host w));
                   op_duration := duration; op_startTime := startTime |} in
  eval (_handleMeasureEntry name duration startTime) w = Ok tt /\
  sget name operations' = Some (records_of name operations ++ [record]) /\
  (forall other, other <> name ->
                 sget other operations' = sget other operations) /\
  m_memory (metrics (self w')) = m_memory (metrics (self w)) /\
  m_cpu (metrics (self w')) = m_cpu (metrics (self w)) /\
  m_gc (metrics (self w')) = m_gc (metrics (self w)) /\
  ((1000 <? duration)%float = true ->
   trace (host w') =
   trace (host w) ++ [Emit (EvSlowOperation name duration 1000)]) /\
  ((1000 <? duration)%float = false -> trace (host w') = trace (host w)).
Proof.
  cbv zeta. unfold exec, eval. rewrite measure_world. cbn.
  split; [reflexivity|]. split; [apply sget_sset_same|].
  split; [intros other Hne; now apply sget_sset_other|].
  split; [reflexivity|]. split; [reflexivity|]. split; [reflexivity|].
  split; intros H.
  - now rewrite H.
  - rewrite H. now rewrite app_nil_r.
Qed.

Lemma mark_world (w : World) name startTime :
  _handleMarkEntry name startTime w =
  (Ok tt,
   {| self := set_marks
                (sset name
                   {| mark_timestamp := clock (env (host w)) (tick (host w));
                      mark_startTime := startTime |}
                   (performanceMarks (self w)))
                (self w);
      host := set_tick (1 + tick (host w)) (host w) |}).
Proof. unfold _handleMarkEntry. step. reflexivity. Qed.

Lemma deliver_frame (ev : HostEvent) (w : World) :
  eval (deliver ev) w = Ok tt /\
  same_session_and_artifacts w (exec (deliver ev) w) /\
  (NoDup (map fst (m_operations (metrics (self w)))) ->
   NoDup (map fst (m_operations (metrics (self (exec (deliver ev) w)))))) /\
  (isRunning (self w) = false -> ev = MonitorFired ->
   self (exec (deliver ev) w) = self w).
Proof.
  unfold same_session_and_artifacts, eval, exec.
  destruct ev as [|[duration detail|name duration startTime|name startTime
                    |name duration]]; cbn [deliver _handlePerformanceEntry].
  - unfold monitorInterval. unfold bind at 1 2 3 4 5 6 7 8 9.
    unfold this. cbv beta iota.
    destruct (isRunning (self w)) eqn:Hrun; cbn [negb].
    + rewrite collect_world. cbn. rewrite Hrun.
      repeat split; auto; discriminate.
    + steps. rewrite Hrun. repeat split; auto.
  - rewrite handleGC_world. cbn. repeat split; auto; discriminate.
  - rewrite measure_world. cbn. repeat split; auto; try discriminate.
    apply sset_keeps_NoDup.
  - rewrite mark_world. cbn. repeat split; auto; discriminate.
  - unfold _handleFunctionEntry. steps. repeat split; auto; discriminate.
Qed.

(** X8.  Whatever entries the observer delivers and however often the
    monitoring interval fires, handling them never fails and never changes
    the configuration, the running flag, the session, the stored profiles
    or any file; the operations map keeps distinct keys. *)
Theorem event_handling_keeps_session_and_artifacts
    (history : list HostEvent) (w : World) :
  let w' := exec (deliver_all history) w in
  eval (deliver_all history) w = Ok tt /\
  same_session_and_artifacts w w' /\
  (NoDup (map fst (m_operations (metrics (self w)))) ->
   NoDup (map fst (m_operations (metrics (self w'))))).
Proof.
  cbv zeta. unfold deliver_all. revert w.
  induction history as [|ev rest IH]; intros w.
  - cbn. unfold same_session_and_artifacts. repeat split; auto.
  - destruct (deliver_frame ev w) as (Hok & Hframe & Hnd & _).
    unfold eval, exec in *. cbn [for_of]. unfold bind.
    destruct (deliver ev w) as [r w1]. cbn [fst snd] in *. subst r.
    destruct (IH w1) as (Hok' & Hframe' & Hnd').
    split; [exact Hok'|]. split; [|auto].
    unfold same_session_and_artifacts in *.
    destruct Hframe as (H1 & H2 & H3 & H4 & H5 & H6).
    destruct Hframe' as (H1' & H2' & H3' & H4' & H5' & H6').
    repeat split; congruence.
Qed.

(** ** Chronological order of the buffers *)

Lemma chronological_nil {A} (timestamp : A -> Z) bound :
  chronological timestamp bound [].
Proof. split; constructor. Qed.

Lemma chronological_later {A} (timestamp : A -> Z) bound bound' xs :
  bound <= bound' ->
  chronological timestamp bound xs -> chronological timestamp bound' xs.
Proof.
  intros Hle [Hs Hb]. split; [exact Hs|].
  eapply Forall_impl; [|exact Hb]. cbn. intros a Ha. lia.
Qed.

Lemma chronological_push {A} (timestamp : A -> Z) bound bound' xs x :
  bound <= timestamp x -> timestamp x <= bound' ->
  chronological timestamp bound xs ->
  chronological timestamp bound' (xs ++ [x]).
Proof.
  intros Hlo Hhi [Hs Hb]. split.
  - induction xs as [|y ys IH]; cbn.
    + repeat constructor.
    + inversion Hs as [|? ? Hs' Hy]; subst.
      inversion Hb as [|? ? Hyb Hb']; subst.
      constructor; [now apply IH|].
      apply Forall_app. split; [exact Hy|]. constructor; [lia|constructor].
  - apply Forall_app. split.
    + eapply Forall_impl; [|exact Hb]. cbn. intros a Ha. lia.
    + constructor; [exact Hhi|constructor].
Qed.

Lemma chronological_filter {A} (timestamp : A -> Z) bound (f : A -> bool) xs :
  chronological timestamp bound xs ->
  chronological timestamp bound (filter f xs).
Proof.
  intros [Hs Hb]. split.
  - induction Hs as [|y ys Hs' IH Hy]; cbn; [constructor|].
    inversion Hb as [|? ? _ Hb']; subst.
    destruct (f y); [|now apply IH].
    constructor; [now apply IH|].
    rewrite Forall_forall in *. intros z Hz. apply filter_In in Hz.
    now apply Hy.
  - rewrite Forall_forall in *. intros z Hz. apply filter_In in Hz.
    now apply Hb.
Qed.

Lemma Forall_sset {V} (P : string * V -> Prop) (k : string) (v : V)
    (m : smap V) :
  Forall P m -> P (k, v) -> Forall P (sset k v m).
Proof.
  unfold sset. intros Hm Hkv.
  induction Hm as [|[k' v'] m Hx Hm' IH]; cbn.
  - repeat constructor. exact Hkv.
  - destruct (String.eqb k k'); constructor; auto.
Qed.

Lemma records_of_chronological bound name operations :
  Forall (fun entry => chronological op_timestamp bound (snd entry))
         operations ->
  chronological op_timestamp bound (records_of name operations).
Proof.
  unfold records_of, sget. intros H.
  induction H as [|[k v] m Hx Hm IH]; cbn; [apply chronological_nil|].
  destruct (String.eqb name k); [exact Hx|exact IH].
Qed.

Lemma timeline_later (w w' : World) :
  nondecreasing (clock (env (host w))) ->
  env (host w') = env (host w) ->
  (tick (host w) <= tick (host w'))%nat ->
  metrics (self w') = metrics (self w) ->
  timeline_ok w -> timeline_ok w'.
Proof.
  unfold timeline_ok. intros Hmono Henv Htick Hmetrics.
  rewrite Henv, Hmetrics. cbv zeta.
  pose proof (Hmono _ _ Htick) as Hle.
  intros (Hm & Hc & Hg & Ho).
  split; [|split; [|split]].
  - apply (chronological_later _ _ _ _ Hle Hm).
  - apply (chronological_later _ _ _ _ Hle Hc).
  - apply (chronological_later _ _ _ _ Hle Hg).
  - eapply Forall_impl; [|exact Ho]. cbn. intros entry.
    apply chronological_later. exact Hle.
Qed.

Lemma deliver_timeline (ev : HostEvent) (w : World) :
  nondecreasing (clock (env (host w))) ->
  timeline_ok w ->
  timeline_ok (exec (deliver ev) w) /\
  env (host (exec (deliver ev) w)) = env (host w).
Proof.
  intros Hmono Hok. unfold exec.
  destruct ev as [|[duration detail|name duration startTime|name startTime
                    |name duration]]; cbn [deliver _handlePerformanceEntry].
  - unfold monitorInterval. unfold bind at 1 2. unfold this. cbv beta iota.
    destruct (isRunning (self w)) eqn:Hrun; cbn [negb].
    + rewrite collect_world. cbn [snd host env set_trace set_tick].
      split; [|reflexivity].
      destruct Hok as (Hm & Hc & Hg & Ho). unfold timeline_ok. cbn.
      pose proof (Hmono (tick (host w)) (S (S (tick (host w)))) ltac:(lia)).
      pose proof (Hmono (tick (host w)) (S (S (S (tick (host w))))) ltac:(lia)).
      pose proof (Hmono (S (S (tick (host w))))
                        (S (S (S (S (S (tick (host w))))))) ltac:(lia)).
      pose proof (Hmono (S (S (S (tick (host w)))))
                        (S (S (S (S (S (tick (host w))))))) ltac:(lia)).
      pose proof (Hmono (tick (host w))
                        (S (S (S (S (S (tick (host w))))))) ltac:(lia)) as Hle.
      split; [|split; [|split]].
      * apply chronological_filter.
        eapply chronological_push; [| |exact Hm]; cbn; lia.
      * apply chronological_filter.
        eapply chronological_push; [| |exact Hc]; cbn; lia.
      * apply (chronological_later _ _ _ _ Hle Hg).
      * eapply Forall_impl; [|exact Ho]. cbn. intros entry.
        apply chronological_later. exact Hle.
    + steps. split; [|reflexivity].
      apply (timeline_later w); cbn; auto.
  - rewrite handleGC_world. cbn [snd host env set_trace set_tick].
    split; [|reflexivity].
    destruct Hok as (Hm & Hc & Hg & Ho). unfold timeline_ok. cbn.
    set (n := List.length (gc_after w duration detail)).
    pose proof (Hmono (tick (host w)) (n + S (S (tick (host w))))%nat
                  ltac:(lia)) as Hle.
    split; [|split; [|split]].
    * apply (chronological_later _ _ _ _ Hle Hm).
    * apply (chronological_later _ _ _ _ Hle Hc).
    * unfold gc_after. apply chronological_filter.
      eapply chronological_push; [| |exact Hg]; cbn; lia.
    * eapply Forall_impl; [|exact Ho]. cbn. intros entry.
      apply chronological_later. exact Hle.
  - rewrite measure_world. cbn [snd host env set_trace set_tick].
    split; [|reflexivity].
    destruct Hok as (Hm & Hc & Hg & Ho). unfold timeline_ok. cbn.
    pose proof (Hmono (tick (host w)) (S (tick (host w))) ltac:(lia)) as Hle.
    split; [|split; [|split]].
    * apply (chronological_later _ _ _ _ Hle Hm).
    * apply (chronological_later _ _ _ _ Hle Hc).
    * apply (chronological_later _ _ _ _ Hle Hg).
    * apply Forall_sset.
      -- eapply Forall_impl; [|exact Ho]. cbn. intros entry.
         apply chronological_later. exact Hle.
      -- cbn. eapply chronological_push;
           [| |apply records_of_chronological; exact Ho]; cbn; lia.
  - rewrite mark_world. cbn [snd host env set_tick]. split; [|reflexivity].
    apply (timeline_later w); cbn; auto.
  - unfold _handleFunctionEntry. steps. split; [|reflexivity].
    apply (timeline_later w); cbn; auto.
Qed.

(** X9.  With a clock that never goes back, every metric buffer stays in
    chronological order through any sequence of observed entries and
    sampler firings: memory samples, CPU samples, GC events and the records
    of each operation are sorted by timestamp, and none is dated after the
    current clock reading. *)
Theorem buffers_stay_chronological (history : list HostEvent) (w : World) :
  nondecreasing (clock (env (host w))) ->
  timeline_ok w ->
  timeline_ok (exec (deliver_all history) w).
Proof.
  unfold deliver_all. revert w.
  induction history as [|ev rest IH]; intros w Hmono Hok; [exact Hok|].
  destruct (deliver_timeline ev w Hmono Hok) as [Hok1 Henv].
  destruct (deliver_frame ev w) as (Hev & _).
  unfold exec, eval in *. cbn [for_of]. unfold bind.
  destruct (deliver ev w) as [r w1]. cbn [fst snd] in *. subst r.
  apply IH; [now rewrite Henv|exact Hok1].
Qed.

(** X10.  With the clock standing still, the [high-gc-frequency] event of
    the GC handler and the [high_gc_frequency] finding of the detector
    agree: right after a GC entry the detector reports the bottleneck
    exactly when the handler emitted the event, with the same count and
    threshold. *)
Theorem gc_event_matches_detector (w : World) (now : Z) duration detail :
  frozen w now ->
  let w' := exec (_handleGCEntry duration detail) w in
  let threshold := th_gcFrequency (performanceThresholds (config (self w))) in
  exists bs,
    eval detectBottlenecks w' = Ok bs /\
    ((of_type high_gc_frequency bs = [] /\
      trace (host w') = trace (host w)) \/
     (exists count,
        of_type high_gc_frequency bs = [gcBottleneck count threshold] /\
        trace (host w') =
        trace (host w) ++ [Emit (EvHighGcFrequency count threshold)])).
Proof.
  intros Hw w' threshold.
  destruct (detectBottlenecks_parts w') as (slow & Hrun & Hslow).
  eexists. split; [exact Hrun|].
  rewrite !of_type_app.
  rewrite (of_type_other high_gc_frequency memory_leak _
             ltac:(discriminate) (checkMemory_types _)).
  rewrite (of_type_other high_gc_frequency slow_operation slow
             ltac:(discriminate) Hslow).
  rewrite !app_nil_r, (of_type_same _ _ (gc_found_types w')).
  unfold gc_found. subst w'. unfold exec. rewrite handleGC_world.
  cbn [snd self host env tick trace set_trace set_tick set_metrics set_gc
       metrics m_gc config].
  fold threshold.
  set (buffer := gc_after w duration detail).
  rewrite (recent_at_frozen gc_timestamp 60000 _ now buffer
             (2 + tick (host w))).
  2:{ intros j. replace (j + (2 + tick (host w)))%nat
        with ((j + 2) + tick (host w))%nat by lia. apply Hw. }
  rewrite (recent_at_frozen gc_timestamp 60000 _ now buffer
             (List.length buffer + (2 + tick (host w)))).
  2:{ intros j.
      replace (j + (List.length buffer + (2 + tick (host w))))%nat
        with ((j + List.length buffer + 2) + tick (host w))%nat by lia.
      apply Hw. }
  destruct (_ >? threshold).
  - right. eexists. split; reflexivity.
  - left. split; [reflexivity|apply app_nil_r].
Qed.

(** ** Growth rate and memory trend *)

Lemma growthRate_endpoints (first : Z) (middle : list Z) (final : Z) :
  _calculateGrowthRate (first :: middle ++ [final]) =
  (inject_Z (final - first)
   / inject_Z (Z.of_nat (List.length (first :: middle ++ [final]))))%Q.
Proof.
  unfold _calculateGrowthRate.
  destruct (Nat.ltb_spec (List.length (first :: middle ++ [final])) 2)
    as [Hlt|_].
  - cbn in Hlt. rewrite length_app in Hlt. cbn in Hlt. lia.
  - cbn [nth]. rewrite app_comm_cons, last_last. reflexivity.
Qed.

Lemma two_or_more {A} (xs : list A) :
  (2 <= List.length xs)%nat ->
  exists first middle final, xs = first :: middle ++ [final].
Proof.
  destruct xs as [|first rest]; cbn; [lia|]. intros H.
  destruct (exists_last (l := rest)) as (middle & final & ->).
  - intros ->. cbn in H. lia.
  - eauto.
Qed.

(** [c < d / n] for a positive count [n], without the division. *)
Lemma rate_above (c d : Z) (n : nat) :
  (0 < n)%nat ->
  (inject_Z c < inject_Z d / inject_Z (Z.of_nat n))%Q <-> c * Z.of_nat n < d.
Proof.
  intros Hn. destruct n as [|k]; [lia|].
  change (Z.of_nat (S k)) with (Z.pos (Pos.of_succ_nat k)).
  generalize (Pos.of_succ_nat k) as p. intros p.
  unfold Qlt, Qdiv, Qmult, Qinv, inject_Z. cbn [Qnum Qden]. lia.
Qed.

Lemma rate_below (c d : Z) (n : nat) :
  (0 < n)%nat ->
  (inject_Z d / inject_Z (Z.of_nat n) < inject_Z c)%Q <-> d < c * Z.of_nat n.
Proof.
  intros Hn. destruct n as [|k]; [lia|].
  change (Z.of_nat (S k)) with (Z.pos (Pos.of_succ_nat k)).
  generalize (Pos.of_succ_nat k) as p. intros p.
  unfold Qlt, Qdiv, Qmult, Qinv, inject_Z. cbn [Qnum Qden]. lia.
Qed.

(** X11.  The growth rate looks only at the two ends of the series: it is
    0 for fewer than two values, it does not change when every value is
    shifted by the same amount, it changes sign when the series is
    reversed, and it is positive exactly when the last value is above the
    first. *)
Theorem growth_rate_uses_only_the_ends :
  (forall values, (List.length values < 2)%nat ->
                  _calculateGrowthRate values = 0%Q) /\
  (forall shift values,
     _calculateGrowthRate (map (Z.add shift) values) =
     _calculateGrowthRate values) /\
  (forall values,
     (_calculateGrowthRate (rev values) == - _calculateGrowthRate values)%Q) /\
  (forall first middle final,
     (0 < _calculateGrowthRate (first :: middle ++ [final]))%Q <->
     first < final).
Proof.
  split; [|split; [|split]].
  - intros values H. unfold _calculateGrowthRate.
    destruct (Nat.ltb_spec (List.length values) 2); [reflexivity|lia].
  - intros shift values.
    destruct (Nat.lt_ge_cases (List.length values) 2) as [Hlt|Hge].
    + unfold _calculateGrowthRate. rewrite length_map.
      destruct (Nat.ltb_spec (List.length values) 2); [reflexivity|lia].
    + destruct (two_or_more values Hge) as (first & middle & final & ->).
      cbn [map]. rewrite map_app. cbn [map].
      rewrite !growthRate_endpoints. cbn [List.length].
      rewrite !length_app, length_map.
      now replace (shift + final - (shift + first)) with (final - first)
        by lia.
  - intros values.
    destruct (Nat.lt_ge_cases (List.length values) 2) as [Hlt|Hge].
    + unfold _calculateGrowthRate. rewrite length_rev.
      destruct (Nat.ltb_spec (List.length values) 2); [reflexivity|lia].
    + destruct (two_or_more values Hge) as (first & middle & final & ->).
      change (first :: middle ++ [final]) with ([first] ++ middle ++ [final])
        at 1.
      rewrite !rev_app_distr. cbn [rev app].
      rewrite !growthRate_endpoints. cbn [List.length].
      rewrite !length_app, length_rev. cbn [List.length].
      replace (first - final) with (- (final - first)) by lia.
      unfold Qeq, Qdiv, Qmult, Qinv, Qopp, inject_Z.
      destruct (Z.of_nat _); cbn; lia.
  - intros first middle final. rewrite growthRate_endpoints.
    change 0%Q with (inject_Z 0).
    rewrite rate_above by (cbn; lia). lia.
Qed.

Lemma analyzeMemoryTrend_run (w : World) :
  _analyzeMemoryTrend w = (Ok (trend_of (m_memory (metrics (self w)))), w).
Proof.
  unfold _analyzeMemoryTrend, trend_of, bind, this, ret. cbv zeta.
  destruct (_ <? _)%nat; [reflexivity|].
  destruct (Qgtb _ _); [reflexivity|].
  destruct (Qgtb _ _); reflexivity.
Qed.

(** X12.  The memory trend is read off the last 20 samples (all of them
    when there are fewer): [insufficient_data] below 2 samples; otherwise,
    with [growth] the difference of [heapUsed] between the newest and the
    oldest of them and [n] their number, [increasing] when
    [growth > 1048576 * n], [decreasing] when [growth < -1048576 * n], and
    [stable] in between. *)
Theorem memory_trend_by_endpoints (w : World) :
  let memory := m_memory (metrics (self w)) in
  ((List.length memory < 2)%nat ->
   eval _analyzeMemoryTrend w = Ok insufficient_data) /\
  (forall older first middle final,
     let recent := first :: middle ++ [final] in
     let n := Z.of_nat (List.length recent) in
     let growth := heapUsed (mem_usage final) - heapUsed (mem_usage first) in
     memory = older ++ recent ->
     List.length recent = Nat.min 20 (List.length memory) ->
     eval _analyzeMemoryTrend w =
     Ok (if 1048576 * n <? growth then increasing
         else if growth <? - 1048576 * n then decreasing
         else stable)).
Proof.
  intros memory. unfold eval. rewrite analyzeMemoryTrend_run. cbn [fst].
  fold memory. split.
  - intros Hlt. unfold trend_of, slice_last. cbv zeta.
    replace (List.length memory - 20)%nat with 0%nat by lia. cbn [skipn].
    destruct (Nat.ltb_spec (List.length memory) 2); [reflexivity|lia].
  - intros older first middle final. cbv zeta. intros Hmem Hlen.
    set (recent := first :: middle ++ [final]) in *.
    set (n := Z.of_nat (List.length recent)).
    set (growth := heapUsed (mem_usage final) - heapUsed (mem_usage first)).
    unfold trend_of. cbv zeta.
    rewrite Hmem in Hlen |- *. rewrite slice_last_suffix by exact Hlen.
    assert (Hlen2 : (2 <= List.length recent)%nat).
    { unfold recent. cbn. rewrite length_app. cbn. lia. }
    destruct (Nat.ltb_spec (List.length recent) 2); [lia|].
    unfold recent at 1 2. cbn [map]. rewrite map_app. cbn [map].
    rewrite growthRate_endpoints. fold growth.
    cbn [List.length]. rewrite length_app, length_map. cbn [List.length].
    assert (Hn : n = Z.of_nat (S (List.length middle + 1))).
    { unfold n, recent. cbn [List.length]. now rewrite length_app. }
    change (1024 * 1024) with 1048576. change (- 1024 * 1024) with (-1048576).
    destruct (Qgtb _ (inject_Z 1048576)) eqn:Hup.
    + apply Qgtb_true in Hup. apply rate_above in Hup; [|lia].
      destruct (Z.ltb_spec (1048576 * n) growth); [reflexivity|lia].
    + apply Qgtb_false in Hup. rewrite rate_above in Hup by lia.
      destruct (Z.ltb_spec (1048576 * n) growth); [lia|].
      destruct (Qgtb (inject_Z (-1048576)) _) eqn:Hdown.
      * apply Qgtb_true in Hdown. apply rate_below in Hdown; [|lia].
        destruct (Z.ltb_spec growth (- 1048576 * n)); [reflexivity|lia].
      * apply Qgtb_false in Hdown. rewrite rate_below in Hdown by lia.
        destruct (Z.ltb_spec growth (- 1048576 * n)); [lia|reflexivity].
Qed.

Lemma slice_last_all {A} (n : nat) (xs : list A) :
  (List.length xs <= n)%nat -> slice_last n xs = xs.
Proof.
  intros H. unfold slice_last.
  now replace (List.length xs - n)%nat with 0%nat by lia.
Qed.

(** X13.  While the memory buffer holds at most 10 samples, the detector
    and the trend look at the same samples and agree: a [memory_leak]
    bottleneck is reported exactly when the trend is [increasing]. *)
Theorem leak_finding_matches_trend (w : World) :
  (List.length (m_memory (metrics (self w))) <= 10)%nat ->
  exists bs,
    eval detectBottlenecks w = Ok bs /\
    (of_type memory_leak bs <> [] <->
     eval _analyzeMemoryTrend w = Ok increasing).
Proof.
  intros Hlen.
  destruct (detectBottlenecks_parts w) as (slow & Hrun & Hslow).
  eexists. split; [exact Hrun|].
  rewrite !of_type_app.
  rewrite (of_type_other memory_leak high_gc_frequency _
             ltac:(discriminate) (gc_found_types w)).
  rewrite (of_type_other memory_leak slow_operation slow
             ltac:(discriminate) Hslow).
  rewrite app_nil_r. cbn [app].
  rewrite (of_type_same _ _ (checkMemory_types _)).
  unfold eval. rewrite analyzeMemoryTrend_run. cbn [fst].
  unfold trend_of, checkMemory. cbv zeta.
  rewrite !slice_last_all by lia.
  destruct (Nat.leb_spec 2 (List.length (m_memory (metrics (self w)))));
    destruct (Nat.ltb_spec (List.length (m_memory (metrics (self w)))) 2);
    try lia.
  - destruct (Qgtb _ _).
    + split; [reflexivity|discriminate].
    + split; [congruence|].
      destruct (Qgtb _ _); discriminate.
  - split; [congruence|discriminate].
Qed.

(** ** Reading the buffers *)

Lemma checkOperations_ticks operations : forall w,
  snd (checkOperations operations w) = advance (records_total operations) w.
Proof.
  induction operations as [|[operation measurements] rest IH]; intros w.
  - cbn. now rewrite advance_0.
  - cbn [checkOperations records_total snd]. unfold bind at 1.
    unfold checkOperation at 1. unfold bind at 1.
    rewrite filterM_newer. unfold ret at 1. unfold bind at 1.
    specialize (IH (advance (List.length measurements) w)).
    destruct (checkOperations rest _) as [[others|e] w1]; cbn [snd] in *;
      subst w1; unfold ret; cbn [snd]; rewrite advance_advance;
      f_equal; apply Nat.add_comm.
Qed.

Lemma detectBottlenecks_world (w : World) :
  exec detectBottlenecks w =
  advance (List.length (m_gc (metrics (self w))) +
           records_total (m_operations (metrics (self w)))) w.
Proof.
  unfold exec, detectBottlenecks. unfold bind at 1. unfold this at 1.
  cbv beta iota. unfold bind at 1. rewrite checkGC_run. cbv beta iota zeta.
  unfold bind at 1.
  match goal with |- context [checkOperations ?o ?x] =>
    pose proof (checkOperations_ticks o x) as Hticks;
    destruct (checkOperations_types o x) as (slow & n & E & _) end.
  rewrite E in Hticks |- *. cbn [snd] in *. unfold ret. cbn [snd].
  rewrite Hticks, advance_advance. f_equal. lia.
Qed.

Lemma analyzeGCSummary_run (w : World) :
  let recent :=
    recent_at gc_timestamp 300000 (clock (env (host w))) (tick (host w))
              (m_gc (metrics (self w))) in
  _analyzeGCSummary w =
  (Ok {| gs_count := List.length recent;
         gs_avgDuration :=
           if (0 <? List.length recent)%nat
           then (gc_total recent
                 / Number_of_Z (Z.of_nat (List.length recent)))%float
           else 0%float;
         gs_totalTime := gc_total recent |},
   advance (List.length (m_gc (metrics (self w)))) w).
Proof.
  cbv zeta. unfold _analyzeGCSummary. unfold bind at 1. unfold this at 1.
  cbv beta iota. unfold bind at 1. rewrite filterM_newer. reflexivity.
Qed.

Lemma recent_at_shorter {A} (timestamp : A -> Z) window clk xs : forall k,
  (List.length (recent_at timestamp window clk k xs) <= List.length xs)%nat.
Proof.
  induction xs as [|x rest IH]; intros k; cbn; [lia|].
  specialize (IH (S k)). destruct (_ >? _); cbn; lia.
Qed.

(** X14.  The GC summary counts the events of the last 5 minutes: the
    count never exceeds the size of the GC buffer, and with the clock
    standing at [now] it is the number of events newer than [now - 300000].
    With no such event the average and the total are both 0 — the average
    is not the quotient, which would be the [NaN] of 0 / 0.  With at least
    one, the average is the total divided by the count, in double
    arithmetic. *)
Theorem gc_summary_is_consistent (w : World) :
  exists summary,
    eval _analyzeGCSummary w = Ok summary /\
    (gs_count summary = 0%nat ->
     gs_avgDuration summary = 0%float /\
     gs_totalTime summary = 0%float /\
     (gs_totalTime summary / Number_of_Z (Z.of_nat (gs_count summary)))%float
     = nan) /\
    ((0 < gs_count summary)%nat ->
     gs_avgDuration summary =
     (gs_totalTime summary / Number_of_Z (Z.of_nat (gs_count summary)))%float) /\
    (gs_count summary <= List.length (m_gc (metrics (self w))))%nat /\
    (forall now,
       frozen w now ->
       gs_count summary =
       List.length (filter (fun gc => gc_timestamp gc >? now - 300000)
                           (m_gc (metrics (self w)))) /\
       gs_totalTime summary =
       gc_total (filter (fun gc => gc_timestamp gc >? now - 300000)
                        (m_gc (metrics (self w))))).
Proof.
  unfold eval. rewrite analyzeGCSummary_run. cbn [fst].
  eexists. split; [reflexivity|]. cbn [gs_count gs_avgDuration gs_totalTime].
  set (recent := recent_at _ _ _ _ _).
  split; [|split; [|split]].
  - intros H. apply length_zero_iff_nil in H. rewrite H.
    repeat split; reflexivity.
  - intros H. apply Nat.ltb_lt in H. now rewrite H.
  - apply recent_at_shorter.
  - intros now Hw. unfold recent.
    now rewrite (recent_at_frozen _ _ _ now) by exact Hw.
Qed.

(** X15.  The detector, the trend, the GC summary and [getStatus] only
    read: apart from the clock queries they make (one per GC event and per
    operation record looked at), they leave the profiler object, the files
    and the trace of effects exactly as they were. *)
Theorem analysis_only_reads (w : World) :
  let gcs := List.length (m_gc (metrics (self w))) in
  let records := records_total (m_operations (metrics (self w))) in
  exec detectBottlenecks w = advance (gcs + records) w /\
  exec _analyzeMemoryTrend w = w /\
  exec _analyzeGCSummary w = advance gcs w /\
  exec getStatus w = advance (gcs + records) w.
Proof.
  cbv zeta. split; [apply detectBottlenecks_world|].
  split; [unfold exec; now rewrite analyzeMemoryTrend_run|].
  split; [unfold exec; now rewrite analyzeGCSummary_run|].
  pose proof (detectBottlenecks_world w) as Hd.
  destruct (detectBottlenecks_parts w) as (slow & Hrun & _).
  unfold exec, eval, getStatus in *. unfold bind at 1. unfold this at 1.
  cbv beta iota. unfold bind at 1.
  destruct (detectBottlenecks w) as [r w1]. cbn [fst snd] in *. subst r w1.
  unfold bind at 1. rewrite analyzeMemoryTrend_run. reflexivity.
Qed.

Lemma checkOperations_count operations : forall w,
  exists found,
    fst (checkOperations operations w) = Ok found /\
    (List.length found <= List.length operations)%nat /\
    Forall (fun b => b_type b = slow_operation /\ b_severity b = warning)
           found.
Proof.
  induction operations as [|[operation measurements] rest IH]; intros w.
  - exists []. cbn. repeat split; auto.
  - cbn [checkOperations]. unfold bind at 1.
    unfold checkOperation at 1. unfold bind at 1.
    rewrite filterM_newer. unfold ret at 1. unfold bind at 1.
    destruct (IH (advance (List.length measurements) w))
      as (others & Hothers & Hlen & Hall).
    destruct (checkOperations rest _) as [r w1]. cbn [fst] in Hothers.
    subst r. unfold ret. cbn [fst].
    eexists. split; [reflexivity|].
    destruct (_ && _); cbn; split; try lia; auto.
Qed.

(** X16.  The detector returns its findings in the order of its three
    checks: at most one [high_gc_frequency] (warning), then at most one
    [memory_leak] (critical), then at most one [slow_operation] (warning)
    per operation.  On a profiler with empty buffers it returns the empty
    list. *)
Theorem detector_findings_are_bounded (w : World) :
  exists gcs leaks slow,
    eval detectBottlenecks w = Ok (gcs ++ leaks ++ slow) /\
    (List.length gcs <= 1)%nat /\
    Forall (fun b => b_type b = high_gc_frequency /\ b_severity b = warning)
           gcs /\
    (List.length leaks <= 1)%nat /\
    Forall (fun b => b_type b = memory_leak /\ b_severity b = critical)
           leaks /\
    (List.length slow <=
     List.length (m_operations (metrics (self w))))%nat /\
    Forall (fun b => b_type b = slow_operation /\ b_severity b = warning)
           slow /\
    (m_gc (metrics (self w)) = [] ->
     m_memory (metrics (self w)) = [] ->
     m_operations (metrics (self w)) = [] ->
     0 <= th_gcFrequency (performanceThresholds (config (self w))) ->
     gcs ++ leaks ++ slow = []).
Proof.
  unfold eval, detectBottlenecks. unfold bind at 1. unfold this at 1.
  cbv beta iota. unfold bind at 1. rewrite checkGC_run. cbv beta iota zeta.
  unfold bind at 1.
  match goal with |- context [checkOperations ?o ?x] =>
    destruct (checkOperations_count o x) as (slow & Hslow & Hlen & Hall);
    destruct (checkOperations o x) as [r w1] end.
  cbn [fst] in Hslow. subst r. unfold ret. cbn [fst].
  eexists _, _, slow. split; [reflexivity|].
  split; [destruct (_ >? _); cbn; lia|].
  split; [destruct (_ >? _); repeat constructor|].
  split; [unfold checkMemory; destruct (2 <=? _)%nat;
          [destruct (Qgtb _ _)|]; cbn; lia|].
  split; [unfold checkMemory; destruct (2 <=? _)%nat;
          [destruct (Qgtb _ _)|]; repeat constructor|].
  split; [exact Hlen|]. split; [exact Hall|].
  intros Hgc Hmem Hops Hth. rewrite Hgc, Hmem. rewrite Hops in Hlen.
  destruct slow; [|cbn in Hlen; lia]. cbn.
  destruct (Z.gtb_spec 0 (th_gcFrequency
                            (performanceThresholds (config (self w)))));
    [lia|reflexivity].
Qed.

(** ** More on retention *)

Lemma sdelete_keeps_NoDup {V} (p : string) (m : smap V) :
  NoDup (map fst m) -> NoDup (map fst (sdelete p m)).
Proof.
  unfold sdelete. induction m as [|[k v] m IH]; cbn; intros Hnd; [constructor|].
  inversion Hnd as [|? ? Hnotin Hnd']; subst.
  destruct (String.eqb p k); [exact Hnd'|]. cbn. constructor; [|now apply IH].
  intros Hin. apply Hnotin. clear - Hin.
  induction m as [|[k' v'] m IHm]; cbn in *; [contradiction|].
  destruct (String.eqb p k'); cbn in *; [now right|].
  destruct Hin as [->|Hin]; [now left|right; now apply IHm].
Qed.

Lemma sget_sdelete_same {V} (p : string) (m : smap V) :
  NoDup (map fst m) -> sget p (sdelete p m) = None.
Proof.
  unfold sget, sdelete. induction m as [|[k v] m IH]; cbn; intros Hnd;
    [reflexivity|].
  inversion Hnd as [|? ? Hnotin Hnd']; subst.
  destruct (String.eqb_spec p k) as [->|Hne].
  - now apply (@sget_absent V).
  - cbn. destruct (String.eqb_spec p k); [contradiction|]. now apply IH.
Qed.

Lemma sget_sdelete_None {V} (p q : string) (m : smap V) :
  NoDup (map fst m) -> sget q m = None -> sget q (sdelete p m) = None.
Proof.
  intros Hnd Hq. destruct (String.eqb_spec q p) as [->|Hne].
  - now apply sget_sdelete_same.
  - now rewrite sget_sdelete_other.
Qed.

Lemma cleanupLoop_files (cutoff : Z) (entries : smap CapturedProfile) :
  forall w r w',
    cleanupLoop entries cutoff w = (r, w') ->
    env (host w') = env (host w) /\
    tick (host w') = tick (host w) /\
    (forall path, ~ In path (old_paths cutoff entries) ->
                  sget path (files (host w')) = sget path (files (host w))) /\
    (NoDup (map fst (files (host w))) ->
     NoDup (map fst (files (host w'))) /\
     (forall path, sget path (files (host w)) = None ->
                   sget path (files (host w')) = None) /\
     (forall path, In path (old_paths cutoff entries) ->
                   denied (env (host w)) path = false ->
                   sget path (files (host w')) = None)).
Proof.
  induction entries as [|[profileId profile] rest IH]; intros w r w' E.
  - cbn in E. injection E as <- <-. repeat split; auto. contradiction.
  - cbn [cleanupLoop] in E.
    assert (Hpaths : old_paths cutoff ((profileId, profile) :: rest) =
                     if p_timestamp profile <? cutoff
                     then p_filepath profile :: old_paths cutoff rest
                     else old_paths cutoff rest).
    { unfold old_paths. cbn [filter]. unfold is_old at 1. cbn [snd].
      destruct (_ <? _); reflexivity. }
    rewrite Hpaths. clear Hpaths.
    destruct (Z.ltb_spec (p_timestamp profile) cutoff) as [Hold|Hnew].
    + unfold bind at 1 in E. unfold try_catch, bind at 1 in E.
      pose proof (fs_unlink_run (p_filepath profile) w) as Hrun.
      destruct (unlink_fails (host w) (p_filepath profile)) eqn:Hfail.
      * destruct Hrun as (error & Hrun). rewrite Hrun in E.
        unfold logger, effect, on_host in E. cbv beta iota in E.
        unfold bind at 1 in E.
        match type of E with context [cleanupLoop rest cutoff ?x] =>
          destruct (cleanupLoop rest cutoff x) as [r1 w1] eqn:E1 end.
        specialize (IH _ _ _ E1).
        cbn [snd host env tick files set_trace] in IH.
        destruct IH as (Henv & Htick & Hother & Hdup).
        assert (w' = w1) as -> by (destruct r1; unfold ret in E; congruence).
        split; [exact Henv|]. split; [exact Htick|]. split.
        -- intros path Hpath. apply Hother. intros Hin. apply Hpath.
           now right.
        -- intros Hnd. destruct (Hdup Hnd) as (Hnd' & Hnone & Hgone).
           split; [exact Hnd'|]. split; [exact Hnone|].
           intros path [<-|Hin] Hden; [|now apply Hgone].
           apply Hnone. unfold unlink_fails, JsMap.has in Hfail.
           fold (@sget Artifact) in Hfail. rewrite Hden in Hfail.
           cbn in Hfail.
           destruct (sget (p_filepath profile) (files (host w)));
             [discriminate|reflexivity].
      * rewrite Hrun in E.
        unfold logger, effect, on_host in E. cbv beta iota in E.
        unfold bind at 1 in E.
        match type of E with context [cleanupLoop rest cutoff ?x] =>
          destruct (cleanupLoop rest cutoff x) as [r1 w1] eqn:E1 end.
        specialize (IH _ _ _ E1).
        cbn [snd self host env tick files set_trace set_files] in IH.
        destruct IH as (Henv & Htick & Hother & Hdup).
        assert (w' = w1) as -> by (destruct r1; unfold ret in E; congruence).
        split; [exact Henv|]. split; [exact Htick|]. split.
        -- intros path Hpath. rewrite Hother.
           ++ apply sget_sdelete_other. intros ->. apply Hpath. now left.
           ++ intros Hin. apply Hpath. now right.
        -- intros Hnd.
           destruct (Hdup (sdelete_keeps_NoDup _ _ Hnd))
             as (Hnd' & Hnone & Hgone).
           split; [exact Hnd'|]. split.
           ++ intros path Hpath. apply Hnone. now apply sget_sdelete_None.
           ++ intros path [<-|Hin] Hden; [|now apply Hgone].
              apply Hnone. now apply sget_sdelete_same.
    + now apply (IH w r w').
Qed.

Lemma cleanupLoop_nothing (cutoff : Z) (entries : smap CapturedProfile) :
  Forall (fun entry => is_old cutoff entry = false) entries ->
  forall w, cleanupLoop entries cutoff w = (Ok [], w).
Proof.
  induction 1 as [|[profileId profile] rest Hnew _ IH]; intros w;
    [reflexivity|].
  cbn [cleanupLoop]. unfold is_old in Hnew. cbn [snd] in Hnew.
  rewrite Hnew. apply IH.
Qed.

Lemma cleanupProfiles_world (w : World) (maxAge : Z) :
  let cutoff := clock (env (host w)) (tick (host w)) - maxAge in
  let w1 := snd (cleanupLoop (profiles (self w)) cutoff (advance 1 w)) in
  let toDelete := map fst (filter (is_old cutoff) (profiles (self w))) in
  cleanupProfiles maxAge w =
  (Ok tt,
   add_trace [Log LInfo (MsgCleanedUp (List.length toDelete))]
     {| self := set_profiles
                  (fold_left (fun m profileId => sdelete profileId m)
                             toDelete (profiles (self w)))
                  (self w);
        host := host w1 |}).
Proof.
  cbv zeta. unfold cleanupProfiles.
  unfold bind at 1. unfold Date_now, query at 1. cbv beta iota.
  unfold bind at 1. unfold this at 1. cbv beta iota. cbn [self host env tick].
  unfold bind at 1. change (S (tick (host w))) with (1 + tick (host w))%nat.
  fold (advance 1 w).
  destruct (cleanupLoop_run (clock (env (host w)) (tick (host w)) - maxAge)
              (profiles (self w)) (advance 1 w))
    as (w2 & E & Hself & _).
  rewrite E. cbn [snd]. unfold bind at 1. rewrite deletions_run. steps.
  rewrite Hself. reflexivity.
Qed.

Lemma cleanupProfiles_host (w : World) (maxAge : Z) :
  let cutoff := clock (env (host w)) (tick (host w)) - maxAge in
  let w' := exec (cleanupProfiles maxAge) w in
  env (host w') = env (host w) /\
  tick (host w') = (1 + tick (host w))%nat /\
  (forall path, ~ In path (old_paths cutoff (profiles (self w))) ->
                sget path (files (host w')) = sget path (files (host w))) /\
  (NoDup (map fst (files (host w))) ->
   NoDup (map fst (files (host w'))) /\
   (forall path, In path (old_paths cutoff (profiles (self w))) ->
                 denied (env (host w)) path = false ->
                 sget path (files (host w')) = None)).
Proof.
  cbv zeta. unfold exec. rewrite cleanupProfiles_world.
  cbn [snd add_trace host env tick files set_trace].
  destruct (cleanupLoop (profiles (self w))
              (clock (env (host w)) (tick (host w)) - maxAge) (advance 1 w))
    as [r w1] eqn:E.
  destruct (cleanupLoop_files _ _ _ _ _ E) as (Henv & Htick & Hother & Hdup).
  cbn [snd]. cbn in Henv, Htick, Hother, Hdup.
  split; [exact Henv|]. split; [exact Htick|]. split; [exact Hother|].
  intros Hnd. destruct (Hdup Hnd) as (Hnd' & _ & Hgone). auto.
Qed.

Lemma filter_nothing {A} (f : A -> bool) (xs : list A) :
  Forall (fun x => f x = false) xs -> filter f xs = [].
Proof.
  induction 1 as [|x xs Hx _ IH]; cbn; [reflexivity|]. now rewrite Hx.
Qed.

(** X17.  A second cleanup pass whose cutoff is not later than the first
    one's — the same [maxAge] with the clock not advanced, or a longer
    [maxAge] — finds nothing to do: it attempts no deletion, leaves the
    profile map and the files as the first pass left them, and only logs
    'Cleaned up 0 old profiles'. *)
Theorem cleanup_again_changes_nothing (w : World) (maxAge maxAge' : Z) :
  let w1 := exec (cleanupProfiles maxAge) w in
  NoDup (map fst (profiles (self w))) ->
  clock (env (host w)) (1 + tick (host w)) - maxAge' <=
  clock (env (host w)) (tick (host w)) - maxAge ->
  cleanupProfiles maxAge' w1 =
  (Ok tt, add_trace [Log LInfo (MsgCleanedUp 0)] (advance 1 w1)).
Proof.
  intros w1 Hnd Hcut.
  destruct (cleanupProfiles_host w maxAge) as (Henv & Htick & _).
  fold w1 in Henv, Htick.
  assert (Hprofiles : profiles (self w1) =
            filter (fun entry =>
                      negb (is_old (clock (env (host w)) (tick (host w))
                                    - maxAge) entry))
                   (profiles (self w))).
  { unfold w1, exec. rewrite cleanupProfiles_world. cbn.
    now apply deletions_filter. }
  assert (Hnone : Forall (fun entry =>
              is_old (clock (env (host w1)) (tick (host w1)) - maxAge')
                     entry = false) (profiles (self w1))).
  { rewrite Hprofiles, Henv, Htick. apply Forall_forall.
    intros entry Hin. apply filter_In in Hin. destruct Hin as [_ Hkeep].
    apply negb_true_iff in Hkeep. unfold is_old in *.
    apply Z.ltb_ge in Hkeep. apply Z.ltb_ge. lia. }
  rewrite cleanupProfiles_world. cbv zeta.
  rewrite (filter_nothing _ _ Hnone).
  rewrite (cleanupLoop_nothing _ _ Hnone). cbn.
  unfold add_trace, advance. cbn. destruct w1 as [[] h]. reflexivity.
Qed.

(** X18.  A cleanup pass deletes no file other than the artifacts of the
    profiles it drops: every path that is not the [filepath] of a profile
    older than the cutoff holds after the pass what it held before. *)
Theorem cleanup_spares_other_files (w : World) (maxAge : Z) (path : string) :
  let cutoff := clock (env (host w)) (tick (host w)) - maxAge in
  (forall profileId profile,
     In (profileId, profile) (profiles (self w)) ->
     p_timestamp profile < cutoff ->
     p_filepath profile <> path) ->
  sget path (files (host (exec (cleanupProfiles maxAge) w))) =
  sget path (files (host w)).
Proof.
  intros cutoff Hother.
  destruct (cleanupProfiles_host w maxAge) as (_ & _ & Hkeep & _).
  apply Hkeep. unfold old_paths. intros Hin. apply in_map_iff in Hin.
  destruct Hin as ([profileId profile] & Hpath & Hin).
  apply filter_In in Hin. destruct Hin as [Hin Hold].
  unfold is_old in Hold. cbn in Hold, Hpath. apply Z.ltb_lt in Hold.
  exact (Hother profileId profile Hin Hold Hpath).
Qed.

(** X19.  When the file names are distinct, the artifact of every profile
    older than the cutoff is gone after the pass unless the file system
    refuses its path; the file names stay distinct. *)
Theorem cleanup_removes_old_artifacts (w : World) (maxAge : Z) :
  let cutoff := clock (env (host w)) (tick (host w)) - maxAge in
  let w' := exec (cleanupProfiles maxAge) w in
  NoDup (map fst (files (host w))) ->
  NoDup (map fst (files (host w'))) /\
  (forall profileId profile,
     In (profileId, profile) (profiles (self w)) ->
     p_timestamp profile < cutoff ->
     denied (env (host w)) (p_filepath profile) = false ->
     sget (p_filepath profile) (files (host w')) = None).
Proof.
  intros cutoff w' Hnd.
  destruct (cleanupProfiles_host w maxAge) as (_ & _ & _ & Hdup).
  destruct (Hdup Hnd) as [Hnd' Hgone]. split; [exact Hnd'|].
  intros profileId profile Hin Hold Hden. apply Hgone; [|exact Hden].
  unfold old_paths.
  apply (in_map (fun entry => p_filepath (snd entry)) _ (profileId, profile)).
  apply filter_In. split; [exact Hin|].
  unfold is_old. cbn. now apply Z.ltb_lt.
Qed.

(** ** Captures *)

(** X20.  [profileCPU] registers a profile exactly when it resolves.  It
    rejects when there is no session and when the profile cannot be
    written; when the inspector answers [Profiler.stop] with an error its
    promise is never settled and the rejection of the callback is left
    unhandled.  In these three cases the profile map and the files are
    untouched.  If it resolves, the returned path is
    [path.join(outputDir, 'cpu_<start time>.cpuprofile')] —
    ['profiles/cpu_<start time>.cpuprofile'] for the default directory —
    the file holds the profile the inspector delivered, the map holds an
    entry under [cpu_<start time>] with that path, the requested duration
    and the serialized size, and [profile-complete] is the last effect. *)
Theorem cpu_profile_registered_iff_resolved (w : World) (duration : Z) :
  let profileId :=
    ("cpu_" ++ show_Z (clock (env (host w)) (tick (host w))))%string in
  let filename := (profileId ++ ".cpuprofile")%string in
  let filepath := path_join (outputDir (config (self w))) filename in
  let w' := exec (profileCPU duration) w in
  match eval (profileCPU duration) w with
  | Throw error =>
      profiles (self w') = profiles (self w) /\
      files (host w') = files (host w) /\
      (session (self w) = None /\ error = SessionNotActive \/
       session (self w) <> None /\ denied (env (host w)) filepath = true)
  | Ok Pending =>
      profiles (self w') = profiles (self w) /\
      files (host w') = files (host w) /\
      session (self w) <> None /\
      (exists err, cpu_capture (env (host w)) (1 + tick (host w)) = inl err) /\
      trace (host w') =
        trace (host w) ++ cpu_capture_effects profileId duration
        ++ [Unhandled (HostFailure "TypeError")]
  | Ok (Resolved path) =>
      path = filepath /\
      (outputDir (config (self w)) = "./profiles" ->
       path = ("profiles/" ++ filename)%string) /\
      (outputDir (config (self w)) = "" -> path = filename) /\
      exists profile,
        cpu_capture (env (host w)) (1 + tick (host w)) = inr profile /\
        sget filepath (files (host w')) = Some (CpuProfileFile profile) /\
        sget profileId (profiles (self w')) =
          Some {| p_type := TCpu; p_filename := filename;
                  p_filepath := filepath;
                  p_timestamp := clock (env (host w)) (2 + tick (host w));
                  p_duration := Some duration;
                  p_size := Some (byteLength (env (host w)) profile);
                  p_samples := None |} /\
        exists before,
          trace (host w') =
          before ++ [Emit (EvProfileComplete TCpu profileId filepath)]
  end.
Proof.
  cbv zeta.
  destruct (artifact_name_join "c" "pu_" ".cpuprofile"
              (clock (env (host w)) (tick (host w)))
              eq_refl eq_refl eq_refl eq_refl) as [Hdefault Hempty].
  revert Hdefault Hempty.
  change ((String "c" "pu_" ++ show_Z (clock (env (host w)) (tick (host w))))
          ++ ".cpuprofile")%string
    with (("cpu_" ++ show_Z (clock (env (host w)) (tick (host w))))
          ++ ".cpuprofile")%string.
  intros Hdefault Hempty.
  unfold eval, exec, profileCPU, fs_writeFile. step.
  destruct (session (self w)) eqn:Hs; steps;
    [|split; [reflexivity|split; [reflexivity|left; auto]]].
  destruct (cpu_capture (env (host w)) (S (tick (host w))))
    as [err|profile] eqn:Hreply; steps.
  { split; [reflexivity|]. split; [reflexivity|].
    split; [discriminate|]. split; [eauto|].
    unfold cpu_capture_effects. now rewrite <- !app_assoc. }
  destruct (denied (env (host w)) _) eqn:Hden; steps.
  { split; [reflexivity|]. split; [reflexivity|]. right.
    split; [discriminate|reflexivity]. }
  split; [reflexivity|].
  split; [intros ->; exact Hdefault|].
  split; [intros ->; exact Hempty|].
  exists profile.
  split; [reflexivity|]. split; [apply sget_sset_same|].
  split; [apply sget_sset_same|]. eexists. reflexivity.
Qed.

(** X21.  [takeHeapSnapshot] registers a profile only when it resolves:
    whenever it fails the profile map is untouched, and without a global
    [require] it fails on an active session before writing or requesting
    anything.  If it resolves, the returned path is
    [path.join(outputDir, 'heap_<start time>.heapsnapshot')] —
    ['profiles/heap_<start time>.heapsnapshot'] for the default directory —
    the snapshot is registered under [heap_<start time>] with that path,
    and the registered size is the sum of the byte lengths of the chunks.
    Unless the file system refuses the path, the file then holds the
    chunks in the order delivered; a refused path is never written. *)
Theorem heap_snapshot_registered_iff_resolved (w : World) :
  let snapshotId :=
    ("heap_" ++ show_Z (clock (env (host w)) (tick (host w))))%string in
  let filename := (snapshotId ++ ".heapsnapshot")%string in
  let filepath := path_join (outputDir (config (self w))) filename in
  let w' := exec takeHeapSnapshot w in
  match eval takeHeapSnapshot w with
  | Throw error =>
      profiles (self w') = profiles (self w) /\
      (session (self w) <> None ->
       has_require (env (host w)) = false ->
       error = HostFailure "ReferenceError" /\
       files (host w') = files (host w) /\
       trace (host w') =
         trace (host w) ++ [Log LInfo (MsgTakingHeapSnapshot snapshotId)])
  | Ok path =>
      path = filepath /\
      (outputDir (config (self w)) = "./profiles" ->
       path = ("profiles/" ++ filename)%string) /\
      (outputDir (config (self w)) = "" -> path = filename) /\
      exists chunks,
        heap_capture (env (host w)) (1 + tick (host w)) = inr chunks /\
        (denied (env (host w)) filepath = false ->
         sget filepath (files (host w')) = Some (HeapSnapshotFile chunks)) /\
        (denied (env (host w)) filepath = true ->
         files (host w') = files (host w)) /\
        sget snapshotId (profiles (self w')) =
          Some {| p_type := THeap; p_filename := filename;
                  p_filepath := filepath;
                  p_timestamp := clock (env (host w)) (2 + tick (host w));
                  p_duration := None;
                  p_size := Some (chunks_size chunks);
                  p_samples := None |}
  end.
Proof.
  cbv zeta.
  destruct (artifact_name_join "h" "eap_" ".heapsnapshot"
              (clock (env (host w)) (tick (host w)))
              eq_refl eq_refl eq_refl eq_refl) as [Hdefault Hempty].
  revert Hdefault Hempty.
  change ((String "h" "eap_" ++ show_Z (clock (env (host w)) (tick (host w))))
          ++ ".heapsnapshot")%string
    with (("heap_" ++ show_Z (clock (env (host w)) (tick (host w))))
          ++ ".heapsnapshot")%string.
  intros Hdefault Hempty.
  unfold eval, exec, takeHeapSnapshot, stream_write, stream_error. step.
  destruct (session (self w)) eqn:Hs; steps;
    [|split; [reflexivity|intros H; now contradiction H]].
  destruct (has_require (env (host w))) eqn:Hreq; steps;
    [|split; [reflexivity|intros _ _; auto]].
  destruct (denied (env (host w)) _) eqn:Hden; steps;
    (destruct (heap_capture (env (host w)) (S (tick (host w))))
       as [err|chunks] eqn:Hreply; steps;
     [split; [reflexivity|intros _ H; discriminate H]|]).
  - split; [reflexivity|].
    split; [intros ->; exact Hdefault|].
    split; [intros ->; exact Hempty|].
    exists chunks. split; [reflexivity|].
    split; [discriminate|]. split; [reflexivity|].
    apply sget_sset_same.
  - split; [reflexivity|].
    split; [intros ->; exact Hdefault|].
    split; [intros ->; exact Hempty|].
    exists chunks. split; [reflexivity|].
    split; [|split; [discriminate|apply sget_sset_same]].
    intros _. rewrite sset_sset. apply sget_sset_same.
Qed.

Lemma sampleInterval_self firings total : forall acc cnt w,
  self (snd (sampleInterval firings total acc cnt w)) = self w /\
  env (host (snd (sampleInterval firings total acc cnt w))) = env (host w) /\
  files (host (snd (sampleInterval firings total acc cnt w))) = files (host w).
Proof.
  induction firings as [|n IH]; intros acc cnt w; [cbn; auto|].
  cbn [sampleInterval]. step.
  destruct (Qle_bool _ _); steps; [auto|].
  match goal with |- context [sampleInterval n total ?a ?c ?x] =>
    destruct (IH a c x) as (H1 & H2 & H3) end.
  cbn in H1, H2, H3. auto.
Qed.

Ltac frame_done :=
  let E := fresh in
  intros E; inversion E; subst; cbn;
  repeat split; try reflexivity; congruence.

(** X22.  No capture method touches the metric buffers, the performance
    marks, the running flag, the session or the configuration, whether it
    succeeds, fails or is still pending. *)
Theorem captures_leave_buffers_and_session (w : World) :
  (forall duration,
     same_buffers_and_session w (exec (profileCPU duration) w)) /\
  same_buffers_and_session w (exec takeHeapSnapshot w) /\
  (forall firings duration,
     same_buffers_and_session w (exec (profileMemory firings duration) w)).
Proof.
  split; [|split].
  - intros duration. unfold exec.
    destruct (profileCPU duration w) as [r w'] eqn:E. cbn [snd]. revert E.
    unfold same_buffers_and_session, profileCPU, fs_writeFile. step.
    destruct (session (self w)) eqn:Hs; steps;
      [|frame_done].
    destruct (cpu_capture _ _); steps;
      [frame_done|].
    destruct (denied _ _); steps; frame_done.
  - unfold exec.
    destruct (takeHeapSnapshot w) as [r w'] eqn:E. cbn [snd]. revert E.
    unfold same_buffers_and_session, takeHeapSnapshot, stream_write,
      stream_error. step.
    destruct (session (self w)) eqn:Hs; steps;
      [|frame_done].
    destruct (has_require _); steps;
      [|frame_done].
    destruct (denied (env (host w)) _) eqn:Hden; steps;
      (destruct (heap_capture _ _); steps; frame_done).
  - intros firings duration. unfold exec.
    destruct (profileMemory firings duration w) as [r w'] eqn:E.
    cbn [snd]. revert E. unfold same_buffers_and_session, profileMemory.
    unfold bind at 1. unfold Date_now, query at 1. cbv beta iota.
    unfold bind at 1. unfold logger, effect, on_host at 1. cbv beta iota.
    unfold bind at 1. unfold effect, on_host at 1. cbv beta iota.
    unfold bind at 1.
    match goal with |- context [sampleInterval ?f ?t ?a ?c ?x] =>
      destruct (sampleInterval_self f t a c x) as (Hself & Henv & _);
      destruct (sampleInterval f t a c x) as [[[samples|]|e] w1] end;
      cbn in Hself, Henv.
    + unfold fs_writeFile. steps.
      destruct (denied _ _); steps; frame_done.
    + cbn. frame_done.
    + cbn. frame_done.
Qed.

(** ** More on the flame graph *)

Lemma indexed_children (g : Z -> Z) nodes : forall n,
  map (fun kv => flameNode (bump (g (fst kv)) (snd kv))) (indexed nodes n) =
  map (fun node =>
         {| fl_name := display_name node; fl_value := g (node_id node);
            fl_url := url (callFrame node);
            fl_line := lineNumber (callFrame node);
            fl_column := columnNumber (callFrame node) |})
      nodes.
Proof.
  induction nodes as [|node rest IH]; intros n; cbn [indexed map];
    [reflexivity|].
  rewrite IH. reflexivity.
Qed.

(** X23.  For distinct node ids the flame graph has exactly one child per
    profile node, in the order of the node list; each child carries the
    node's function name — ['(anonymous)'] when the name is empty — its
    url, line and column, and the time credited to the node.  The root is
    named ['root'] and its value is [endTime - startTime]. *)
Theorem flame_graph_has_one_child_per_node (profile : RawProfile) :
  NoDup (map node_id (nodes profile)) ->
  _convertToFlameGraph profile =
  {| fg_name := "root";
     fg_value := endTime profile - startTime profile;
     fg_children :=
       map (fun node =>
              {| fl_name := display_name node;
                 fl_value := credited (timeDeltas profile) (node_id node)
                                      (samples profile) 0;
                 fl_url := url (callFrame node);
                 fl_line := lineNumber (callFrame node);
                 fl_column := columnNumber (callFrame node) |})
           (nodes profile) |}.
Proof.
  intros Hnd. unfold _convertToFlameGraph. f_equal.
  unfold _processProfileNodes, JsMap.values.
  rewrite nodeMap_totals by exact Hnd. rewrite !map_map.
  apply (indexed_children
           (fun id => credited (timeDeltas profile) id (samples profile) 0)).
Qed.

Lemma total_pointwise {A} (f g : A -> Z) (xs : list A) :
  total (map (fun x => f x + g x) xs) = total (map f xs) + total (map g xs).
Proof.
  unfold total. induction xs as [|x xs IH]; cbn; [reflexivity|].
  rewrite IH. lia.
Qed.

Lemma total_indicator (sample delta : Z) (ids : list Z) :
  NoDup ids ->
  total (map (fun id => if sample =? id then delta else 0) ids) =
  if existsb (Z.eqb sample) ids then delta else 0.
Proof.
  unfold total.
  induction ids as [|id ids IH]; intros Hnd; cbn; [reflexivity|].
  inversion Hnd as [|? ? Hnotin Hnd']; subst. rewrite IH by exact Hnd'.
  destruct (Z.eqb_spec sample id) as [->|Hne]; cbn; [|reflexivity].
  destruct (existsb (Z.eqb id) ids) eqn:E; [|lia].
  apply existsb_exists in E. destruct E as (x & Hx & Heq).
  apply Z.eqb_eq in Heq. subst x. contradiction.
Qed.

Lemma total_credited timeDeltas ids samples : forall index,
  NoDup ids ->
  total (map (fun id => credited timeDeltas id samples index) ids) =
  known_time timeDeltas ids samples index.
Proof.
  induction samples as [|sample rest IH]; intros index Hnd; cbn.
  - unfold total. clear Hnd. induction ids; cbn; [reflexivity|]. assumption.
  - rewrite (total_pointwise
               (fun id => if sample =? id then delta_at timeDeltas index else 0)
               (fun id => credited timeDeltas id rest (S index))).
    rewrite IH by exact Hnd. now rewrite total_indicator.
Qed.

(** X24.  The values of the flame graph add up to the time of the samples
    that refer to a node of the profile: a sample whose id is no node's id
    is counted nowhere, and no sample is counted twice. *)
Theorem flame_graph_conserves_time nodes samples timeDeltas :
  NoDup (map node_id nodes) ->
  total (map fl_value (_processProfileNodes nodes samples timeDeltas)) =
  known_time timeDeltas (map node_id nodes) samples 0.
Proof.
  intros Hnd. rewrite flame_values by exact Hnd.
  rewrite <- (total_credited timeDeltas (map node_id nodes) samples 0 Hnd).
  now rewrite map_map.
Qed.

(** ** Flame-graph file name *)

Lemma last_char_append (a : string) c rest :
  last_char (a ++ String c rest) = last_char (String c rest).
Proof.
  induction a as [|x a IH]; [reflexivity|].
  change (String x a ++ String c rest)%string
    with (String x (a ++ String c rest)).
  rewrite <- IH. destruct a; reflexivity.
Qed.

Lemma string_length_append (a b : string) :
  String.length (a ++ b) = (String.length a + String.length b)%nat.
Proof.
  induction a as [|c a IH]; [reflexivity|].
  change (String c a ++ b)%string with (String c (a ++ b)).
  cbn [String.length]. now rewrite IH.
Qed.

Lemma strip_suffix_sound suffix : forall s stem,
  strip_suffix suffix s = Some stem -> s = (stem ++ suffix)%string.
Proof.
  induction s as [|c rest IH]; intros stem; cbn [strip_suffix].
  - destruct (String.eqb_spec "" suffix) as [<-|_]; [|discriminate].
    now intros [= <-].
  - destruct (String.eqb_spec (String c rest) suffix) as [<-|_].
    + now intros [= <-].
    + destruct (strip_suffix suffix rest) as [stem'|] eqn:E; [|discriminate].
      intros [= <-]. now rewrite (IH stem' eq_refl).
Qed.

Lemma strip_suffix_append suffix : forall stem,
  strip_suffix suffix (stem ++ suffix) = Some stem.
Proof.
  induction stem as [|c stem IH].
  - change ("" ++ suffix)%string with suffix.
    destruct suffix; cbn [strip_suffix]; now rewrite String.eqb_refl.
  - change (String c stem ++ suffix)%string with (String c (stem ++ suffix)).
    cbn [strip_suffix].
    destruct (String.eqb_spec (String c (stem ++ suffix)) suffix) as [E|_].
    + exfalso. apply (f_equal String.length) in E. cbn in E.
      rewrite string_length_append in E. lia.
    + now rewrite IH.
Qed.

(** X25.  The flame graph of [<stem>.cpuprofile] or [<stem>.json] is
    written to [<stem>.flamegraph.json].  Only the ending counts: a path
    with neither ending is returned unchanged, so that the flame graph
    is written over the file it was computed from. *)
Theorem flame_graph_path_replaces_ending :
  (forall stem,
     flameGraphPath (stem ++ ".cpuprofile") = (stem ++ ".flamegraph.json")%string) /\
  (forall stem,
     flameGraphPath (stem ++ ".json") = (stem ++ ".flamegraph.json")%string) /\
  (forall path,
     (forall stem, path <> (stem ++ ".cpuprofile")%string) ->
     (forall stem, path <> (stem ++ ".json")%string) ->
     flameGraphPath path = path).
Proof.
  split; [|split].
  - intros stem. unfold flameGraphPath. now rewrite strip_suffix_append.
  - intros stem. unfold flameGraphPath.
    destruct (strip_suffix ".cpuprofile" (stem ++ ".json")) as [other|] eqn:E.
    + apply strip_suffix_sound in E. apply (f_equal last_char) in E.
      rewrite !last_char_append in E. discriminate E.
    + now rewrite strip_suffix_append.
  - intros path Hcpu Hjson. unfold flameGraphPath.
    destruct (strip_suffix ".cpuprofile" path) as [stem|] eqn:E1.
    + apply strip_suffix_sound in E1. now contradiction (Hcpu stem).
    + destruct (strip_suffix ".json" path) as [stem|] eqn:E2; [|reflexivity].
      apply strip_suffix_sound in E2. now contradiction (Hjson stem).
Qed.

(** ** Constructor options *)

(** X26.  The configuration the constructor builds takes every option the
    caller passed as it is — also an empty output directory or a zero
    duration, which the [||] defaults would have replaced — and the default
    for every absent one.  A [performanceThresholds] object is taken whole:
    the thresholds it leaves out stay undefined instead of getting their
    defaults.  Without options the result is the default configuration. *)
Theorem constructor_keeps_passed_options (o : Options) :
  constructor_config o =
  {| mc_outputDir :=
       match o_outputDir o with Some v => v | None => "./profiles" end;
     mc_autoProfile :=
       match o_autoProfile o with Some v => v | None => false end;
     mc_profileDuration :=
       match o_profileDuration o with Some v => v | None => 30000 end;
     mc_heapSnapshotInterval :=
       match o_heapSnapshotInterval o with Some v => v | None => 300000 end;
     mc_performanceThresholds :=
       match o_performanceThresholds o with
       | Some given => given
       | None => default_thresholds
       end |} /\
  (forall given,
     o_performanceThresholds o = Some given ->
     to_gcFrequency given = None ->
     usable_config (constructor_config o) = None) /\
  usable_config (constructor_config no_options) = Some default_config.
Proof.
  split; [|split].
  - unfold constructor_config, spread_options, config_literal. cbn.
    destruct o as [dir auto duration interval thresholds]. cbn.
    destruct dir, auto, duration, interval, thresholds; reflexivity.
  - intros given Hgiven Hgc. unfold usable_config, constructor_config. cbn.
    rewrite Hgiven, Hgc.
    destruct (to_cpuUsage given), (to_memoryUsage given); reflexivity.
  - reflexivity.
Qed.

(** ** Summaries and appended records *)

Lemma stat_of_summarises (x : Z) (rest : list Z) :
  summarises (stat_of (x :: rest)) (x :: rest).
Proof.
  unfold summarises, stat_of. cbn [st_min st_max st_avg].
  destruct (Math_min_spec x rest) as [Hmin_in Hmin].
  destruct (Math_max_spec x rest) as [Hmax_in Hmax].
  split; [exact Hmin_in|]. split; [exact Hmax_in|]. split; [|reflexivity].
  rewrite Forall_forall in *. intros y Hy.
  split; [exact (Hmin y Hy) | exact (Hmax y Hy)].
Qed.

(** X27.  The summary of a memory profile is the empty object for no
    samples.  For at least one sample it holds, for each of [heapUsed],
    [heapTotal] and [external], a minimum and a maximum that are attained
    and bound every sample, with the minimum not above the maximum, and
    the average of that same column as the engine computes it; its growth
    rate is that of the [heapUsed] values. *)
Theorem memory_summary_bounds_the_samples :
  _analyzeMemoryProfile [] = None /\
  (forall first rest,
     let samples := first :: rest in
     exists summary,
       _analyzeMemoryProfile samples = Some summary /\
       summarises (s_heapUsed summary)
                  (map (fun s => heapUsed (mem_usage s)) samples) /\
       summarises (s_heapTotal summary)
                  (map (fun s => heapTotal (mem_usage s)) samples) /\
       summarises (s_external summary)
                  (map (fun s => external (mem_usage s)) samples) /\
       st_min (s_heapUsed summary) <= st_max (s_heapUsed summary) /\
       st_min (s_heapTotal summary) <= st_max (s_heapTotal summary) /\
       st_min (s_external summary) <= st_max (s_external summary) /\
       s_growthRate summary =
         _calculateGrowthRate (map (fun s => heapUsed (mem_usage s)) samples)).
Proof.
  split; [reflexivity|]. intros first rest samples.
  assert (Hle : forall x xs, st_min (stat_of (x :: xs))
                             <= st_max (stat_of (x :: xs))).
  { intros x xs. destruct (stat_of_summarises x xs) as (_ & _ & Hall & _).
    inversion Hall as [|? ? Hx _]; subst. lia. }
  eexists. split; [reflexivity|].
  cbn [s_heapUsed s_heapTotal s_external s_growthRate]. unfold samples.
  cbn [map].
  split; [apply stat_of_summarises|]. split; [apply stat_of_summarises|].
  split; [apply stat_of_summarises|].
  split; [apply Hle|]. split; [apply Hle|]. split; [apply Hle|reflexivity].
Qed.

(** X28.  A mark entry is remembered under its name with the clock value
    and its start time; a later mark of the same name replaces it, marks
    of other names stay, and no metric buffer changes. *)
Theorem mark_entry_is_remembered (w : World) name startTime :
  let w' := exec (_handleMarkEntry name startTime) w in
  sget name (performanceMarks (self w')) =
    Some {| mark_timestamp := clock (env (host w)) (tick (host w));
            mark_startTime := startTime |} /\
  (forall other, other <> name ->
     sget other (performanceMarks (self w')) =
     sget other (performanceMarks (self w))) /\
  (forall startTime',
     performanceMarks (self (exec (_handleMarkEntry name startTime') w')) =
     sset name {| mark_timestamp := clock (env (host w)) (1 + tick (host w));
                  mark_startTime := startTime' |}
          (performanceMarks (self w))) /\
  metrics (self w') = metrics (self w).
Proof.
  cbv zeta. unfold exec. rewrite mark_world. cbn [snd].
  split; [apply sget_sset_same|].
  split; [intros other Hne; now apply sget_sset_other|].
  split; [|reflexivity].
  intros startTime'. rewrite mark_world. cbn. apply sset_sset.
Qed.

Lemma filter_keeps_last {A} (f : A -> bool) (xs : list A) (x : A) :
  f x = true -> filter f (xs ++ [x]) = filter f xs ++ [x].
Proof. intros H. rewrite filter_app. cbn. now rewrite H. Qed.

(** X29.  An append does record: unless the clock jumps by an hour or more
    between stamping the record and computing the cutoff, the buffer after
    a GC entry (a sampler pass) is the events (samples) of the old buffer
    that are newer than the cutoff, followed by the new one. *)
Theorem appended_record_is_newest (w : World) :
  let e := env (host w) in
  let t := tick (host w) in
  (forall duration detail,
     clock e (1 + t) - 3600000 < clock e t ->
     m_gc (metrics (self (exec (_handleGCEntry duration detail) w))) =
     filter (fun gc => gc_timestamp gc >? clock e (1 + t) - 3600000)
            (m_gc (metrics (self w)))
     ++ [{| gc_timestamp := clock e t; gc_duration := duration;
            gc_type := entry_gc_type detail;
            gc_flags := entry_gc_flags detail |}]) /\
  (clock e (4 + t) - 3600000 < clock e (2 + t) ->
   m_memory (metrics (self (exec _collectSystemMetrics w))) =
   filter (fun m => mem_timestamp m >? clock e (4 + t) - 3600000)
          (m_memory (metrics (self w)))
   ++ [{| mem_timestamp := clock e (2 + t);
          mem_usage := memoryUsage e t |}]) /\
  (clock e (4 + t) - 3600000 < clock e (3 + t) ->
   m_cpu (metrics (self (exec _collectSystemMetrics w))) =
   filter (fun c => cpu_timestamp c >? clock e (4 + t) - 3600000)
          (m_cpu (metrics (self w)))
   ++ [{| cpu_timestamp := clock e (3 + t);
          cpu_usage := cpuUsage e (1 + t) |}]).
Proof.
  cbv zeta. split; [|split].
  - intros duration detail Hclock. rewrite handleGC_buffer.
    apply filter_keeps_last. cbn in Hclock |- *. apply Z.gtb_lt. lia.
  - intros Hclock. rewrite collect_memory_buffer.
    apply filter_keeps_last. cbn in Hclock |- *. apply Z.gtb_lt. lia.
  - intros Hclock. rewrite collect_cpu_buffer.
    apply filter_keeps_last. cbn in Hclock |- *. apply Z.gtb_lt. lia.
Qed.

(** ** Further concrete runs *)

Lemma failed_start_leaves_running_flag_witness :
  isRunning (self closed_world) = false /\
  eval start closed_world = Throw (HostFailure "ERR_INSPECTOR_NOT_AVAILABLE") /\
  isRunning (self (exec start closed_world)) = true /\
  eval start (exec start closed_world) = Ok tt.
Proof.
  pose proof (failed_start_leaves_running_flag closed_world
                eq_refl eq_refl eq_refl eq_refl) as H.
  cbv zeta in H. destruct H as (H1 & H2 & _ & _ & _ & H6 & _).
  split; [reflexivity|]. split; [exact H1|]. split; [|exact H6].
  rewrite H2. reflexivity.
Defined.

Lemma start_then_stop_restores_profiler_witness :
  isRunning (self idle_world) = false /\
  session (self idle_world) = None /\
  eval start idle_world = Ok tt /\
  self (exec stop (exec start idle_world)) = self idle_world.
Proof.
  split; [reflexivity|]. split; [reflexivity|]. split; [reflexivity|].
  exact (proj1 (start_then_stop_restores_profiler idle_world
                  eq_refl eq_refl eq_refl)).
Defined.


Lemma auto_profile_firing_never_fails_witness :
  (isRunning (self (exec start closed_world)) = true /\
   session (self (exec start closed_world)) = None /\
   exec profileInterval (exec start closed_world) =
   add_trace [Log LError (MsgAutoProfileFailed SessionNotActive)]
             (exec start closed_world)) /\
  (isRunning (self attached_world) = true /\
   session (self attached_world) <> None /\
   cpu_capture (env (host attached_world)) 1
     = inl (HostFailure "not capturing") /\
   trace (host (exec profileInterval attached_world)) =
   [Log LInfo (MsgStartingCpuProfile "cpu_5" 30000);
    SessionPost "Profiler.enable"; SessionPost "Profiler.start";
    SetTimeout 30000; SessionPost "Profiler.stop";
    Unhandled (HostFailure "TypeError")]).
Proof.
  split.
  - split; [reflexivity|]. split; [reflexivity|].
    pose proof (auto_profile_firing_never_fails (exec start closed_world))
      as H.
    cbv zeta in H. exact (proj1 (proj2 (proj2 H)) eq_refl eq_refl).
  - assert (Hs : session (self attached_world) <> None) by discriminate.
    split; [reflexivity|]. split; [exact Hs|]. split; [reflexivity|].
    pose proof (auto_profile_firing_never_fails attached_world) as H.
    cbv zeta in H.
    destruct (proj2 (proj2 (proj2 H)) (HostFailure "not capturing")
                eq_refl Hs eq_refl) as [_ Hrun].
    rewrite Hrun. reflexivity.
Defined.

Lemma measure_entry_appends_record_witness :
  (1000 <? 1500)%float = true /\
  trace (host (exec (_handleMeasureEntry "load" 1500 0) idle_world)) =
  trace (host idle_world) ++ [Emit (EvSlowOperation "load" 1500 1000)].
Proof.
  assert (H : (1000 <? 1500)%float = true) by reflexivity.
  split; [exact H|].
  pose proof (measure_entry_appends_record idle_world "load" 1500 0) as G.
  cbv zeta in G. destruct G as (_ & _ & _ & _ & _ & _ & G & _).
  exact (G H).
Defined.

Lemma event_handling_keeps_session_and_artifacts_witness :
  NoDup (map fst (m_operations (metrics (self idle_world)))) /\
  NoDup (map fst (m_operations
                    (metrics (self (exec (deliver_all sample_history)
                                         idle_world))))).
Proof.
  assert (H : NoDup (map fst (m_operations (metrics (self idle_world)))))
    by constructor.
  split; [exact H|].
  pose proof (event_handling_keeps_session_and_artifacts
                sample_history idle_world) as G.
  cbv zeta in G. exact (proj2 (proj2 G) H).
Defined.

Lemma buffers_stay_chronological_witness :
  nondecreasing (clock (env (host idle_world))) /\
  timeline_ok idle_world /\
  timeline_ok (exec (deliver_all sample_history) idle_world).
Proof.
  assert (Hmono : nondecreasing (clock (env (host idle_world)))).
  { intros i j _. cbn. lia. }
  assert (Hok : timeline_ok idle_world).
  { unfold timeline_ok. cbn.
    repeat split; constructor. }
  split; [exact Hmono|]. split; [exact Hok|].
  exact (buffers_stay_chronological sample_history idle_world Hmono Hok).
Defined.

Lemma gc_event_matches_detector_witness :
  frozen gc_world 100000 /\
  exists bs,
    eval detectBottlenecks (exec (_handleGCEntry 1 None) gc_world) = Ok bs /\
    ((of_type high_gc_frequency bs = [] /\
      trace (host (exec (_handleGCEntry 1 None) gc_world)) =
      trace (host gc_world)) \/
     (exists count,
        of_type high_gc_frequency bs = [gcBottleneck count 10] /\
        trace (host (exec (_handleGCEntry 1 None) gc_world)) =
        trace (host gc_world) ++ [Emit (EvHighGcFrequency count 10)])).
Proof.
  assert (H : frozen gc_world 100000) by apply still_frozen.
  split; [exact H|].
  exact (gc_event_matches_detector gc_world 100000 1 None H).
Defined.

Lemma growth_rate_uses_only_the_ends_witness :
  (List.length [5] < 2)%nat /\ _calculateGrowthRate [5] = 0%Q.
Proof.
  assert (H : (List.length [5] < 2)%nat) by (cbn; lia).
  split; [exact H|].
  exact (proj1 growth_rate_uses_only_the_ends [5] H).
Defined.

Lemma memory_trend_by_endpoints_witness :
  m_memory (metrics (self leak_world)) = [] ++ leak_first :: [] ++ [leak_final] /\
  eval _analyzeMemoryTrend leak_world = Ok increasing.
Proof.
  split; [reflexivity|].
  exact (proj2 (memory_trend_by_endpoints leak_world)
               [] leak_first [] leak_final eq_refl eq_refl).
Defined.

Lemma leak_finding_matches_trend_witness :
  (List.length (m_memory (metrics (self leak_world))) <= 10)%nat /\
  exists bs,
    eval detectBottlenecks leak_world = Ok bs /\
    (of_type memory_leak bs <> [] <->
     eval _analyzeMemoryTrend leak_world = Ok increasing).
Proof.
  assert (H : (List.length (m_memory (metrics (self leak_world))) <= 10)%nat)
    by (cbn; lia).
  split; [exact H|]. exact (leak_finding_matches_trend leak_world H).
Defined.

Lemma gc_summary_is_consistent_witness :
  frozen gc_world 100000 /\
  exists summary,
    eval _analyzeGCSummary gc_world = Ok summary /\
    gs_count summary = 11%nat.
Proof.
  assert (H : frozen gc_world 100000) by apply still_frozen.
  split; [exact H|].
  destruct (gc_summary_is_consistent gc_world)
    as (summary & Hrun & _ & _ & _ & Hcount).
  exists summary. split; [exact Hrun|].
  rewrite (proj1 (Hcount 100000 H)). reflexivity.
Defined.

Lemma detector_findings_are_bounded_witness :
  m_gc (metrics (self idle_world)) = [] /\
  eval detectBottlenecks idle_world = Ok [].
Proof.
  split; [reflexivity|].
  destruct (detector_findings_are_bounded idle_world)
    as (gcs & leaks & slow & Hrun & _ & _ & _ & _ & _ & _ & Hempty).
  rewrite Hrun. f_equal.
  apply Hempty; [reflexivity|reflexivity|reflexivity|cbn; lia].
Defined.

Lemma cleanup_again_changes_nothing_witness :
  NoDup (map fst (profiles (self stale_world))) /\
  cleanupProfiles default_maxAge
    (exec (cleanupProfiles default_maxAge) stale_world) =
  (Ok tt,
   add_trace [Log LInfo (MsgCleanedUp 0)]
     (advance 1 (exec (cleanupProfiles default_maxAge) stale_world))).
Proof.
  assert (Hnd : NoDup (map fst (profiles (self stale_world)))).
  { cbn. constructor; [intros []|constructor]. }
  split; [exact Hnd|].
  apply (cleanup_again_changes_nothing stale_world default_maxAge
           default_maxAge Hnd).
  cbn. lia.
Defined.

Lemma cleanup_spares_other_files_witness :
  sget "profiles/notes.txt"
       (files (host (exec (cleanupProfiles default_maxAge) archive_world))) =
  Some (HeapSnapshotFile []).
Proof.
  rewrite (cleanup_spares_other_files archive_world default_maxAge
             "profiles/notes.txt"); [reflexivity|].
  intros profileId profile [E|[]] _. inversion E. subst. cbn. discriminate.
Defined.

Lemma cleanup_removes_old_artifacts_witness :
  NoDup (map fst (files (host archive_world))) /\
  sget "profiles/cpu_5.cpuprofile"
       (files (host (exec (cleanupProfiles default_maxAge) archive_world))) =
  None.
Proof.
  assert (Hnd : NoDup (map fst (files (host archive_world)))).
  { cbn. constructor; [cbn; intros [E|[]]; discriminate E|].
    constructor; [intros []|constructor]. }
  split; [exact Hnd|].
  refine (proj2 (cleanup_removes_old_artifacts archive_world default_maxAge
                   Hnd) "cpu_5" stale_profile (or_introl eq_refl) _ eq_refl).
  cbn. lia.
Defined.

Lemma cpu_profile_registered_iff_resolved_witness :
  outputDir (config (self capturing_world)) = "./profiles" /\
  eval (profileCPU 100) capturing_world =
    Ok (Resolved "profiles/cpu_5.cpuprofile").
Proof.
  assert (Hdir : outputDir (config (self capturing_world)) = "./profiles")
    by reflexivity.
  split; [exact Hdir|].
  pose proof (cpu_profile_registered_iff_resolved capturing_world 100) as H.
  cbv zeta in H.
  destruct (eval (profileCPU 100) capturing_world) as [[|path]|error] eqn:E.
  - discriminate E.
  - destruct H as (_ & H & _). rewrite (H Hdir). reflexivity.
  - discriminate E.
Defined.

Lemma heap_snapshot_registered_iff_resolved_witness :
  (session (self attached_world) <> None /\
   has_require (env (host attached_world)) = false /\
   eval takeHeapSnapshot attached_world = Throw (HostFailure "ReferenceError") /\
   files (host (exec takeHeapSnapshot attached_world)) = []) /\
  (outputDir (config (self capturing_world)) = "./profiles" /\
   eval takeHeapSnapshot capturing_world =
     Ok "profiles/heap_5.heapsnapshot" /\
   sget "profiles/heap_5.heapsnapshot"
        (files (host (exec takeHeapSnapshot capturing_world))) =
     Some (HeapSnapshotFile ["{"; "}"])).
Proof.
  assert (Hs : session (self attached_world) <> None) by discriminate.
  assert (Hdir : outputDir (config (self capturing_world)) = "./profiles")
    by reflexivity.
  split.
  - split; [exact Hs|]. split; [reflexivity|].
    pose proof (heap_snapshot_registered_iff_resolved attached_world) as H.
    cbv zeta in H.
    destruct (eval takeHeapSnapshot attached_world) as [path|error] eqn:E.
    + discriminate E.
    + destruct H as (_ & H). destruct (H Hs eq_refl) as (-> & Hfiles & _).
      split; [reflexivity|exact Hfiles].
  - split; [exact Hdir|].
    pose proof (heap_snapshot_registered_iff_resolved capturing_world) as H.
    cbv zeta in H.
    destruct (eval takeHeapSnapshot capturing_world) as [path|error] eqn:E.
    + destruct H as (_ & H & _). rewrite (H Hdir). split; reflexivity.
    + discriminate E.
Defined.

Lemma flame_graph_has_one_child_per_node_witness :
  NoDup (map node_id (nodes two_node_profile)) /\
  map fl_value (fg_children (_convertToFlameGraph two_node_profile)) = [10; 2].
Proof.
  assert (Hnd : NoDup (map node_id (nodes two_node_profile))).
  { cbn. constructor; [cbn; intros [E|[]]; discriminate E|].
    constructor; [intros []|constructor]. }
  split; [exact Hnd|].
  rewrite (flame_graph_has_one_child_per_node two_node_profile Hnd).
  reflexivity.
Defined.

Lemma flame_graph_conserves_time_witness :
  NoDup (map node_id [nodeA; nodeB]) /\
  total (map fl_value (_processProfileNodes [nodeA; nodeB] [1; 2; 7; 2]
                                            [10; 0; 30])) = 12.
Proof.
  assert (Hnd : NoDup (map node_id [nodeA; nodeB])).
  { cbn. constructor; [cbn; intros [E|[]]; discriminate E|].
    constructor; [intros []|constructor]. }
  split; [exact Hnd|].
  rewrite (flame_graph_conserves_time [nodeA; nodeB] [1; 2; 7; 2] [10; 0; 30]
             Hnd).
  reflexivity.
Defined.

Lemma flame_graph_path_replaces_ending_witness :
  flameGraphPath "./profiles/heap_5.heapsnapshot" =
  "./profiles/heap_5.heapsnapshot".
Proof.
  apply (proj2 (proj2 flame_graph_path_replaces_ending)).
  - intros stem E. apply (f_equal last_char) in E.
    rewrite last_char_append in E. discriminate E.
  - intros stem E. apply (f_equal last_char) in E.
    rewrite last_char_append in E. discriminate E.
Defined.

Lemma constructor_keeps_passed_options_witness :
  o_performanceThresholds partial_options = Some (only_cpu_threshold 50) /\
  to_gcFrequency (only_cpu_threshold 50) = None /\
  mc_outputDir (constructor_config partial_options) = "" /\
  mc_profileDuration (constructor_config partial_options) = 0 /\
  usable_config (constructor_config partial_options) = None.
Proof.
  split; [reflexivity|]. split; [reflexivity|]. split; [|split].
  - rewrite (proj1 (constructor_keeps_passed_options partial_options)).
    reflexivity.
  - rewrite (proj1 (constructor_keeps_passed_options partial_options)).
    reflexivity.
  - exact (proj1 (proj2 (constructor_keeps_passed_options partial_options))
             (only_cpu_threshold 50) eq_refl eq_refl).
Defined.

Lemma mark_entry_is_remembered_witness :
  "end" <> "begin" /\
  sget "end" (performanceMarks
                (self (exec (_handleMarkEntry "begin" 0) idle_world))) = None.
Proof.
  assert (H : "end" <> "begin") by discriminate.
  split; [exact H|].
  pose proof (mark_entry_is_remembered idle_world "begin" 0) as G.
  cbv zeta in G. rewrite (proj1 (proj2 G) "end" H). reflexivity.
Defined.

Lemma appended_record_is_newest_witness :
  clock (env (host gc_world)) 1 - 3600000 < clock (env (host gc_world)) 0 /\
  List.length (m_gc (metrics (self (exec (_handleGCEntry 1 None) gc_world))))
  = 12%nat.
Proof.
  assert (H : clock (env (host gc_world)) 1 - 3600000
              < clock (env (host gc_world)) 0) by (cbn; lia).
  split; [exact H|].
  pose proof (appended_record_is_newest gc_world) as G. cbv zeta in G.
  rewrite (proj1 G 1%float None H). reflexivity.
Defined.
